(** * VoiceSeek: the turn-taking flow of the chat component and its relay routes

    A shallow embedding of the sequencing code of the repository, with the
    properties the specification states about it:
    - [queryDeepSeek] (app/services/query-deepseek.ts);
    - the relay routes: app/routes/transcribe.ts, app/routes/api.process-text.ts,
      the text-message route (src/unnamed/part_000) and the chained
      transcription route (second file of app/routes/app.tsx);
    - three revisions of the [MainInterface] component: the chained one
      (second file of app/components/MainInterface.tsx), and the counter and
      two-fetcher ones (first and second file of src/unnamed/part_001).

    Handlers are computations on the hooks of the component, in a monad of
    state and JavaScript exceptions; what the browser, the network and the
    upstream services decide is a parameter of every definition. *)

From Stdlib Require Import String Ascii List ZArith NArith Bool Arith Lia.
From Stdlib Require Import DecimalString.
Import ListNotations.
Open Scope list_scope.
Open Scope string_scope.
Set Warnings "-register-all".

(* ===================================================================== *)
(** ** JavaScript values, exceptions and the effect monad *)
(* ===================================================================== *)

Module Js.

(** Run-time values as they travel through [response.json()],
    [Response.json(...)] and the chat turns.  Numbers only matter here for
    their truthiness and their decimal rendering, so they are integers. *)
Inductive value : Type :=
| VUndefined
| VNull
| VBool (b : bool)
| VNum (n : Z)
| VStr (s : string)
| VObj (fields : list (string * value))
| VArr (items : list value).

(** What an expression can throw: an instance of [Error] (with its
    [message]), or any other value. *)
Inductive exn : Type :=
| ErrorObject (name message : string)
| NonError (v : value).

(** ToBoolean. *)
Definition truthy (v : value) : bool :=
  match v with
  | VUndefined | VNull => false
  | VBool b => b
  | VNum n => negb (n =? 0)%Z
  | VStr s => negb (s =? EmptyString)
  | VObj _ | VArr _ => true
  end.

Fixpoint lookup (k : string) (fs : list (string * value)) : value :=
  match fs with
  | [] => VUndefined
  | (k', v) :: rest => if (k =? k') then v else lookup k rest
  end.

Definition string_of_Z (z : Z) : string :=
  NilZero.string_of_int (Z.to_int z).

Definition string_of_nat (n : nat) : string :=
  NilZero.string_of_uint (Nat.to_uint n).

Definition string_of_N (n : N) : string :=
  NilZero.string_of_uint (N.to_uint n).

(** The message V8 gives to a property read on [undefined] or [null]. *)
Definition cannot_read (base key : string) : exn :=
  ErrorObject "TypeError"
    ("Cannot read properties of " ++ base ++ " (reading '" ++ key ++ "')").

(** ToString, as a template literal applies it to what the routes deliver:
    an integer prints all its digits, and an object without a [toString] of
    its own prints as [[object Object]]. *)
Fixpoint to_string (v : value) : string :=
  match v with
  | VUndefined => "undefined"
  | VNull => "null"
  | VBool true => "true"
  | VBool false => "false"
  | VNum n => string_of_Z n
  | VStr s => s
  | VObj _ => "[object Object]"
  | VArr items =>
      (fix join (l : list value) : string :=
         match l with
         | [] => EmptyString
         | x :: rest =>
             let sx := match x with
                       | VUndefined | VNull => EmptyString
                       | _ => to_string x
                       end in
             match rest with
             | [] => sx
             | _ => sx ++ "," ++ join rest
             end
         end) items
  end.

(** [JSON.parse(JSON.stringify(v))]: what the other side of the wire
    reads.  Fields bound to [undefined] disappear, [undefined] array items
    become [null]. *)
Fixpoint jsonify (v : value) : value :=
  match v with
  | VObj fs =>
      VObj ((fix go (l : list (string * value)) :=
               match l with
               | [] => []
               | (k, x) :: rest =>
                   match x with
                   | VUndefined => go rest
                   | _ => (k, jsonify x) :: go rest
                   end
               end) fs)
  | VArr xs =>
      VArr ((fix go (l : list value) :=
               match l with
               | [] => []
               | x :: rest =>
                   match x with
                   | VUndefined => VNull
                   | _ => jsonify x
                   end :: go rest
               end) xs)
  | _ => v
  end.

(** A settled promise. *)
Inductive settled : Type :=
| Resolved (v : value)
| Rejected (e : exn).

(** *** State and exceptions

    A computation runs on a store [S] and either completes with a value or
    throws, in both cases with the store as it stands at that point. *)
Inductive outcome (S A : Type) : Type :=
| Done (a : A) (s : S)
| Thrown (e : exn) (s : S).
Arguments Done {S A} a s.
Arguments Thrown {S A} e s.

Definition M (S A : Type) : Type := S -> outcome S A.

Definition ret {S A} (a : A) : M S A := fun s => Done a s.

Definition bind {S A B} (c : M S A) (k : A -> M S B) : M S B :=
  fun s => match c s with
           | Done a s' => k a s'
           | Thrown e s' => Thrown e s'
           end.

Definition throw {S A} (e : exn) : M S A := fun s => Thrown e s.

(** [try { c } catch (error) { h error }] *)
Definition try_catch {S A} (c : M S A) (h : exn -> M S A) : M S A :=
  fun s => match c s with
           | Done a s' => Done a s'
           | Thrown e s' => h e s'
           end.

Definition gets {S A} (f : S -> A) : M S A := fun s => Done (f s) s.
Definition modify {S} (f : S -> S) : M S unit := fun s => Done tt (f s).

(** [await p] for a promise whose settlement the environment decides. *)
Definition await {S} (p : settled) : M S value :=
  match p with
  | Resolved v => ret v
  | Rejected e => throw e
  end.

(** [v.k].  None of the keys the program reads is a built-in property of a
    string, number, boolean or array, so those yield [undefined]. *)
Definition get {S} (v : value) (k : string) : M S value :=
  match v with
  | VUndefined => throw (cannot_read "undefined" k)
  | VNull => throw (cannot_read "null" k)
  | VObj fs => ret (lookup k fs)
  | _ => ret VUndefined
  end.

(** [const { k } = await e].  V8 names the source of the pattern in its
    message, and an awaited expression is an [(intermediate value)]. *)
Definition destructure {S} (v : value) (k : string) : M S value :=
  match v with
  | VUndefined | VNull =>
      throw (ErrorObject "TypeError"
               ("Cannot destructure property '" ++ k
                  ++ "' of '(intermediate value)' as it is "
                  ++ to_string v ++ "."))
  | _ => get v k
  end.

(** [v?.k], which never throws. *)
Definition get_opt (v : value) (k : string) : value :=
  match v with
  | VObj fs => lookup k fs
  | _ => VUndefined
  end.

(** The double quote, for the templates that print one. *)
Definition dquote : string := String (ascii_of_nat 34) EmptyString.

(** What [v[0]] is when [v] is neither [undefined] nor [null]: the first
    item of an array, the first code unit of a string, the property [0] of
    an object. *)
Definition at0 (v : value) : value :=
  match v with
  | VArr (x :: _) => x
  | VStr (String c _) => VStr (String c EmptyString)
  | VObj fs => lookup "0" fs
  | _ => VUndefined
  end.

(** [v[0]] *)
Definition first {S} (v : value) : M S value :=
  match v with
  | VUndefined => throw (cannot_read "undefined" "0")
  | VNull => throw (cannot_read "null" "0")
  | _ => ret (at0 v)
  end.

(** [error instanceof Error ? error.message : fallback] *)
Definition message_or (fallback : string) (e : exn) : string :=
  match e with
  | ErrorObject _ m => m
  | NonError _ => fallback
  end.

End Js.

Notation "x <- c ;; k" := (Js.bind c (fun x => k))
  (at level 61, c at next level, right associativity).
Notation "c ;;; k" := (Js.bind c (fun _ => k))
  (at level 61, right associativity).

(* ===================================================================== *)
(** ** [String.prototype.trim] *)
(* ===================================================================== *)

Module Text.

(** White space and line terminators among the code units below 256:
    TAB, LF, VT, FF, CR, SP and NBSP. *)
Definition is_white_space (c : ascii) : bool :=
  let n := nat_of_ascii c in
  (((9 <=? n) && (n <=? 13)) || (n =? 32) || (n =? 160))%nat.

Fixpoint trimStart (s : string) : string :=
  match s with
  | EmptyString => EmptyString
  | String c rest => if is_white_space c then trimStart rest else s
  end.

Fixpoint trimEnd (s : string) : string :=
  match s with
  | EmptyString => EmptyString
  | String c rest =>
      match trimEnd rest with
      | EmptyString => if is_white_space c then EmptyString
                       else String c EmptyString
      | kept => String c kept
      end
  end.

Definition trim (s : string) : string := trimEnd (trimStart s).

(** Empty, or white space only. *)
Fixpoint blank (s : string) : bool :=
  match s with
  | EmptyString => true
  | String c rest => is_white_space c && blank rest
  end.

End Text.

(* ===================================================================== *)
(** ** The server side: upstream services and the HTTP vocabulary *)
(* ===================================================================== *)

Module Http.
Import Js.

(** A [Blob]: its bytes and its MIME type. *)
Record Blob : Type := { bytes : list N; mime : string }.

Inductive FormEntry : Type :=
| FString (s : string)
| FFile (b : Blob) (filename : string).

Definition FormData : Type := list (string * FormEntry).

(** [formData.get(name)]: the first entry of that name, or [null]. *)
Fixpoint FormData_get (name : string) (fd : FormData) : option FormEntry :=
  match fd with
  | [] => None
  | (k, e) :: rest => if k =? name then Some e else FormData_get name rest
  end.

(** An incoming request: what [request.formData()] and [request.json()]
    settle to. *)
Record Request : Type := {
  formData : exn + FormData;
  json : settled
}.

(** What the route hands back: [Response.json(data, { status })]. *)
Record Response : Type := { status : Z; body : value }.

(** What [fetch] settles to: a rejection (transport failure), or a response
    with its status and what [response.json()] settles to. *)
Inductive fetched : Type :=
| NetworkError (e : exn)
| HttpResponse (status : Z) (json : settled).

Definition ok (status : Z) : bool := ((200 <=? status) && (status <=? 299))%Z.

Definition obj_error (msg : string) : value := VObj [("error", VStr msg)].

(** [Response.json(data, { status })]; a status outside 200..599 is a
    [RangeError]. *)
Definition Response_json {S} (data : value) (st : Z) : M S Response :=
  if ((200 <=? st) && (st <=? 599))%Z
  then ret {| status := st; body := jsonify data |}
  else throw (ErrorObject "RangeError"
                "init.status must be in the range of 200 to 599, inclusive.").

End Http.

(* ===================================================================== *)
(** ** app/types/deepseek.ts and app/services/query-deepseek.ts *)
(* ===================================================================== *)

Module DeepSeek.
Import Js Http.

Inductive Role : Type := role_user | role_assistant.

(** [content] is declared a string; the chained route fills it with the
    [text] field of the transcription as it arrived, whatever it is. *)
Record DeepSeekMessage : Type := { role : Role; content : value }.

(** The cast [response.choices[0].message as DeepSeekMessage] checks
    nothing, so [message] is the value found there. *)
Record DeepSeekResponse : Type := {
  message : value;
  done : bool;
  totalDuration : option Z
}.

Record DeepSeekError : Type := { error : string; code : option Z }.

Definition DeepSeekResult : Type := (DeepSeekResponse + DeepSeekError)%type.

Definition optional_field (k : string) (o : option Z) : list (string * value) :=
  match o with
  | Some n => [(k, VNum n)]
  | None => []
  end.

(** The object a [DeepSeekResult] is at run time. *)
Definition to_value (r : DeepSeekResult) : value :=
  match r with
  | inl r => VObj ([("message", message r); ("done", VBool (done r))]
                     ++ optional_field "totalDuration" (totalDuration r))%list
  | inr e => VObj ([("error", VStr (error e))]
                     ++ optional_field "code" (code e))%list
  end.

(** Requests that leave the server. *)
Inductive Call : Type :=
| TranscribeCall (fd : FormData)            (* POST localhost:8000/transcribe *)
| ProcessTextCall (payload : value)         (* POST localhost:8000/process-text *)
| CompletionCall (messages : list DeepSeekMessage). (* together.chat.completions.create *)

(** The server's store: the module-level [together] client (created or
    not yet), and the calls issued so far, oldest first. *)
Record Server : Type := { together : bool; calls : list Call }.

Definition issue (c : Call) : M Server unit :=
  modify (fun s => {| together := together s; calls := (calls s ++ [c])%list |}).

(** Everything the outside world decides. *)
Record Env : Type := {
  new_Together : option exn;
    (* what [new Together({ apiKey })] throws, if it throws *)
  completions_create : list DeepSeekMessage -> settled;
  transcribe_service : FormData -> fetched;
  process_text_service : value -> fetched
}.

Section Service.
Variable env : Env.

Definition getTogetherClient : M Server unit :=
  fun s =>
    if together s then Done tt s
    else match new_Together env with
         | Some e => Thrown e s
         | None => Done tt {| together := true; calls := calls s |}
         end.

(** [response.choices[0].message] *)
Definition first_choice_message (response : value) : M Server value :=
  choices <- get response "choices" ;;
  choice <- first choices ;;
  get choice "message".

(** The [try] block up to the message it returns. *)
Definition request_completion (messages : list DeepSeekMessage)
  : M Server value :=
  getTogetherClient ;;;
  issue (CompletionCall messages) ;;;
  response <- await (completions_create env messages) ;;
  first_choice_message response.

Definition queryDeepSeek (messages : list DeepSeekMessage)
  : M Server DeepSeekResult :=
  try_catch
    (msg <- request_completion messages ;;
     ret (inl {| message := msg; done := true; totalDuration := None |}))
    (fun e =>
       ret (inr {| error := message_or "Unknown error occurred" e;
                   code := Some 500%Z |})).

(** [await fetch(url, ...)] followed by the [response.ok] test the three
    routes share; [label] is the text before the status in the thrown
    message. *)
Definition fetch_ok (label : string) (c : Call) (r : fetched)
  : M Server settled :=
  issue c ;;;
  match r with
  | NetworkError e => throw e
  | HttpResponse st js =>
      if negb (ok st)
      then throw (ErrorObject "Error" (label ++ string_of_Z st))
      else ret js
  end.

End Service.

End DeepSeek.

(* ===================================================================== *)
(** ** The relay routes

    Each [action] is the body of the route's [try], with its [catch].  The
    [console.error] calls write to the server's console only and are left
    out. *)
(* ===================================================================== *)

(** [!audioBlob || !(audioBlob instanceof Blob)] *)
Definition no_audio_file (audioBlob : option Http.FormEntry) : bool :=
  let falsy := match audioBlob with
               | None => true
               | Some (Http.FString s) => (s =? EmptyString)
               | Some (Http.FFile _ _) => false
               end in
  let instanceof_Blob := match audioBlob with
                         | Some (Http.FFile _ _) => true
                         | _ => false
                         end in
  falsy || negb instanceof_Blob.

(** [await request.formData()] *)
Definition request_formData {S} (request : Http.Request) : Js.M S Http.FormData :=
  match Http.formData request with
  | inl e => Js.throw e
  | inr fd => Js.ret fd
  end.

(** app/routes/transcribe.ts: the transcription relay that hands the
    transcription back as it is. *)
Module TranscribeRoute.
Import Js Http DeepSeek.
Section Route.
Variable env : Env.

(** The [try] block. *)
Definition attempt (request : Request) : M Server Response :=
  fd <- request_formData request ;;
  let audioBlob := FormData_get "file" fd in
  if no_audio_file audioBlob
  then Response_json (obj_error "No audio file provided") 400
  else
    js <- fetch_ok "HTTP error! status: " (TranscribeCall fd)
            (transcribe_service env fd) ;;
    transcription <- await js ;;
    Response_json transcription 200.

Definition action (request : Request) : M Server Response :=
  try_catch (attempt request)
    (fun _ => Response_json (obj_error "Failed to transcribe audio") 500).
End Route.
End TranscribeRoute.

(** app/routes/api.process-text.ts: the text relay in front of the
    process-text service. *)
Module ProcessTextRoute.
Import Js Http DeepSeek.
Section Route.
Variable env : Env.

(** The [try] block. *)
Definition attempt (request : Request) : M Server Response :=
  body <- await (json request) ;;
  text <- get body "text" ;;
  let payload := jsonify (VObj [("text", text)]) in
  js <- fetch_ok "HTTP error! status: " (ProcessTextCall payload)
          (process_text_service env payload) ;;
  result <- await js ;;
  Response_json result 200.

Definition action (request : Request) : M Server Response :=
  try_catch (attempt request)
    (fun _ => Response_json (obj_error "Failed to process text") 500).
End Route.
End ProcessTextRoute.

(** The text-message route (first file of src/unnamed/part_000): the text
    relay in front of [queryDeepSeek]. *)
Module TextMessageRoute.
Import Js Http DeepSeek.
Section Route.
Variable env : Env.

(** [response.code || 500] *)
Definition code_or_500 (c : option Z) : Z :=
  match c with
  | Some n => if (n =? 0)%Z then 500%Z else n
  | None => 500%Z
  end.

(** The [try] block. *)
Definition attempt (request : Request) : M Server Response :=
  parsed <- await (json request) ;;
  msg <- destructure parsed "message" ;;
  if negb (truthy msg)
  then Response_json (obj_error "Message is required") 400
  else
    let messages := [ {| role := role_user; content := msg |} ] in
    response <- queryDeepSeek env messages ;;
    match response with
    | inr e => Response_json (obj_error (error e)) (code_or_500 (code e))
    | inl _ => Response_json (to_value response) 200
    end.

Definition action (request : Request) : M Server Response :=
  try_catch (attempt request)
    (fun e => Response_json (obj_error (message_or "Unknown error" e)) 500).
End Route.
End TextMessageRoute.

(** The chained transcription route (second file of src/app/routes/app.tsx,
    headed app/routes/transcribe.ts): transcription, then [queryDeepSeek] on
    the transcribed text. *)
Module ChainedTranscribeRoute.
Import Js Http DeepSeek.
Section Route.
Variable env : Env.

(** The [try] block. *)
Definition attempt (request : Request) : M Server Response :=
  fd <- request_formData request ;;
  let audioBlob := FormData_get "file" fd in
  if no_audio_file audioBlob
  then Response_json (obj_error "No audio file provided") 400
  else
    js <- fetch_ok "Transcription error: " (TranscribeCall fd)
            (transcribe_service env fd) ;;
    transcriptionData <- await js ;;
    text <- get transcriptionData "text" ;;
    deepseekResponse <-
      queryDeepSeek env [ {| role := role_user; content := text |} ] ;;
    Response_json
      (VObj [("transcription", transcriptionData);
             ("response", to_value deepseekResponse)]) 200.

Definition action (request : Request) : M Server Response :=
  try_catch (attempt request)
    (fun _ => Response_json (obj_error "Failed to process request") 500).
End Route.
End ChainedTranscribeRoute.

(* ===================================================================== *)
(** ** The chat component: shared state *)
(* ===================================================================== *)

Module Component.
Import Js Http.

Inductive MessageType : Type := user | assistant | ai.

Record Message : Type := {
  id : string;
  content : value;
  type : MessageType;
  timestamp : N;
  isVoice : option bool
}.

(** The [Partial<Message>] the callers of [addMessage] pass. *)
Record PartialMessage : Type := {
  p_content : value;
  p_type : MessageType;
  p_isVoice : option bool
}.

Definition turn (c : value) (t : MessageType) : PartialMessage :=
  {| p_content := c; p_type := t; p_isVoice := None |}.

Definition voice_turn (c : value) (t : MessageType) : PartialMessage :=
  {| p_content := c; p_type := t; p_isVoice := Some true |}.

(** [{ id, timestamp, ...message }] *)
Definition fullMessage (i : string) (ts : N) (m : PartialMessage) : Message :=
  {| id := i; content := p_content m; type := p_type m;
     timestamp := ts; isVoice := p_isVoice m |}.

(** A [MediaRecorder] with the tracks of its stream ([true]: live). *)
Inductive RecordingState : Type := inactive | recording.
Record MediaRecorder : Type := {
  state : RecordingState;
  tracks : list bool
}.

(** A Remix fetcher as the component reads it. *)
Inductive FetcherState : Type := idle | submitting | loading.
Record Fetcher : Type := { fetcher_state : FetcherState; data : value }.

Definition busy (f : Fetcher) : bool :=
  match fetcher_state f with
  | idle => false
  | _ => true
  end.

(** Requests the component sends. *)
Inductive Sent : Type :=
| FetchTextMessage (payload : value)         (* fetch("/api/textmessage") *)
| SubmitTranscribe (action : string) (fd : FormData)
| SubmitProcessText (payload : value).       (* textFetcher.submit *)

(** The hooks of the component.  Its revisions declare overlapping sets of
    them; a revision's handlers touch only the ones it declares.
    [requests] (what was sent, oldest first), [pendingFetches] (the
    [fetch] promises not settled yet) and [ticks] (how many readings of the
    clock and of the random generator were taken) record what the browser
    holds. *)
Record World : Type := {
  messages : list Message;
  textInput : string;
  isRecording : bool;
  messageCounter : nat;
  mediaRecorderRef : option MediaRecorder;
  chunksRef : list Blob;
  transcribeFetcher : Fetcher;
  textFetcher : Fetcher;
  requests : list Sent;
  pendingFetches : nat;
  ticks : nat
}.

Definition initial : World :=
  {| messages := []; textInput := EmptyString; isRecording := false;
     messageCounter := 0; mediaRecorderRef := None; chunksRef := [];
     transcribeFetcher := {| fetcher_state := idle; data := VUndefined |};
     textFetcher := {| fetcher_state := idle; data := VUndefined |};
     requests := []; pendingFetches := 0; ticks := 0 |}.

Definition with_messages (f : list Message -> list Message) (w : World) :=
  {| messages := f (messages w); textInput := textInput w;
     isRecording := isRecording w; messageCounter := messageCounter w;
     mediaRecorderRef := mediaRecorderRef w; chunksRef := chunksRef w;
     transcribeFetcher := transcribeFetcher w; textFetcher := textFetcher w;
     requests := requests w; pendingFetches := pendingFetches w;
     ticks := ticks w |}.

Definition with_textInput (s : string) (w : World) :=
  {| messages := messages w; textInput := s;
     isRecording := isRecording w; messageCounter := messageCounter w;
     mediaRecorderRef := mediaRecorderRef w; chunksRef := chunksRef w;
     transcribeFetcher := transcribeFetcher w; textFetcher := textFetcher w;
     requests := requests w; pendingFetches := pendingFetches w;
     ticks := ticks w |}.

Definition with_isRecording (b : bool) (w : World) :=
  {| messages := messages w; textInput := textInput w;
     isRecording := b; messageCounter := messageCounter w;
     mediaRecorderRef := mediaRecorderRef w; chunksRef := chunksRef w;
     transcribeFetcher := transcribeFetcher w; textFetcher := textFetcher w;
     requests := requests w; pendingFetches := pendingFetches w;
     ticks := ticks w |}.

Definition with_messageCounter (f : nat -> nat) (w : World) :=
  {| messages := messages w; textInput := textInput w;
     isRecording := isRecording w; messageCounter := f (messageCounter w);
     mediaRecorderRef := mediaRecorderRef w; chunksRef := chunksRef w;
     transcribeFetcher := transcribeFetcher w; textFetcher := textFetcher w;
     requests := requests w; pendingFetches := pendingFetches w;
     ticks := ticks w |}.

Definition with_mediaRecorderRef (r : option MediaRecorder) (w : World) :=
  {| messages := messages w; textInput := textInput w;
     isRecording := isRecording w; messageCounter := messageCounter w;
     mediaRecorderRef := r; chunksRef := chunksRef w;
     transcribeFetcher := transcribeFetcher w; textFetcher := textFetcher w;
     requests := requests w; pendingFetches := pendingFetches w;
     ticks := ticks w |}.

Definition with_chunksRef (f : list Blob -> list Blob) (w : World) :=
  {| messages := messages w; textInput := textInput w;
     isRecording := isRecording w; messageCounter := messageCounter w;
     mediaRecorderRef := mediaRecorderRef w; chunksRef := f (chunksRef w);
     transcribeFetcher := transcribeFetcher w; textFetcher := textFetcher w;
     requests := requests w; pendingFetches := pendingFetches w;
     ticks := ticks w |}.

Definition with_transcribeFetcher (f : Fetcher) (w : World) :=
  {| messages := messages w; textInput := textInput w;
     isRecording := isRecording w; messageCounter := messageCounter w;
     mediaRecorderRef := mediaRecorderRef w; chunksRef := chunksRef w;
     transcribeFetcher := f; textFetcher := textFetcher w;
     requests := requests w; pendingFetches := pendingFetches w;
     ticks := ticks w |}.

Definition with_textFetcher (f : Fetcher) (w : World) :=
  {| messages := messages w; textInput := textInput w;
     isRecording := isRecording w; messageCounter := messageCounter w;
     mediaRecorderRef := mediaRecorderRef w; chunksRef := chunksRef w;
     transcribeFetcher := transcribeFetcher w; textFetcher := f;
     requests := requests w; pendingFetches := pendingFetches w;
     ticks := ticks w |}.

Definition with_requests (f : list Sent -> list Sent) (w : World) :=
  {| messages := messages w; textInput := textInput w;
     isRecording := isRecording w; messageCounter := messageCounter w;
     mediaRecorderRef := mediaRecorderRef w; chunksRef := chunksRef w;
     transcribeFetcher := transcribeFetcher w; textFetcher := textFetcher w;
     requests := f (requests w); pendingFetches := pendingFetches w;
     ticks := ticks w |}.

Definition with_pendingFetches (f : nat -> nat) (w : World) :=
  {| messages := messages w; textInput := textInput w;
     isRecording := isRecording w; messageCounter := messageCounter w;
     mediaRecorderRef := mediaRecorderRef w; chunksRef := chunksRef w;
     transcribeFetcher := transcribeFetcher w; textFetcher := textFetcher w;
     requests := requests w; pendingFetches := f (pendingFetches w);
     ticks := ticks w |}.

Definition with_ticks (f : nat -> nat) (w : World) :=
  {| messages := messages w; textInput := textInput w;
     isRecording := isRecording w; messageCounter := messageCounter w;
     mediaRecorderRef := mediaRecorderRef w; chunksRef := chunksRef w;
     transcribeFetcher := transcribeFetcher w; textFetcher := textFetcher w;
     requests := requests w; pendingFetches := pendingFetches w;
     ticks := f (ticks w) |}.

(** What the browser decides: the clock behind [Date.now()] and
    [new Date()], and [Math.random().toString(36).substr(2, 9)], each as a
    function of how many readings were taken before. *)
Record Browser : Type := {
  Date_now : nat -> N;
  random_suffix : nat -> string
}.

Section Primitives.
Variable browser : Browser.

(** One reading of the clock. *)
Definition now : M World N :=
  fun w => Done (Date_now browser (ticks w)) (with_ticks S w).

(** One reading of the random generator. *)
Definition random : M World string :=
  fun w => Done (random_suffix browser (ticks w)) (with_ticks S w).

(** [setMessages((prev) => [...prev, m])] *)
Definition appendMessage (m : Message) : M World unit :=
  modify (with_messages (fun prev => prev ++ [m])%list).

Definition send (r : Sent) : M World unit :=
  modify (with_requests (fun l => l ++ [r])%list).

End Primitives.

(** [addMessage] as the revisions that stamp the id with the time and a
    random suffix write it.  The [requestAnimationFrame] scroll changes no
    hook. *)
Definition addMessage_stamped (browser : Browser) (m : PartialMessage)
  : M World unit :=
  t <- now browser ;;
  r <- random browser ;;
  ts <- now browser ;;
  appendMessage (fullMessage ("msg-" ++ string_of_N t ++ "-" ++ r) ts m).

(** What the microphone and the recorder do when recording starts. *)
Inductive Capture : Type :=
| GetUserMediaRejects (e : exn)
| RecorderConstructorThrows (stream : list bool) (e : exn)
| RecorderStartThrows (stream : list bool) (e : exn)
| Captures (stream : list bool).

(** Where a handler stands when it gives control back: it returned, or it
    is suspended at its [await]. *)
Inductive Progress : Type := returned | awaiting.

(** *** Recording

    [startRecording], the two recorder callbacks, [stopRecording] and
    [handleVoiceClick] are the same text in the revisions that record; they
    differ in the [addMessage] they call and in the route they post to. *)
Section Recording.
Variable addMessage : PartialMessage -> M World unit.
Variable route : string.

Definition getUserMedia (c : Capture) : M World (list bool) :=
  match c with
  | GetUserMediaRejects e => throw e
  | RecorderConstructorThrows stream _
  | RecorderStartThrows stream _
  | Captures stream => ret stream
  end.

Definition new_MediaRecorder (c : Capture) (stream : list bool)
  : M World MediaRecorder :=
  match c with
  | RecorderConstructorThrows _ e => throw e
  | _ => ret {| state := inactive; tracks := stream |}
  end.

(** [mediaRecorder.start()], on the recorder the ref holds. *)
Definition MediaRecorder_start (c : Capture) : M World unit :=
  match c with
  | RecorderStartThrows _ e => throw e
  | _ =>
      fun w =>
        Done tt (with_mediaRecorderRef
                   (option_map (fun r => {| state := recording;
                                            tracks := tracks r |})
                      (mediaRecorderRef w)) w)
  end.

Definition startRecording (c : Capture) : M World unit :=
  try_catch
    (stream <- getUserMedia c ;;
     mediaRecorder <- new_MediaRecorder c stream ;;
     modify (with_mediaRecorderRef (Some mediaRecorder)) ;;;
     modify (with_chunksRef (fun _ => [])) ;;;
     MediaRecorder_start c ;;;
     modify (with_isRecording true))
    (fun _ =>
       addMessage
         (turn (VStr "Error accessing microphone. Please check your permissions.")
            assistant)).

(** [mediaRecorder.ondataavailable] *)
Definition ondataavailable (chunk : Blob) : M World unit :=
  modify (with_chunksRef (fun l => l ++ [chunk])%list).

(** [new Blob(chunks, { type })] *)
Definition new_Blob (chunks : list Blob) (type : string) : Blob :=
  {| bytes := concat (map bytes chunks); mime := type |}.

(** [transcribeFetcher.submit(formData, ...)] *)
Definition transcribeFetcher_submit (fd : FormData) : M World unit :=
  send (SubmitTranscribe route fd) ;;;
  fun w =>
    Done tt (with_transcribeFetcher
               {| fetcher_state := submitting;
                  data := data (transcribeFetcher w) |} w).

(** [mediaRecorder.onstop] *)
Definition onstop : M World unit :=
  chunks <- gets chunksRef ;;
  let audioBlob := new_Blob chunks "audio/webm" in
  let formData := [("file", FFile audioBlob "audio.webm")] in
  transcribeFetcher_submit formData.

(** [mediaRecorder.stop()]: an inactive recorder refuses. *)
Definition MediaRecorder_stop (r : MediaRecorder) : M World unit :=
  match state r with
  | inactive =>
      throw (ErrorObject "InvalidStateError"
               "The MediaRecorder's state is 'inactive'.")
  | recording =>
      modify (with_mediaRecorderRef
                (Some {| state := inactive; tracks := tracks r |}))
  end.

(** [stream.getTracks().forEach((track) => track.stop())] *)
Definition stop_tracks : M World unit :=
  fun w =>
    Done tt (with_mediaRecorderRef
               (option_map (fun r => {| state := state r;
                                        tracks := map (fun _ => false) (tracks r) |})
                  (mediaRecorderRef w)) w).

Definition stopRecording : M World unit :=
  current <- gets mediaRecorderRef ;;
  rec <- gets isRecording ;;
  match current with
  | Some r =>
      if rec
      then MediaRecorder_stop r ;;;
           modify (with_isRecording false) ;;;
           stop_tracks
      else ret tt
  | None => ret tt
  end.

Definition handleVoiceClick (c : Capture) : M World unit :=
  rec <- gets isRecording ;;
  if rec then stopRecording else startRecording c.

End Recording.

End Component.

(* ===================================================================== *)
(** ** The chained revision (second file of app/components/MainInterface.tsx)

    Text goes out with [fetch] to the text-message route; audio goes out
    through [transcribeFetcher] to the chained transcription route. *)
(* ===================================================================== *)

Module Chained.
Import Js Http Component.

Section Handlers.
Variable browser : Browser.

Definition isTranscribing (w : World) : bool := busy (transcribeFetcher w).

Definition addMessage : PartialMessage -> M World unit :=
  addMessage_stamped browser.

Definition startRecording := Component.startRecording addMessage.
Definition stopRecording := Component.stopRecording.
Definition onstop := Component.onstop "/api/transcribe".
Definition handleVoiceClick := Component.handleVoiceClick addMessage.

(** The voice button: [onClick={handleVoiceClick}],
    [disabled={isTranscribing}]. *)
Definition voiceButton (c : Capture) : M World unit :=
  fun w => if isTranscribing w then Done tt w else handleVoiceClick c w.

(** The effect on [transcribeFetcher.data] and [transcribeFetcher.state]. *)
Definition onTranscribeFetcher : M World unit :=
  fun w =>
    let response := data (transcribeFetcher w) in
    match fetcher_state (transcribeFetcher w) with
    | idle =>
        if truthy response then
          (transcription <- get response "transcription" ;;
           err <- get transcription "error" ;;
           if negb (truthy err) then
             text <- get transcription "text" ;;
             addMessage (voice_turn text user) ;;;
             reply <- get response "response" ;;
             if truthy reply then
               msg <- get reply "message" ;;
               c <- get msg "content" ;;
               addMessage (turn c assistant)
             else
               addMessage
                 (turn (VStr "Sorry, there was an error getting a response.")
                    assistant)
           else
             addMessage
               (turn (VStr "Sorry, there was an error processing your voice message.")
                  assistant)) w
        else Done tt w
    | _ => Done tt w
    end.

(** The fetcher moves on and the effect runs on what it shows now. *)
Definition transcribeFetcher_becomes (f : Fetcher) : M World unit :=
  modify (with_transcribeFetcher f) ;;; onTranscribeFetcher.

(** [handleTextSubmit] up to its [await fetch(...)]. *)
Definition handleTextSubmit : M World Progress :=
  fun w =>
    if negb (truthy (VStr (Text.trim (textInput w)))) || isTranscribing w
    then Done returned w
    else
      (addMessage (turn (VStr (textInput w)) user) ;;;
       send (FetchTextMessage
               (jsonify (VObj [("message", VStr (textInput w))]))) ;;;
       modify (with_pendingFetches S) ;;;
       ret awaiting) w.

(** [handleTextSubmit] from the moment its [fetch] settles. *)
Definition handleTextSubmit_resume (r : fetched) : M World unit :=
  modify (with_pendingFetches pred) ;;;
  try_catch
    (js <- match r with
           | NetworkError e => throw e
           | HttpResponse _ js => ret js
           end ;;
     data <- await js ;;
     err <- get data "error" ;;
     if negb (truthy err) then
       msg <- get data "message" ;;
       c <- get msg "content" ;;
       addMessage (turn c assistant)
     else
       addMessage
         (turn (VStr "Sorry, there was an error getting a response.")
            assistant))
    (fun _ =>
       addMessage
         (turn (VStr "Sorry, there was an error processing your message.")
            assistant)) ;;;
  modify (with_textInput EmptyString).


End Handlers.
End Chained.

(* ===================================================================== *)
(** ** The two-fetcher revision (second file of src/unnamed/part_001)

    Text goes out through [textFetcher] to the process-text route; replies
    of the model arrive as [ai_response] and are shown as turns of type
    [ai]. *)
(* ===================================================================== *)

Module Fetchers.
Import Js Http Component.

Section Handlers.
Variable browser : Browser.

Definition isProcessing (w : World) : bool :=
  busy (transcribeFetcher w) || busy (textFetcher w).

Definition addMessage : PartialMessage -> M World unit :=
  addMessage_stamped browser.

Definition startRecording := Component.startRecording addMessage.
Definition stopRecording := Component.stopRecording.
Definition onstop := Component.onstop "/api/transcribe".
Definition handleVoiceClick := Component.handleVoiceClick addMessage.

(** The voice button: [onClick={handleVoiceClick}],
    [disabled={isProcessing}]. *)
Definition voiceButton (c : Capture) : M World unit :=
  fun w => if isProcessing w then Done tt w else handleVoiceClick c w.

Definition is_idle (f : Fetcher) : bool := negb (busy f).

(** The part the two effects share: the turn for [ai_response]. *)
Definition showAiResponse (payload : value) : M World unit :=
  ai_response <- get payload "ai_response" ;;
  if truthy (get_opt ai_response "response") then
    reply <- get ai_response "response" ;;
    addMessage (turn reply ai)
  else if truthy (get_opt ai_response "error") then
    err <- get ai_response "error" ;;
    addMessage (turn (VStr ("AI Error: " ++ to_string err)) assistant)
  else ret tt.

(** The effect on [transcribeFetcher]. *)
Definition onTranscribeFetcher : M World unit :=
  fun w =>
    let transcriptionData := data (transcribeFetcher w) in
    if truthy transcriptionData
       && negb (truthy (get_opt transcriptionData "error"))
       && is_idle (transcribeFetcher w)
    then
      (transcription <- get transcriptionData "text" ;;
       addMessage (voice_turn transcription user) ;;;
       language <- get transcriptionData "language" ;;
       addMessage
         (turn (VStr ("Transcription (" ++ to_string language ++ "): "
                        ++ dquote ++ to_string transcription ++ dquote))
            assistant) ;;;
       showAiResponse transcriptionData) w
    else if truthy (get_opt transcriptionData "error") then
      addMessage
        (turn (VStr ("Error: "
                       ++ to_string (get_opt transcriptionData "error")))
           assistant) w
    else Done tt w.

(** The effect on [textFetcher]. *)
Definition onTextFetcher : M World unit :=
  fun w =>
    let textData := data (textFetcher w) in
    if truthy textData
       && negb (truthy (get_opt textData "error"))
       && is_idle (textFetcher w)
    then showAiResponse textData w
    else if truthy (get_opt textData "error") then
      addMessage
        (turn (VStr ("Error: " ++ to_string (get_opt textData "error")))
           assistant) w
    else Done tt w.

Definition transcribeFetcher_becomes (f : Fetcher) : M World unit :=
  modify (with_transcribeFetcher f) ;;; onTranscribeFetcher.

Definition textFetcher_becomes (f : Fetcher) : M World unit :=
  modify (with_textFetcher f) ;;; onTextFetcher.

(** [textFetcher.submit({ text }, ...)] *)
Definition textFetcher_submit (payload : value) : M World unit :=
  send (SubmitProcessText payload) ;;;
  fun w =>
    Done tt (with_textFetcher
               {| fetcher_state := submitting;
                  data := data (textFetcher w) |} w).

Definition handleTextSubmit : M World unit :=
  fun w =>
    if negb (truthy (VStr (Text.trim (textInput w)))) || isProcessing w
    then Done tt w
    else
      (addMessage (turn (VStr (textInput w)) user) ;;;
       textFetcher_submit (VObj [("text", VStr (textInput w))]) ;;;
       modify (with_textInput EmptyString)) w.

End Handlers.
End Fetchers.

(* ===================================================================== *)
(** ** The counter revision (first file of src/unnamed/part_001)

    Replies are canned; ids come from the [messageCounter] hook.  A handler
    is a closure of the render it was created in: the [messageCounter] it
    reads is the value of that render, whatever updates it has queued
    since. *)
(* ===================================================================== *)

Module Counter.
Import Js Http Component.

Section Handlers.
Variable browser : Browser.

Definition isTranscribing (w : World) : bool := busy (transcribeFetcher w).

(** [addMessage] of the render whose counter is [messageCounter]. *)
Definition addMessage (messageCounter : nat) (m : PartialMessage)
  : M World unit :=
  modify (with_messageCounter (fun prev => prev + 1)) ;;;
  ts <- now browser ;;
  appendMessage
    (fullMessage ("msg-" ++ string_of_nat messageCounter) ts m).

Definition startRecording (c : Capture) : M World unit :=
  fun w => Component.startRecording (addMessage (messageCounter w)) c w.
Definition stopRecording := Component.stopRecording.
Definition onstop := Component.onstop "/transcribe".

Definition onTranscribeFetcher : M World unit :=
  fun w =>
    let addMessage := addMessage (messageCounter w) in
    let transcriptionData := data (transcribeFetcher w) in
    if truthy transcriptionData
       && negb (truthy (get_opt transcriptionData "error"))
       && negb (busy (transcribeFetcher w))
    then
      (transcription <- get transcriptionData "text" ;;
       addMessage (voice_turn transcription user) ;;;
       addMessage
         (turn (VStr ("Here's what I heard: " ++ dquote
                        ++ to_string transcription ++ dquote))
            assistant)) w
    else if truthy (get_opt transcriptionData "error") then
      addMessage
        (turn (VStr "Sorry, there was an error processing your voice message.")
           assistant) w
    else Done tt w.

Definition handleTextSubmit : M World unit :=
  fun w =>
    let addMessage := addMessage (messageCounter w) in
    if negb (truthy (VStr (Text.trim (textInput w)))) || isTranscribing w
    then Done tt w
    else
      (addMessage (turn (VStr (textInput w)) user) ;;;
       addMessage
         (turn (VStr ("I received your message: " ++ dquote ++ textInput w
                        ++ dquote ++ ". How can I assist you further?"))
            assistant) ;;;
       modify (with_textInput EmptyString)) w.

End Handlers.
End Counter.

(* ===================================================================== *)
(** ** Vocabulary of the statements *)
(* ===================================================================== *)

Module Obs.
Import Js Http Component.

(** Whenever [c] completes, its result satisfies [P]. *)
Definition returns {S A} (P : A -> Prop) (c : M S A) : Prop :=
  forall s a s', c s = Done a s' -> P a.

(** [c] completes from every store. *)
Definition completes {S A} (c : M S A) : Prop :=
  forall s, exists a s', c s = Done a s'.

(** A request of the component has not been answered yet. *)
Definition in_flight (w : World) : bool :=
  busy (transcribeFetcher w) || busy (textFetcher w)
  || (0 <? pendingFetches w)%nat.

(** [m] is a turn of type [t] with content [c] and voice flag [v]. *)
Definition is_turn (t : MessageType) (c : value) (v : option bool)
    (m : Message) : Prop :=
  type m = t /\ content m = c /\ isVoice m = v.

(** From [w] to [w'] the conversation grew by exactly the turns [l]. *)
Definition grew_by (w w' : World) (l : list Message) : Prop :=
  messages w' = (messages w ++ l)%list.


(** What the specification says of a successful recording session: from
    [w] to [w'] the conversation grew by exactly three turns, the first a
    [user] voice turn carrying the transcribed text. *)
Definition voice_then_two (text : value) (w w' : World) : Prop :=
  exists m1 m2 m3,
    grew_by w w' [m1; m2; m3] /\
    is_turn user text (Some true) m1.

(** [undefined] or [null]: reading a property of it throws. *)
Definition nullish (v : value) : bool :=
  match v with
  | VUndefined | VNull => true
  | _ => false
  end.

(** The echo of the two-fetcher revision. *)
Definition echo (language transcription : value) : value :=
  VStr ("Transcription (" ++ to_string language ++ "): "
          ++ dquote ++ to_string transcription ++ dquote).

(** Every track of the stream the recorder holds is stopped. *)
Definition released (r : MediaRecorder) : Prop :=
  Forall (fun live => live = false) (tracks r).

(** What the specification says of a recording session that ended: the
    chunk buffer is empty and the capture handle is released. *)
Definition destroyed (w : World) : Prop :=
  chunksRef w = [] /\
  match mediaRecorderRef w with
  | Some r => released r
  | None => True
  end.

(** A chunk of recorded audio. *)
Definition chunk : Blob := {| bytes := [26; 69; 223; 163]%N; mime := "audio/webm" |}.

(** The message [addMessage_stamped] builds when [k] readings were taken
    before. *)
Definition stamped (browser : Browser) (k : nat) (m : PartialMessage)
  : Message :=
  fullMessage
    ("msg-" ++ string_of_N (Date_now browser k) ++ "-"
       ++ random_suffix browser (S k))
    (Date_now browser (S (S k))) m.

(** A browser whose clock shows [t] throughout and whose random suffix is
    always [r]. *)
Definition steady (t : N) (r : string) : Browser :=
  {| Date_now := fun _ => t; random_suffix := fun _ => r |}.

(** A world in which [s] has been typed into the text field. *)
Definition typed (s : string) : World := with_textInput s initial.

(** A fetcher that came back idle with [d]. *)
Definition settled_with (d : value) : Fetcher :=
  {| fetcher_state := idle; data := d |}.

(** The outside world of the server when [new Together] succeeds and the
    three upstream services answer [t], [p] and [c] whatever they are
    sent. *)
Definition upstream (t p : fetched) (c : settled) : DeepSeek.Env :=
  {| DeepSeek.new_Together := None;
     DeepSeek.completions_create := fun _ => c;
     DeepSeek.transcribe_service := fun _ => t;
     DeepSeek.process_text_service := fun _ => p |}.

Definition fresh : DeepSeek.Server :=
  {| DeepSeek.together := false; DeepSeek.calls := [] |}.

Definition recording_form : FormData :=
  [("file", FFile {| bytes := [82; 73; 70; 70]%N; mime := "audio/webm" |}
              "audio.webm")].

(** A multipart request that carries a recording. *)
Definition audio_request : Request :=
  {| formData := inr recording_form;
     json := Rejected (ErrorObject "SyntaxError" "Unexpected token '-'") |}.

(** A request whose body is the JSON text of [v]. *)
Definition json_request (v : value) : Request :=
  {| formData := inl (ErrorObject "TypeError" "Could not parse content as FormData.");
     json := Resolved v |}.

(** A request whose body is not JSON: [request.json()] rejects with [e]. *)
Definition broken_request (e : exn) : Request :=
  {| formData := inl e; json := Rejected e |}.

(** An upstream answer with a JSON body. *)
Definition answers (st : Z) (v : value) : fetched :=
  HttpResponse st (Resolved v).


(** The process-text service answering with a reply of the model. *)
Definition hello_processed : value :=
  VObj [("text", VStr "hello");
        ("ai_response", VObj [("response", VStr "Hi! How can I help?")])].

(** The transcription service answering with a transcription. *)
Definition hello_transcribed : value :=
  VObj [("text", VStr "hello"); ("language", VStr "en"); ("segments", VArr [])].

(** The model answering with one choice. *)
Definition hello_completion : settled :=
  Resolved
    (VObj [("choices",
            VArr [VObj [("message",
                         VObj [("role", VStr "assistant");
                               ("content", VStr "Hi! How can I help?")])]])]).

Definition unused : fetched :=
  NetworkError (ErrorObject "TypeError" "fetch failed").

(** What a relay gets from its service: the parsed body of a 2xx answer, or
    what is thrown on the way there, which is the rejection of [fetch], the
    [Error] the route makes of any other status ([label] is its text before
    the status), or the rejection of [response.json()]. *)
Definition service_gives (label : string) (r : fetched) : exn + value :=
  match r with
  | NetworkError e => inl e
  | HttpResponse st js =>
      if ok st
      then match js with
           | Resolved v => inr v
           | Rejected e => inl e
           end
      else inl (ErrorObject "Error" (label ++ string_of_Z st))
  end.

(** What is thrown inside the [try] of [queryDeepSeek], if anything is, when
    the client is there already or not ([client]): what the constructor of
    the client throws, what the request is rejected with, or the [TypeError]
    of reading [choices[0].message] on a response without a first choice. *)
Definition model_throws (env : DeepSeek.Env) (client : bool)
    (messages : list DeepSeek.DeepSeekMessage) : option exn :=
  match (if client then None else DeepSeek.new_Together env) with
  | Some e => Some e
  | None =>
      match DeepSeek.completions_create env messages with
      | Rejected e => Some e
      | Resolved response =>
          let choices := get_opt response "choices" in
          if nullish response
          then Some (cannot_read (to_string response) "choices")
          else if nullish choices
          then Some (cannot_read (to_string choices) "0")
          else if nullish (at0 choices)
          then Some (cannot_read (to_string (at0 choices)) "message")
          else None
      end
  end.

End Obs.

(* ===================================================================== *)
(** ** [streamDeepSeek] (app/services/query-deepseek.ts)

    The generator is followed to its end: what it yielded, in order, and
    how it finished. *)
(* ===================================================================== *)

Module Stream.
Import Js Http DeepSeek.

(** What [create({ ..., stream: true })] settles to: a rejection, or an
    async iterable that delivers [delivered] and then ends, normally or by
    throwing [broken]. *)
Record Streamed : Type := {
  delivered : list value;
  broken : option exn
}.

(** What a consumer of the generator sees. *)
Record Generated : Type := {
  yielded : list value;
  finished : outcome Server unit
}.

(** [chunk.choices[0]?.delta?.content] *)
Definition delta_content (chunk : value) : M Server value :=
  choices <- get chunk "choices" ;;
  choice <- first choices ;;
  ret (get_opt (get_opt choice "delta") "content").

(** The [for await] loop over the chunks that are still to come. *)
Fixpoint for_await (chunks : list value) (broken : option exn) (s : Server)
  : Generated :=
  match chunks with
  | [] =>
      {| yielded := [];
         finished := match broken with
                     | Some e => Thrown e s
                     | None => Done tt s
                     end |}
  | chunk :: rest =>
      match delta_content chunk s with
      | Thrown e s' => {| yielded := []; finished := Thrown e s' |}
      | Done c s' =>
          let later := for_await rest broken s' in
          if truthy c
          then {| yielded := c :: yielded later; finished := finished later |}
          else later
      end
  end.

(** The [try] block. *)
Definition attempt (env : Env) (create : list DeepSeekMessage -> exn + Streamed)
    (messages : list DeepSeekMessage) (s : Server) : Generated :=
  match (getTogetherClient env ;;; issue (CompletionCall messages)) s with
  | Thrown e s' => {| yielded := []; finished := Thrown e s' |}
  | Done _ s' =>
      match create messages with
      | inl e => {| yielded := []; finished := Thrown e s' |}
      | inr response => for_await (delivered response) (broken response) s'
      end
  end.

Definition streamDeepSeek (env : Env)
    (create : list DeepSeekMessage -> exn + Streamed)
    (messages : list DeepSeekMessage) (s : Server) : Generated :=
  let tried := attempt env create messages s in
  {| yielded := yielded tried;
     finished :=
       match finished tried with
       | Done u s' => Done u s'
       | Thrown e s' =>
           Thrown (ErrorObject "Error"
                     (message_or "Unknown error occurred" e)) s'
       end |}.

(** The content a chunk carries when its [choices] can be indexed. *)
Definition content_of (chunk : value) : value :=
  let choice := match get_opt chunk "choices" with
                | VArr (x :: _) => x
                | VObj fs => lookup "0" fs
                | _ => VUndefined
                end in
  get_opt (get_opt choice "delta") "content".

(** A chunk whose [choices] can be indexed. *)
Definition indexable (chunk : value) : bool :=
  match chunk with
  | VUndefined | VNull => false
  | _ => match get_opt chunk "choices" with
         | VUndefined | VNull => false
         | _ => true
         end
  end.

End Stream.

Module StreamObs.
Import Js Http DeepSeek Stream.

(** A streamed chunk that carries [text]. *)
Definition chunk_with (text : string) : value :=
  VObj [("choices", VArr [VObj [("delta", VObj [("content", VStr text)])]])].

(** The last chunk of a stream: a finish reason and no content. *)
Definition closing_chunk : value :=
  VObj [("choices", VArr [VObj [("delta", VObj []);
                                ("finish_reason", VStr "stop")]])].

End StreamObs.

(* ===================================================================== *)
(** ** Sequences of events of the component *)
(* ===================================================================== *)

Module Scenario.
Import Js Http Component.

(** The recorder hands over [chunks], one [dataavailable] event each. *)
Fixpoint deliver (chunks : list Blob) : M World unit :=
  match chunks with
  | [] => ret tt
  | chunk :: rest => ondataavailable chunk ;;; deliver rest
  end.

(** The hooks once a revision with stamped ids has appended [m] to [w]. *)
Definition after_turn (browser : Browser) (m : PartialMessage) (w : World)
  : World :=
  with_messages (fun prev => prev ++ [Obs.stamped browser (ticks w) m])%list
    (with_ticks (fun k => S (S (S k))) w).

(** The two apologies of the chained revision for a text submission. *)
Definition no_response : value :=
  VStr "Sorry, there was an error getting a response.".
Definition not_processed : value :=
  VStr "Sorry, there was an error processing your message.".

(** A fetcher in state [st] that shows [d]. *)
Definition showing (st : FetcherState) (d : value) : Fetcher :=
  {| fetcher_state := st; data := d |}.

End Scenario.

(* ===================================================================== *)
(** ** The component under sequences of events

    An event runs one handler, callback or effect on the hooks of the latest
    render.  A handler or a callback that throws leaves the hooks as they
    stood when it threw ([after]).  An effect that throws unmounts the
    component: [step] and [run] of the chained revision say how the hooks
    stood at each point, mounted or not, and [react] says which events the
    component survives. *)
(* ===================================================================== *)

Module Events.
Import Js Http Component.

(** The hooks a handler leaves. *)
Definition after {S A} (o : outcome S A) : S :=
  match o with
  | Done _ s => s
  | Thrown _ s => s
  end.

(** What can happen to a revision that records and posts to a fetcher. *)
Inductive Event : Type :=
| TypeText (s : string)               (* onChange of the text field *)
| SubmitText                          (* onSubmit of the form *)
| PressVoice (c : Capture)            (* onClick of the voice button *)
| DataAvailable (chunk : Blob)        (* mediaRecorder.ondataavailable *)
| RecorderStopped                     (* mediaRecorder.onstop *)
| FetchSettles (r : fetched)          (* a pending fetch settles *)
| FetcherBecomes (f : Fetcher).       (* the transcription fetcher changes *)

End Events.

(** The counter revision under events.  Its text field and its voice button
    are disabled while transcribing; it has no [fetch] of its own.

    [startRecording] is an async function: the click calls [getUserMedia]
    and returns, and the rest of the body, its [catch] included, runs when
    that promise settles, with the [addMessage] of the render of the click.
    Other events can come in between. *)
Module CounterEvents.
Import Js Http Component Events.

Inductive Happening : Type :=
| Types (s : string)                  (* onChange of the text field *)
| Submits                             (* onSubmit of the form *)
| Presses                             (* onClick of the voice button *)
| MediaSettles (i : nat) (c : Capture)
    (* [getUserMedia] of the pending [startRecording] number [i] settles *)
| Delivers (chunk : Blob)             (* mediaRecorder.ondataavailable *)
| Stops                               (* mediaRecorder.onstop *)
| FetcherShows (f : Fetcher).         (* the transcription fetcher changes *)

(** The hooks, and the calls of [startRecording] that wait for
    [getUserMedia], oldest first: each is known by the [messageCounter] of
    the render that made it. *)
Record Hooks : Type := {
  world : World;
  starting : list nat
}.

Definition start : Hooks := {| world := initial; starting := [] |}.

Definition on_world (f : World -> World) (h : Hooks) : Hooks :=
  {| world := f (world h); starting := starting h |}.

(** [l] without its item number [i]. *)
Fixpoint without (i : nat) (l : list nat) : list nat :=
  match l, i with
  | [], _ => []
  | _ :: rest, 0 => rest
  | x :: rest, S j => x :: without j rest
  end.

Section Run.
Variable browser : Browser.

(** [handleVoiceClick]: [stopRecording] runs to its end, [startRecording]
    up to its [await]. *)
Definition handleVoiceClick (h : Hooks) : Hooks :=
  if isRecording (world h)
  then on_world (fun w => after (Counter.stopRecording w)) h
  else {| world := world h;
          starting := (starting h ++ [messageCounter (world h)])%list |}.

(** The body of [startRecording] from its [await] on, in the render whose
    counter was [messageCounter]. *)
Definition resume (messageCounter : nat) (c : Capture) : M World unit :=
  Component.startRecording (Counter.addMessage browser messageCounter) c.

Definition settle (i : nat) (c : Capture) (h : Hooks) : Hooks :=
  match nth_error (starting h) i with
  | Some messageCounter =>
      {| world := after (resume messageCounter c (world h));
         starting := without i (starting h) |}
  | None => h
  end.

(** What React makes of one event.  A handler or a callback that throws
    leaves the hooks as they stood; an effect that throws takes the component
    down, and its hooks with it ([None]). *)
Definition step (e : Happening) (h : Hooks) : option Hooks :=
  match e with
  | Types s =>
      Some (if Counter.isTranscribing (world h) then h
            else on_world (with_textInput s) h)
  | Submits =>
      Some (on_world (fun w => after (Counter.handleTextSubmit browser w)) h)
  | Presses =>
      Some (if Counter.isTranscribing (world h) then h
            else handleVoiceClick h)
  | MediaSettles i c => Some (settle i c h)
  | Delivers chunk => Some (on_world (fun w => after (ondataavailable chunk w)) h)
  | Stops => Some (on_world (fun w => after (Counter.onstop w)) h)
  | FetcherShows f =>
      match Counter.onTranscribeFetcher browser
              (with_transcribeFetcher f (world h)) with
      | Done _ w' => Some {| world := w'; starting := starting h |}
      | Thrown _ _ => None
      end
  end.

Fixpoint run (events : list Happening) (h : Hooks) : option Hooks :=
  match events with
  | [] => Some h
  | e :: rest =>
      match step e h with
      | Some h' => run rest h'
      | None => None
      end
  end.

End Run.

(** The counter of the render whose closure the event runs in. *)
Definition closure_of (e : Happening) (h : Hooks) : nat :=
  match e with
  | MediaSettles i _ => nth i (starting h) (messageCounter (world h))
  | _ => messageCounter (world h)
  end.

(** The id the counter revision gives at counter [k]. *)
Definition id_at (k : nat) : string := "msg-" ++ string_of_nat k.

(** From [w] to [w'] some turns were appended, all with the id of counter
    [c], and the counter moved by their number. *)
Definition grows (c : nat) (w w' : World) : Prop :=
  exists new,
    messages w' = (messages w ++ new)%list /\
    messageCounter w' = messageCounter w + length new /\
    Forall (fun m => id m = id_at c) new.

(** The counter counts the turns, and every turn carries the id of a
    counter value that is already past. *)
Definition counted (w : World) : Prop :=
  messageCounter w = length (messages w) /\
  Forall (fun m => exists k, id m = id_at k /\ k < messageCounter w)
    (messages w).

(** No pending [startRecording] holds a counter of the future. *)
Definition sound (h : Hooks) : Prop :=
  counted (world h) /\
  Forall (fun k => k <= messageCounter (world h)) (starting h).

End CounterEvents.

(** The chained revision under events. *)
Module ChainedEvents.
Import Js Http Component Events.

Section Run.
Variable browser : Browser.

Definition step (e : Event) (w : World) : World :=
  match e with
  | TypeText s =>
      if Chained.isTranscribing w then w else with_textInput s w
  | SubmitText => after (Chained.handleTextSubmit browser w)
  | PressVoice c => after (Chained.voiceButton browser c w)
  | DataAvailable chunk => after (ondataavailable chunk w)
  | RecorderStopped => after (Chained.onstop w)
  | FetchSettles r => after (Chained.handleTextSubmit_resume browser r w)
  | FetcherBecomes f => after (Chained.transcribeFetcher_becomes browser f w)
  end.

Fixpoint run (events : list Event) (w : World) : World :=
  match events with
  | [] => w
  | e :: rest => run rest (step e w)
  end.


End Run.

(** The turns [addMessage] builds from [ps], one after the other, when [k]
    readings were taken before the first. *)
Fixpoint stamp_from (browser : Browser) (k : nat) (ps : list PartialMessage)
  : list Message :=
  match ps with
  | [] => []
  | p :: rest => Obs.stamped browser k p :: stamp_from browser (3 + k) rest
  end.

(** From [w] to [w'] turns were appended by [addMessage] and nothing else
    read the clock or the random generator. *)
Definition adds (browser : Browser) (w w' : World) : Prop :=
  exists new,
    messages w' = (messages w ++ stamp_from browser (ticks w) new)%list /\
    ticks w' = ticks w + 3 * length new.

End ChainedEvents.

(* ===================================================================== *)
(** ** The simulated revision (first file of app/components/MainInterface.tsx)

    Replies are canned and arrive from a timer; nothing is sent anywhere.
    Besides the hooks it shares with the other revisions it has
    [isProcessing], and the callbacks it has handed to [setTimeout], each with
    what it closed over. *)
(* ===================================================================== *)

Module Simulated.
Import Js Http Component Events.

Inductive Timer : Type :=
| TextReply (textInput : string)   (* the callback of [handleTextSubmit] *)
| VoiceReply.                      (* the callback of [handleVoiceSubmit] *)

Record Hooks : Type := {
  world : World;
  isProcessing : bool;
  timers : list Timer
}.

Definition start : Hooks :=
  {| world := initial; isProcessing := false; timers := [] |}.

(** What can happen to this revision; none of its controls is ever
    disabled except the submit button, whose test the handler repeats. *)
Inductive Happening : Type :=
| Types (s : string)                (* onChange of the text field *)
| Submits                           (* onSubmit of the form *)
| Presses (c : Capture)             (* onClick of the voice button *)
| Delivers (chunk : Blob)           (* mediaRecorder.ondataavailable *)
| Stops                             (* mediaRecorder.onstop *)
| TimerFires.                       (* the oldest pending timer *)

(** A computation on the shared hooks, run inside this revision. *)
Definition lift {A} (c : M World A) : M Hooks A :=
  fun h =>
    match c (world h) with
    | Done a w => Done a {| world := w; isProcessing := isProcessing h;
                            timers := timers h |}
    | Thrown e w => Thrown e {| world := w; isProcessing := isProcessing h;
                                timers := timers h |}
    end.

Definition setIsProcessing (b : bool) : M Hooks unit :=
  modify (fun h => {| world := world h; isProcessing := b; timers := timers h |}).

(** [setTimeout(callback, 1000)] *)
Definition setTimeout (t : Timer) : M Hooks unit :=
  modify (fun h => {| world := world h; isProcessing := isProcessing h;
                      timers := (timers h ++ [t])%list |}).

Section Handlers.
Variable browser : Browser.

(** A message whose id is the reading of the clock plus [offset]. *)
Definition newMessage (offset : N) (c : value) (t : MessageType)
    (voice : option bool) : M World Message :=
  i <- now browser ;;
  ts <- now browser ;;
  ret {| id := string_of_N (i + offset); content := c; type := t;
         timestamp := ts; isVoice := voice |}.

Definition handleVoiceSubmit : M Hooks unit :=
  m <- lift (newMessage 0 (VStr "Voice message sent") user (Some true)) ;;
  lift (appendMessage m) ;;;
  setIsProcessing true ;;;
  setTimeout VoiceReply.

(** The [catch] of this revision only logs. *)
Definition startRecording (c : Capture) : M Hooks unit :=
  lift (Component.startRecording (fun _ => ret tt) c).

Definition stopRecording : M Hooks unit := lift Component.stopRecording.

Definition handleVoiceClick (c : Capture) : M Hooks unit :=
  fun h => if Component.isRecording (world h)
           then stopRecording h
           else startRecording c h.

(** [mediaRecorder.onstop]: the blob it builds is not used. *)
Definition onstop : M Hooks unit := handleVoiceSubmit.

Definition handleTextSubmit : M Hooks unit :=
  fun h =>
    let textInput := Component.textInput (world h) in
    if negb (truthy (VStr (Text.trim textInput))) || isProcessing h
    then Done tt h
    else
      (m <- lift (newMessage 0 (VStr textInput) user None) ;;
       lift (appendMessage m) ;;;
       setIsProcessing true ;;;
       setTimeout (TextReply textInput)) h.

(** The canned reply to a typed message. *)
Definition received (textInput : string) : value :=
  VStr ("I received your message: " ++ dquote ++ textInput ++ dquote
          ++ ". How can I assist you further?").

(** The body of a timer callback. *)
Definition fire (t : Timer) : M Hooks unit :=
  match t with
  | VoiceReply =>
      m <- lift (newMessage 1
                   (VStr "I heard your voice message! How can I help you today?")
                   assistant None) ;;
      lift (appendMessage m) ;;;
      setIsProcessing false
  | TextReply textInput =>
      m <- lift (newMessage 1 (received textInput) assistant None) ;;
      lift (appendMessage m) ;;;
      setIsProcessing false ;;;
      lift (modify (with_textInput EmptyString))
  end.

(** The oldest pending timer fires. *)
Definition timerFires : M Hooks unit :=
  fun h =>
    match timers h with
    | [] => Done tt h
    | t :: rest =>
        fire t {| world := world h; isProcessing := isProcessing h;
                  timers := rest |}
    end.

Definition step (e : Happening) (h : Hooks) : Hooks :=
  match e with
  | Types s => after (lift (modify (with_textInput s)) h)
  | Submits => after (handleTextSubmit h)
  | Presses c => after (handleVoiceClick c h)
  | Delivers chunk => after (lift (ondataavailable chunk) h)
  | Stops => after (onstop h)
  | TimerFires => after (timerFires h)
  end.

Fixpoint run (events : list Happening) (h : Hooks) : Hooks :=
  match events with
  | [] => h
  | e :: rest => run rest (step e h)
  end.

End Handlers.

(** How many turns of type [t] the conversation holds. *)
Definition turns_of (t : MessageType) (l : list Message) : nat :=
  length (filter (fun m => match type m, t with
                           | user, user | assistant, assistant | ai, ai => true
                           | _, _ => false
                           end) l).

(** Nothing has been sent and no fetcher has moved. *)
Definition quiet (h : Hooks) : Prop :=
  requests (world h) = [] /\
  pendingFetches (world h) = 0 /\
  transcribeFetcher (world h) = transcribeFetcher initial /\
  textFetcher (world h) = textFetcher initial.

(** Every user turn has its reply, in the conversation or on a timer; and
    while [isProcessing] is shown a reply is on its way. *)
Definition balanced (h : Hooks) : Prop :=
  turns_of user (messages (world h))
    = turns_of assistant (messages (world h)) + length (timers h) /\
  turns_of ai (messages (world h)) = 0 /\
  (isProcessing h = true -> timers h <> []).

End Simulated.

(* ===================================================================== *)
(** ** The counter revision with two fetchers
       (second file of app/components/NavBar.tsx)

    The effects of the two-fetcher revision, with the [addMessage] of the
    counter revision: every call made by one run of an effect or a handler
    reads the [messageCounter] of the render that created it. *)
(* ===================================================================== *)

Module CounterFetchers.
Import Js Http Component.

Section Handlers.
Variable browser : Browser.

Definition isProcessing (w : World) : bool :=
  busy (transcribeFetcher w) || busy (textFetcher w).

(** [addMessage] of the render whose counter is [messageCounter]. *)
Definition addMessage (messageCounter : nat) (m : PartialMessage)
  : M World unit :=
  modify (with_messageCounter (fun prev => prev + 1)) ;;;
  ts <- now browser ;;
  appendMessage
    (fullMessage ("msg-" ++ string_of_nat messageCounter) ts m).

(** The part the two effects share: the turn for [ai_response]. *)
Definition showAiResponse (messageCounter : nat) (payload : value)
  : M World unit :=
  ai_response <- get payload "ai_response" ;;
  if truthy (get_opt ai_response "response") then
    reply <- get ai_response "response" ;;
    addMessage messageCounter (turn reply ai)
  else if truthy (get_opt ai_response "error") then
    err <- get ai_response "error" ;;
    addMessage messageCounter
      (turn (VStr ("AI Error: " ++ to_string err)) assistant)
  else ret tt.

(** The effect on [transcribeFetcher]. *)
Definition onTranscribeFetcher : M World unit :=
  fun w =>
    let addMessage := addMessage (messageCounter w) in
    let transcriptionData := data (transcribeFetcher w) in
    if truthy transcriptionData
       && negb (truthy (get_opt transcriptionData "error"))
       && negb (busy (transcribeFetcher w))
    then
      (transcription <- get transcriptionData "text" ;;
       addMessage (voice_turn transcription user) ;;;
       language <- get transcriptionData "language" ;;
       addMessage
         (turn (VStr ("Transcription (" ++ to_string language ++ "): "
                        ++ dquote ++ to_string transcription ++ dquote))
            assistant) ;;;
       showAiResponse (messageCounter w) transcriptionData) w
    else if truthy (get_opt transcriptionData "error") then
      addMessage
        (turn (VStr ("Error: "
                       ++ to_string (get_opt transcriptionData "error")))
           assistant) w
    else Done tt w.

(** The effect on [textFetcher]. *)
Definition onTextFetcher : M World unit :=
  fun w =>
    let textData := data (textFetcher w) in
    if truthy textData
       && negb (truthy (get_opt textData "error"))
       && negb (busy (textFetcher w))
    then showAiResponse (messageCounter w) textData w
    else if truthy (get_opt textData "error") then
      addMessage (messageCounter w)
        (turn (VStr ("Error: " ++ to_string (get_opt textData "error")))
           assistant) w
    else Done tt w.

End Handlers.

(** How many turns the shared part adds for the payload [d]. *)
Definition ai_turns (d : value) : nat :=
  let ai_response := get_opt d "ai_response" in
  if truthy (get_opt ai_response "response") then 1
  else if truthy (get_opt ai_response "error") then 1
  else 0.

(** The fetcher has settled on a payload that reports no error. *)
Definition succeeded (f : Fetcher) : bool :=
  truthy (data f) && negb (truthy (get_opt (data f) "error"))
  && negb (busy f).

End CounterFetchers.

(* ===================================================================== *)
(** ** Properties *)
(* ===================================================================== *)

(** *** Reasoning about computations *)

Section Computations.
Context {S A B : Type}.

Lemma returns_ret (P : A -> Prop) (a : A) :
  P a -> Obs.returns P (@Js.ret S A a).
Proof. intros H s a' s' E. inversion E. now subst. Qed.

Lemma returns_throw (P : A -> Prop) (e : Js.exn) :
  Obs.returns P (@Js.throw S A e).
Proof. intros s a' s' E. discriminate. Qed.

Lemma returns_bind (P : B -> Prop) (c : Js.M S A) (k : A -> Js.M S B) :
  (forall a, Obs.returns P (k a)) -> Obs.returns P (Js.bind c k).
Proof.
  intros H s b s' E. unfold Js.bind in E.
  destruct (c s) as [a s1|e s1]; [|discriminate].
  exact (H a s1 b s' E).
Qed.

Lemma returns_try_catch (P : A -> Prop) (c : Js.M S A)
    (h : Js.exn -> Js.M S A) :
  Obs.returns P c -> (forall e, Obs.returns P (h e)) ->
  Obs.returns P (Js.try_catch c h).
Proof.
  intros Hc Hh s a s' E. unfold Js.try_catch in E.
  destruct (c s) as [a1 s1|e s1] eqn:Ec.
  - inversion E; subst. exact (Hc s a s' Ec).
  - exact (Hh e s1 a s' E).
Qed.

(** A [try] whose [catch] always completes always completes. *)
Lemma try_catch_completes (c : Js.M S A) (h : Js.exn -> Js.M S A) :
  (forall e, Obs.completes (h e)) -> Obs.completes (Js.try_catch c h).
Proof.
  intros Hh s. unfold Js.try_catch.
  destruct (c s) as [a s1|e s1]; [now exists a, s1|apply Hh].
Qed.

End Computations.

Lemma returns_Response_json {S} (P : Http.Response -> Prop)
    (data : Js.value) (st : Z) :
  P {| Http.status := st; Http.body := Js.jsonify data |} ->
  Obs.returns P (@Http.Response_json S data st).
Proof.
  intros H s a s' E. unfold Http.Response_json in E.
  destruct ((200 <=? st) && (st <=? 599))%Z; [|discriminate].
  inversion E. now subst.
Qed.

Lemma Response_json_500 {S} (msg : string) (s : S) :
  Http.Response_json (Http.obj_error msg) 500 s
  = Js.Done {| Http.status := 500; Http.body := Http.obj_error msg |} s.
Proof. reflexivity. Qed.

(** One step of a proof that a computation returns what it should. *)
Ltac returns_step :=
  cbv zeta;
  first
    [ apply returns_Response_json
    | apply returns_throw
    | apply returns_ret
    | apply returns_bind; intro
    | match goal with
      | |- Obs.returns _ (if ?b then _ else _) => destruct b
      | |- Obs.returns _ (match ?x with _ => _ end) => destruct x
      end ].

(** *** [trim] *)

Lemma trimStart_blank (s : string) :
  Text.blank s = true -> Text.trimStart s = EmptyString.
Proof.
  induction s as [|c rest IH]; simpl; intro H; [reflexivity|].
  apply andb_true_iff in H as [Hc Hrest].
  rewrite Hc. now apply IH.
Qed.

Lemma trim_blank (s : string) :
  Text.blank s = true -> Text.trim s = EmptyString.
Proof.
  intro H. unfold Text.trim. now rewrite trimStart_blank.
Qed.

Lemma trimEnd_empty (s : string) :
  Text.trimEnd s = EmptyString -> Text.blank s = true.
Proof.
  induction s as [|c rest IH]; simpl; [reflexivity|].
  destruct (Text.trimEnd rest) eqn:Hr.
  - destruct (Text.is_white_space c); [intros _; now rewrite IH | discriminate].
  - discriminate.
Qed.

Lemma trimStart_blank_iff (s : string) :
  Text.blank (Text.trimStart s) = Text.blank s.
Proof.
  induction s as [|c rest IH]; simpl; [reflexivity|].
  destruct (Text.is_white_space c) eqn:Hc; simpl; [exact IH|].
  now rewrite Hc.
Qed.

(** [trim] leaves nothing exactly when the text is empty or white space
    only. *)
Lemma trim_empty_iff (s : string) :
  Text.trim s = EmptyString <-> Text.blank s = true.
Proof.
  split; [|apply trim_blank].
  unfold Text.trim. intro H. apply trimEnd_empty in H.
  now rewrite trimStart_blank_iff in H.
Qed.

Lemma truthy_trim (s : string) :
  Js.truthy (Js.VStr (Text.trim s)) = negb (Text.blank s).
Proof.
  simpl. destruct (Text.blank s) eqn:Hb.
  - now rewrite (trim_blank s Hb).
  - destruct (Text.trim s) eqn:Ht; [|reflexivity].
    apply trim_empty_iff in Ht. congruence.
Qed.

(** *** [queryDeepSeek] *)

(** Reading a property changes no store. *)
Lemma get_store {S} (v : Js.value) (k : string) (s : S) :
  (exists x, Js.get v k s = Js.Done x s) \/ (exists e, Js.get v k s = Js.Thrown e s).
Proof.
  destruct v; simpl; unfold Js.throw, Js.ret; eauto.
Qed.

Lemma first_store {S} (v : Js.value) (s : S) :
  (exists x, Js.first v s = Js.Done x s) \/ (exists e, Js.first v s = Js.Thrown e s).
Proof.
  destruct v as [| | | | | |[|x l]]; simpl; unfold Js.throw, Js.ret; eauto.
Qed.

Lemma first_choice_message_store (response : Js.value) (s : DeepSeek.Server) :
  (exists m, DeepSeek.first_choice_message response s = Js.Done m s) \/
  (exists e, DeepSeek.first_choice_message response s = Js.Thrown e s).
Proof.
  unfold DeepSeek.first_choice_message, Js.bind.
  destruct (get_store response "choices" s) as [[c ->]|[e ->]]; [|eauto].
  destruct (first_store c s) as [[x ->]|[e ->]]; [|eauto].
  apply get_store.
Qed.

(** A property read, by whether its base is [undefined] or [null]. *)
Lemma get_cases {S} (v : Js.value) (k : string) (s : S) :
  Js.get v k s
  = if Obs.nullish v
    then Js.Thrown (Js.cannot_read (Js.to_string v) k) s
    else Js.Done (Js.get_opt v k) s.
Proof. destruct v; reflexivity. Qed.

Lemma first_cases {S} (v : Js.value) (s : S) :
  Js.first v s
  = if Obs.nullish v
    then Js.Thrown (Js.cannot_read (Js.to_string v) "0") s
    else Js.Done (Js.at0 v) s.
Proof. destruct v; reflexivity. Qed.


(** *** Appending turns *)

Lemma addMessage_stamped_spec
    (browser : Component.Browser) (m : Component.PartialMessage)
    (w : Component.World) :
  Component.addMessage_stamped browser m w =
  Js.Done tt
    (Component.with_messages
       (fun prev => prev ++ [Obs.stamped browser (Component.ticks w) m])%list
       (Component.with_ticks (fun k => S (S (S k))) w)).
Proof. reflexivity. Qed.

(** *** Blank input *)

(** C7.  Submitting a text input that is empty or white space only changes
    no hook and sends nothing: the handler returns at its first line, in the
    chained revision and in the two-fetcher revision alike. *)
Theorem blank_submit_changes_nothing
    (browser : Component.Browser) (w : Component.World) :
  Text.blank (Component.textInput w) = true ->
  Chained.handleTextSubmit browser w = Js.Done Component.returned w /\
  Fetchers.handleTextSubmit browser w = Js.Done tt w.
Proof.
  intro Hb.
  unfold Chained.handleTextSubmit, Fetchers.handleTextSubmit.
  rewrite truthy_trim, Hb. simpl. split; reflexivity.
Qed.

Lemma blank_submit_changes_nothing_witness :
  Text.blank (Component.textInput (Obs.typed "  ")) = true /\
  Chained.handleTextSubmit (Obs.steady 0 "r") (Obs.typed "  ")
    = Js.Done Component.returned (Obs.typed "  ") /\
  Fetchers.handleTextSubmit (Obs.steady 0 "r") (Obs.typed "  ")
    = Js.Done tt (Obs.typed "  ").
Proof.
  split; [reflexivity|].
  apply (blank_submit_changes_nothing (Obs.steady 0 "r") (Obs.typed "  ")).
  reflexivity.
Defined.

(** *** Identifiers *)

(** C8, on the counter revision.  One text submission appends two turns
    with the same identifier: both calls of [addMessage] read the counter of
    the render the handler belongs to, and the increment they queue is not
    visible to either. *)
Theorem counter_ids_collide (browser : Component.Browser) :
  exists w',
    Counter.handleTextSubmit browser (Obs.typed "hi") = Js.Done tt w' /\
    map Component.id (Component.messages w') = ["msg-0"; "msg-0"] /\
    map Component.type (Component.messages w')
      = [Component.user; Component.assistant] /\
    Component.messageCounter w' = 2.
Proof.
  eexists. split; [reflexivity|]. repeat split; reflexivity.
Qed.

(** *** Overlapping submissions *)

(** The two-fetcher revision gates both controls on both fetchers. *)
Lemma fetchers_gate_when_processing
    (browser : Component.Browser) (c : Component.Capture) (w : Component.World) :
  Fetchers.isProcessing w = true ->
  Fetchers.handleTextSubmit browser w = Js.Done tt w /\
  Fetchers.voiceButton browser c w = Js.Done tt w.
Proof.
  intro H. unfold Fetchers.handleTextSubmit, Fetchers.voiceButton.
  rewrite H, orb_true_r. split; reflexivity.
Qed.

(** The chained revision gates both controls while a transcription is out. *)
Lemma chained_gate_when_transcribing
    (browser : Component.Browser) (c : Component.Capture) (w : Component.World) :
  Chained.isTranscribing w = true ->
  Chained.handleTextSubmit browser w = Js.Done Component.returned w /\
  Chained.voiceButton browser c w = Js.Done tt w.
Proof.
  intro H. unfold Chained.handleTextSubmit, Chained.voiceButton.
  rewrite H, orb_true_r. split; reflexivity.
Qed.

(** C3, on the chained revision.  While the reply to a text submission is
    outstanding, a second submission is accepted: it appends a second user
    turn and sends a second request; and the voice button starts a
    recording.  Nothing in that revision records that a [fetch] is out. *)
Theorem chained_second_submit_goes_through (browser : Component.Browser) :
  exists w1 w2 w3,
    Chained.handleTextSubmit browser (Obs.typed "hello")
      = Js.Done Component.awaiting w1 /\
    Obs.in_flight w1 = true /\
    Chained.handleTextSubmit browser w1 = Js.Done Component.awaiting w2 /\
    map Component.content (Component.messages w1) = [Js.VStr "hello"] /\
    map Component.content (Component.messages w2)
      = [Js.VStr "hello"; Js.VStr "hello"] /\
    map Component.type (Component.messages w2)
      = [Component.user; Component.user] /\
    length (Component.requests w1) = 1 /\
    length (Component.requests w2) = 2 /\
    Component.pendingFetches w2 = 2 /\
    Chained.voiceButton browser (Component.Captures [true]) w1 = Js.Done tt w3 /\
    Component.isRecording w3 = true.
Proof.
  do 3 eexists. repeat split; reflexivity.
Qed.

(** *** The relay routes and missing input *)

(** The transcription relay answers 400 when the [file] field is missing or
    is not a file. *)
Lemma transcribe_route_missing_file
    (env : DeepSeek.Env) (request : Http.Request) (fd : Http.FormData)
    (s : DeepSeek.Server) :
  Http.formData request = inr fd ->
  no_audio_file (Http.FormData_get "file" fd) = true ->
  TranscribeRoute.action env request s
    = Js.Done {| Http.status := 400;
                 Http.body := Http.obj_error "No audio file provided" |} s.
Proof.
  intros Hfd Hno.
  unfold TranscribeRoute.action, TranscribeRoute.attempt, Js.try_catch,
    Js.bind, request_formData.
  rewrite Hfd. simpl. rewrite Hno. reflexivity.
Qed.

(** The text-message relay answers 400 when [message] is missing or falsy. *)
Lemma textmessage_route_missing_message
    (env : DeepSeek.Env) (request : Http.Request)
    (fields : list (string * Js.value)) (s : DeepSeek.Server) :
  Http.json request = Js.Resolved (Js.VObj fields) ->
  Js.truthy (Js.lookup "message" fields) = false ->
  TextMessageRoute.action env request s
    = Js.Done {| Http.status := 400;
                 Http.body := Http.obj_error "Message is required" |} s.
Proof.
  intros Hjs Hm.
  unfold TextMessageRoute.action, TextMessageRoute.attempt, Js.try_catch,
    Js.bind.
  rewrite Hjs. simpl. rewrite Hm. reflexivity.
Qed.

(** C5, on the process-text relay.  The route has no test of its input: it
    answers 200 or 500 and never 400.  A body without [text] goes upstream
    as it is, and when the service refuses it the route answers 500. *)
Theorem process_text_route_never_400 :
  (forall env request s,
     exists resp s',
       ProcessTextRoute.action env request s = Js.Done resp s' /\
       (Http.status resp = 200%Z \/ Http.status resp = 500%Z)) /\
  (let env := Obs.upstream Obs.unused
                (Obs.answers 422 (Js.VObj [("detail", Js.VStr "Field required")]))
                (Js.Rejected (Js.NonError Js.VNull)) in
   ProcessTextRoute.action env (Obs.json_request (Js.VObj [])) Obs.fresh
   = Js.Done {| Http.status := 500;
                Http.body := Http.obj_error "Failed to process text" |}
       {| DeepSeek.together := false;
          DeepSeek.calls := [DeepSeek.ProcessTextCall (Js.VObj [])] |}).
Proof.
  split; [|reflexivity].
  intros env request s.
  assert (Hc : Obs.completes (ProcessTextRoute.action env request)).
  { apply try_catch_completes. intros e s0.
    rewrite Response_json_500. now eexists _, _. }
  destruct (Hc s) as (resp & s' & E).
  exists resp, s'. split; [exact E|].
  revert s resp s' E.
  change (Obs.returns
            (fun r => Http.status r = 200%Z \/ Http.status r = 500%Z)
            (ProcessTextRoute.action env request)).
  unfold ProcessTextRoute.action, ProcessTextRoute.attempt, DeepSeek.fetch_ok.
  apply returns_try_catch; [|intro; apply returns_Response_json; now right].
  repeat returns_step. now left.
Qed.


(** *** A failed transcription, in the chained revision *)

(** C4, on the chained route and the effect of the chained revision.  When
    the transcription service answers 500, the route answers 500 with
    [{ error }] and never calls the model; the effect then reads
    [response.transcription.error] on a payload that has no [transcription]
    and throws, so no turn is appended.  The error turn of the effect is
    reached only when the service answers 200 with an [error] field inside
    the transcription, and on that path the route has called the model. *)
Theorem chained_failed_transcription_appends_nothing
    (browser : Component.Browser) (w : Component.World) :
  (let env := Obs.upstream
                (Obs.answers 500 (Js.VObj [("detail", Js.VStr "Internal Server Error")]))
                Obs.unused (Js.Resolved Js.VNull) in
   exists resp s' w',
     ChainedTranscribeRoute.action env Obs.audio_request Obs.fresh
       = Js.Done resp s' /\
     resp = {| Http.status := 500;
               Http.body := Http.obj_error "Failed to process request" |} /\
     DeepSeek.calls s' = [DeepSeek.TranscribeCall Obs.recording_form] /\
     Chained.transcribeFetcher_becomes browser
       (Obs.settled_with (Http.body resp)) w
       = Js.Thrown (Js.cannot_read "undefined" "error") w' /\
     Component.messages w' = Component.messages w /\
     Component.transcribeFetcher w' = Obs.settled_with (Http.body resp)) /\
  (let env := Obs.upstream
                (Obs.answers 200 (Js.VObj [("error", Js.VStr "no speech found")]))
                Obs.unused
                (Js.Rejected (Js.ErrorObject "Error" "400 Input validation error")) in
   exists resp s' w' m,
     ChainedTranscribeRoute.action env Obs.audio_request Obs.fresh
       = Js.Done resp s' /\
     Http.status resp = 200%Z /\
     DeepSeek.calls s'
       = [DeepSeek.TranscribeCall Obs.recording_form;
          DeepSeek.CompletionCall
            [ {| DeepSeek.role := DeepSeek.role_user;
                 DeepSeek.content := Js.VUndefined |} ]] /\
     Chained.transcribeFetcher_becomes browser
       (Obs.settled_with (Http.body resp)) w = Js.Done tt w' /\
     Obs.grew_by w w' [m] /\
     Obs.is_turn Component.assistant
       (Js.VStr "Sorry, there was an error processing your voice message.")
       None m).
Proof.
  split.
  - do 3 eexists. repeat split; reflexivity.
  - do 4 eexists. repeat split; reflexivity.
Qed.


(** *** A text submission followed to its reply *)




(** The error branch of the reply effect of the two-fetcher revision does
    not look at the state of the fetcher: on a payload with an [error] it
    appends its turn on every run. *)
Lemma fetchers_error_turn_whatever_the_state
    (browser : Component.Browser) (st : Component.FetcherState)
    (d : Js.value) (w : Component.World) :
  Js.truthy (Js.get_opt d "error") = true ->
  exists w' m,
    Fetchers.textFetcher_becomes browser
      {| Component.fetcher_state := st; Component.data := d |} w
      = Js.Done tt w' /\
    Obs.grew_by w w' [m] /\
    Component.type m = Component.assistant.
Proof.
  intro He.
  unfold Fetchers.textFetcher_becomes, Fetchers.onTextFetcher, Js.bind,
    Js.modify.
  cbn [Component.textFetcher Component.with_textFetcher Component.data].
  rewrite He, andb_false_r. cbn [negb andb].
  do 2 eexists. split; [reflexivity|]. split; reflexivity.
Qed.




(** *** A recording session whose transcription succeeded *)

(** The effect of the two-fetcher revision on a transcription without
    error: the voice turn, the echo, and then what [ai_response] gives. *)
Lemma fetchers_transcription_turns
    (browser : Component.Browser) (d : Js.value) (w : Component.World) :
  Js.truthy d = true ->
  Js.truthy (Js.get_opt d "error") = false ->
  let run := Fetchers.transcribeFetcher_becomes browser (Obs.settled_with d) w in
  let text := Js.get_opt d "text" in
  let ai_response := Js.get_opt d "ai_response" in
  exists m1 m2,
    Obs.is_turn Component.user text (Some true) m1 /\
    Obs.is_turn Component.assistant
      (Obs.echo (Js.get_opt d "language") text) None m2 /\
    (Js.truthy (Js.get_opt ai_response "response") = true ->
     exists w' m3, run = Js.Done tt w' /\ Obs.grew_by w w' [m1; m2; m3] /\
       Obs.is_turn Component.ai (Js.get_opt ai_response "response") None m3) /\
    (Js.truthy (Js.get_opt ai_response "response") = false ->
     Js.truthy (Js.get_opt ai_response "error") = true ->
     exists w' m3, run = Js.Done tt w' /\ Obs.grew_by w w' [m1; m2; m3] /\
       Obs.is_turn Component.assistant
         (Js.VStr ("AI Error: " ++ Js.to_string (Js.get_opt ai_response "error")))
         None m3) /\
    (Js.truthy (Js.get_opt ai_response "response") = false ->
     Js.truthy (Js.get_opt ai_response "error") = false ->
     exists w', run = Js.Done tt w' /\ Obs.grew_by w w' [m1; m2]).
Proof.
  intros Hd He. cbv zeta.
  exists (Obs.stamped browser (Component.ticks w)
            (Component.voice_turn (Js.get_opt d "text") Component.user)).
  exists (Obs.stamped browser (3 + Component.ticks w)
            (Component.turn
               (Obs.echo (Js.get_opt d "language") (Js.get_opt d "text"))
               Component.assistant)).
  split; [repeat split|]. split; [repeat split|].
  unfold Fetchers.transcribeFetcher_becomes, Fetchers.onTranscribeFetcher,
    Fetchers.showAiResponse, Fetchers.is_idle, Js.bind, Js.modify.
  cbn [Component.transcribeFetcher Component.with_transcribeFetcher
       Component.data Component.fetcher_state Obs.settled_with
       Component.busy negb].
  rewrite Hd, He. cbn [negb andb].
  assert (Hget : forall k (s : Component.World),
             Js.get d k s = Js.Done (Js.get_opt d k) s).
  { intros k s0. destruct d; try discriminate Hd; reflexivity. }
  unfold Fetchers.addMessage.
  repeat (first [rewrite Hget | rewrite addMessage_stamped_spec];
          cbv beta iota).
  assert (Hget' : forall k (s : Component.World),
             Js.truthy (Js.get_opt (Js.get_opt d "ai_response") k) = true ->
             Js.get (Js.get_opt d "ai_response") k s
             = Js.Done (Js.get_opt (Js.get_opt d "ai_response") k) s).
  { intros k s0 H. destruct (Js.get_opt d "ai_response");
      try discriminate H; reflexivity. }
  split; [|split].
  - intros Hr. rewrite Hr, (Hget' _ _ Hr), addMessage_stamped_spec.
    do 2 eexists. split; [reflexivity|]. split.
    { unfold Obs.grew_by; cbn; rewrite <- !app_assoc; reflexivity. }
    repeat split.
  - intros Hr Hae. rewrite Hr, Hae, (Hget' _ _ Hae), addMessage_stamped_spec.
    do 2 eexists. split; [reflexivity|]. split.
    { unfold Obs.grew_by; cbn; rewrite <- !app_assoc; reflexivity. }
    repeat split.
  - intros Hr Hae. rewrite Hr, Hae.
    eexists. split; [reflexivity|].
    unfold Obs.grew_by; cbn; rewrite <- !app_assoc; reflexivity.
Qed.

Lemma get_not_nullish {S} (v : Js.value) (k : string) (s : S) :
  Obs.nullish v = false -> Js.get v k s = Js.Done (Js.get_opt v k) s.
Proof. destruct v; intro H; try discriminate H; reflexivity. Qed.

Lemma truthy_not_nullish (v : Js.value) :
  Js.truthy v = true -> Obs.nullish v = false.
Proof. destruct v; intro H; try discriminate H; reflexivity. Qed.

(** The effect of the chained revision on a transcription without error:
    the voice turn and one assistant turn, and no echo. *)
Lemma chained_transcription_turns
    (browser : Component.Browser) (d : Js.value) (w : Component.World) :
  let transcription := Js.get_opt d "transcription" in
  let reply := Js.get_opt d "response" in
  let run := Chained.transcribeFetcher_becomes browser (Obs.settled_with d) w in
  Js.truthy d = true ->
  Obs.nullish transcription = false ->
  Js.truthy (Js.get_opt transcription "error") = false ->
  exists m1,
    Obs.is_turn Component.user (Js.get_opt transcription "text") (Some true) m1 /\
    (Js.truthy reply = true ->
     Obs.nullish (Js.get_opt reply "message") = false ->
     exists w' m2, run = Js.Done tt w' /\ Obs.grew_by w w' [m1; m2] /\
       Obs.is_turn Component.assistant
         (Js.get_opt (Js.get_opt reply "message") "content") None m2) /\
    (Js.truthy reply = false ->
     exists w' m2, run = Js.Done tt w' /\ Obs.grew_by w w' [m1; m2] /\
       Obs.is_turn Component.assistant
         (Js.VStr "Sorry, there was an error getting a response.") None m2).
Proof.
  cbv zeta. intros Hd Ht He.
  exists (Obs.stamped browser (Component.ticks w)
            (Component.voice_turn
               (Js.get_opt (Js.get_opt d "transcription") "text")
               Component.user)).
  split; [repeat split|].
  unfold Chained.transcribeFetcher_becomes, Chained.onTranscribeFetcher,
    Js.bind, Js.modify.
  cbn [Component.transcribeFetcher Component.with_transcribeFetcher
       Component.data Component.fetcher_state Obs.settled_with].
  rewrite Hd.
  pose proof (truthy_not_nullish d Hd) as Hn.
  unfold Chained.addMessage.
  rewrite (get_not_nullish d _ _ Hn). cbv beta iota.
  rewrite (get_not_nullish _ _ _ Ht). cbv beta iota.
  rewrite He. cbn [negb].
  rewrite (get_not_nullish _ _ _ Ht). cbv beta iota.
  rewrite addMessage_stamped_spec. cbv beta iota.
  rewrite (get_not_nullish d _ _ Hn). cbv beta iota.
  split.
  - intros Hr Hm. rewrite Hr.
    rewrite (get_not_nullish _ _ _ (truthy_not_nullish _ Hr)). cbv beta iota.
    rewrite (get_not_nullish _ _ _ Hm). cbv beta iota.
    rewrite addMessage_stamped_spec.
    do 2 eexists. split; [reflexivity|]. split.
    { unfold Obs.grew_by; cbn; rewrite <- !app_assoc; reflexivity. }
    repeat split.
  - intros Hr. rewrite Hr. rewrite addMessage_stamped_spec.
    do 2 eexists. split; [reflexivity|]. split.
    { unfold Obs.grew_by; cbn; rewrite <- !app_assoc; reflexivity. }
    repeat split.
Qed.

(** C2, as the code has it.  When the transcription fetcher comes back idle
    with a payload [d] that reports no error:
    - the two-fetcher revision appends the [user] voice turn with the
      transcribed text and the echo of the transcription, and then one turn
      of type [ai] with the reply when [ai_response.response] is non-empty,
      or one [assistant] error turn when [ai_response.error] is non-empty
      (three turns), and nothing more when [ai_response] has neither (two
      turns);
    - the chained revision appends exactly two turns, the [user] voice turn
      and one [assistant] turn: the reply when [response.message] is there,
      an error turn when [response] is absent.  It has no echo turn. *)
Theorem recording_session_turns
    (browser : Component.Browser) (d : Js.value) (w : Component.World) :
  Js.truthy d = true ->
  (let run := Fetchers.transcribeFetcher_becomes browser (Obs.settled_with d) w in
   let text := Js.get_opt d "text" in
   let ai_response := Js.get_opt d "ai_response" in
   Js.truthy (Js.get_opt d "error") = false ->
   exists m1 m2,
     Obs.is_turn Component.user text (Some true) m1 /\
     Obs.is_turn Component.assistant
       (Obs.echo (Js.get_opt d "language") text) None m2 /\
     (Js.truthy (Js.get_opt ai_response "response") = true ->
      exists w' m3, run = Js.Done tt w' /\ Obs.grew_by w w' [m1; m2; m3] /\
        Obs.is_turn Component.ai (Js.get_opt ai_response "response") None m3) /\
     (Js.truthy (Js.get_opt ai_response "response") = false ->
      Js.truthy (Js.get_opt ai_response "error") = true ->
      exists w' m3, run = Js.Done tt w' /\ Obs.grew_by w w' [m1; m2; m3] /\
        Obs.is_turn Component.assistant
          (Js.VStr ("AI Error: "
                      ++ Js.to_string (Js.get_opt ai_response "error")))
          None m3) /\
     (Js.truthy (Js.get_opt ai_response "response") = false ->
      Js.truthy (Js.get_opt ai_response "error") = false ->
      exists w', run = Js.Done tt w' /\ Obs.grew_by w w' [m1; m2])) /\
  (let run := Chained.transcribeFetcher_becomes browser (Obs.settled_with d) w in
   let transcription := Js.get_opt d "transcription" in
   let reply := Js.get_opt d "response" in
   Obs.nullish transcription = false ->
   Js.truthy (Js.get_opt transcription "error") = false ->
   exists m1,
     Obs.is_turn Component.user (Js.get_opt transcription "text") (Some true) m1 /\
     (Js.truthy reply = true ->
      Obs.nullish (Js.get_opt reply "message") = false ->
      exists w' m2, run = Js.Done tt w' /\ Obs.grew_by w w' [m1; m2] /\
        Obs.is_turn Component.assistant
          (Js.get_opt (Js.get_opt reply "message") "content") None m2) /\
     (Js.truthy reply = false ->
      exists w' m2, run = Js.Done tt w' /\ Obs.grew_by w w' [m1; m2] /\
        Obs.is_turn Component.assistant
          (Js.VStr "Sorry, there was an error getting a response.") None m2)).
Proof.
  intro Hd. split; cbv zeta.
  - intro He. exact (fetchers_transcription_turns browser d w Hd He).
  - intros Ht He. exact (chained_transcription_turns browser d w Hd Ht He).
Qed.

Lemma recording_session_turns_witness :
  let browser := Obs.steady 1700000000000 "k3j9x2m1q" in
  (exists w' m1 m2 m3,
     Fetchers.transcribeFetcher_becomes browser
       (Obs.settled_with Obs.hello_processed) Component.initial = Js.Done tt w' /\
     Obs.grew_by Component.initial w' [m1; m2; m3] /\
     Component.type m3 = Component.ai) /\
  (exists w' m1 m2,
     Chained.transcribeFetcher_becomes browser
       (Obs.settled_with
          (Js.VObj [("transcription", Obs.hello_transcribed);
                    ("response",
                     Js.VObj [("message",
                               Js.VObj [("content", Js.VStr "Hi!")])])]))
       Component.initial = Js.Done tt w' /\
     Obs.grew_by Component.initial w' [m1; m2] /\
     Component.type m2 = Component.assistant).
Proof.
  cbv zeta. split.
  - destruct (recording_session_turns (Obs.steady 1700000000000 "k3j9x2m1q")
                Obs.hello_processed Component.initial eq_refl) as [H _].
    destruct (H eq_refl) as (m1 & m2 & _ & _ & H3 & _).
    destruct (H3 eq_refl) as (w' & m3 & E & G & T).
    exists w', m1, m2, m3. repeat split; try assumption. apply T.
  - destruct (recording_session_turns (Obs.steady 1700000000000 "k3j9x2m1q")
                (Js.VObj [("transcription", Obs.hello_transcribed);
                          ("response",
                           Js.VObj [("message",
                                     Js.VObj [("content", Js.VStr "Hi!")])])])
                Component.initial eq_refl) as [_ H].
    destruct (H eq_refl eq_refl) as (m1 & _ & H2 & _).
    destruct (H2 eq_refl eq_refl) as (w' & m2 & E & G & T).
    exists w', m1, m2. repeat split; try assumption. apply T.
Defined.

(** C2 as stated fails on the chained revision: a recording that is
    transcribed and answered grows the conversation by two turns, the voice
    turn and the reply; there is no echo turn. *)
Lemma chained_session_grows_by_two :
  let env := Obs.upstream (Obs.answers 200 Obs.hello_transcribed) Obs.unused
               Obs.hello_completion in
  let browser := Obs.steady 1700000000000 "k3j9x2m1q" in
  exists resp s' w',
    ChainedTranscribeRoute.action env Obs.audio_request Obs.fresh
      = Js.Done resp s' /\
    Http.status resp = 200%Z /\
    Chained.transcribeFetcher_becomes browser
      (Obs.settled_with (Http.body resp)) Component.initial = Js.Done tt w' /\
    map Component.type (Component.messages w')
      = [Component.user; Component.assistant] /\
    map Component.content (Component.messages w')
      = [Js.VStr "hello"; Js.VStr "Hi! How can I help?"] /\
    ~ Obs.voice_then_two (Js.VStr "hello") Component.initial w'.
Proof.
  cbv zeta. do 3 eexists.
  split; [reflexivity|]. split; [reflexivity|]. split; [reflexivity|].
  split; [reflexivity|]. split; [reflexivity|].
  intros (m1 & m2 & m3 & G & _).
  unfold Obs.grew_by in G. cbn in G. discriminate G.
Qed.

(** *** What the relay routes do with an exception *)

(** C6 as stated fails on the text-message relay: its [catch] answers with
    the message of what was thrown, so no fixed string describes its
    answers. *)
Lemma textmessage_route_forwards_the_message :
  let env := Obs.upstream Obs.unused Obs.unused (Js.Resolved Js.VNull) in
  TextMessageRoute.action env
    (Obs.broken_request
       (Js.ErrorObject "SyntaxError" "Unexpected token < in JSON at position 0"))
    Obs.fresh
  = Js.Done {| Http.status := 500;
               Http.body :=
                 Http.obj_error "Unexpected token < in JSON at position 0" |}
      Obs.fresh /\
  ~ (exists fixed, forall e, exists s',
        TextMessageRoute.action env (Obs.broken_request e) Obs.fresh
        = Js.Done {| Http.status := 500; Http.body := Http.obj_error fixed |} s').
Proof.
  cbv zeta. split; [reflexivity|].
  intros (fixed & H).
  destruct (H (Js.ErrorObject "SyntaxError" "a")) as (s1 & E1).
  destruct (H (Js.ErrorObject "SyntaxError" "b")) as (s2 & E2).
  cbv in E1, E2. congruence.
Qed.

(** What [queryDeepSeek] makes of an exception of the model call. *)
Lemma queryDeepSeek_by_outcome
    (env : DeepSeek.Env) (messages : list DeepSeek.DeepSeekMessage)
    (s : DeepSeek.Server) :
  exists r s',
    DeepSeek.queryDeepSeek env messages s = Js.Done r s' /\
    match Obs.model_throws env (DeepSeek.together s) messages with
    | Some e =>
        r = inr {| DeepSeek.error := Js.message_or "Unknown error occurred" e;
                   DeepSeek.code := Some 500%Z |}
    | None => exists ok, r = inl ok
    end.
Proof.
  unfold DeepSeek.queryDeepSeek, DeepSeek.request_completion,
    DeepSeek.first_choice_message, Js.try_catch, Js.bind,
    DeepSeek.getTogetherClient, Obs.model_throws.
  destruct (DeepSeek.together s);
    [|destruct (DeepSeek.new_Together env) as [e|]];
    cbn [DeepSeek.issue Js.modify];
    try (do 2 eexists; split; reflexivity).
  all: destruct (DeepSeek.completions_create env messages) as [response|e];
    cbn [Js.await Js.ret Js.throw];
    [|do 2 eexists; split; reflexivity].
  all: cbv zeta; rewrite get_cases; destruct (Obs.nullish response);
    [do 2 eexists; split; reflexivity|].
  all: rewrite first_cases;
    destruct (Obs.nullish (Js.get_opt response "choices"));
    [do 2 eexists; split; reflexivity|].
  all: rewrite get_cases;
    destruct (Obs.nullish (Js.at0 (Js.get_opt response "choices")));
    do 2 eexists; (split; [reflexivity|]); try reflexivity;
    eexists; reflexivity.
Qed.

(** C6, as the code has it.  No relay route lets an exception out: every
    request is answered.  In the transcription relay, the process-text relay
    and the chained transcription relay, whatever is thrown while the request
    is read, the service is called and its answer is read (a request that
    cannot be parsed, a rejected [fetch], a status outside 2xx, a body that
    is not JSON, a property read on a [null] body) is answered 500 with the
    fixed error string of the route, whatever was thrown.  The text-message
    relay answers such an exception 500 with the message of what was thrown,
    or [Unknown error] when that is not an [Error].  An exception of the
    model call reaches no route: [queryDeepSeek] hands it over as its error
    value, which the text-message relay answers 500 with the message of the
    exception, and which the chained transcription relay passes on under
    [response] in an answer of status 200. *)
Theorem relay_routes_catch_everything
    (env : DeepSeek.Env) (request : Http.Request) (s : DeepSeek.Server) :
  let fixed (msg : string) : Http.Response :=
    {| Http.status := 500; Http.body := Http.obj_error msg |} in
  let asked (content : Js.value) : list DeepSeek.DeepSeekMessage :=
    [ {| DeepSeek.role := DeepSeek.role_user; DeepSeek.content := content |} ] in
  (exists resp s',
     TranscribeRoute.action env request s = Js.Done resp s' /\
     match Http.formData request with
     | inl _ => resp = fixed "Failed to transcribe audio"
     | inr fd =>
         if no_audio_file (Http.FormData_get "file" fd)
         then Http.status resp = 400%Z
         else
           match Obs.service_gives "HTTP error! status: "
                   (DeepSeek.transcribe_service env fd) with
           | inl _ => resp = fixed "Failed to transcribe audio"
           | inr _ => Http.status resp = 200%Z
           end
     end) /\
  (exists resp s',
     ProcessTextRoute.action env request s = Js.Done resp s' /\
     match Http.json request with
     | Js.Rejected _ => resp = fixed "Failed to process text"
     | Js.Resolved body =>
         if Obs.nullish body
         then resp = fixed "Failed to process text"
         else
           match Obs.service_gives "HTTP error! status: "
                   (DeepSeek.process_text_service env
                      (Js.jsonify (Js.VObj [("text", Js.get_opt body "text")])))
           with
           | inl _ => resp = fixed "Failed to process text"
           | inr _ => Http.status resp = 200%Z
           end
     end) /\
  (exists resp s',
     ChainedTranscribeRoute.action env request s = Js.Done resp s' /\
     match Http.formData request with
     | inl _ => resp = fixed "Failed to process request"
     | inr fd =>
         if no_audio_file (Http.FormData_get "file" fd)
         then Http.status resp = 400%Z
         else
           match Obs.service_gives "Transcription error: "
                   (DeepSeek.transcribe_service env fd) with
           | inl _ => resp = fixed "Failed to process request"
           | inr transcriptionData =>
               if Obs.nullish transcriptionData
               then resp = fixed "Failed to process request"
               else
                 match Obs.model_throws env (DeepSeek.together s)
                         (asked (Js.get_opt transcriptionData "text")) with
                 | Some e =>
                     resp
                     = {| Http.status := 200;
                          Http.body :=
                            Js.jsonify
                              (Js.VObj
                                 [("transcription", transcriptionData);
                                  ("response",
                                   Js.VObj
                                     [("error",
                                       Js.VStr (Js.message_or
                                                  "Unknown error occurred" e));
                                      ("code", Js.VNum 500)])]) |}
                 | None => Http.status resp = 200%Z
                 end
           end
     end) /\
  (exists resp s',
     TextMessageRoute.action env request s = Js.Done resp s' /\
     match Http.json request with
     | Js.Rejected e =>
         resp = fixed (Js.message_or "Unknown error" e)
     | Js.Resolved parsed =>
         if Obs.nullish parsed
         then resp
              = fixed ("Cannot destructure property 'message' of "
                         ++ "'(intermediate value)' as it is "
                         ++ Js.to_string parsed ++ ".")
         else if Js.truthy (Js.get_opt parsed "message")
         then
           match Obs.model_throws env (DeepSeek.together s)
                   (asked (Js.get_opt parsed "message")) with
           | Some e => resp = fixed (Js.message_or "Unknown error occurred" e)
           | None => Http.status resp = 200%Z
           end
         else Http.status resp = 400%Z
     end).
Proof.
  cbv zeta. split; [|split; [|split]].
  - unfold TranscribeRoute.action, TranscribeRoute.attempt, Js.try_catch,
      Js.bind, request_formData, DeepSeek.fetch_ok, Js.bind, Obs.service_gives.
    destruct (Http.formData request) as [e|fd]; cbn [Js.throw Js.ret].
    { do 2 eexists. split; reflexivity. }
    destruct (no_audio_file (Http.FormData_get "file" fd)).
    { do 2 eexists. split; reflexivity. }
    cbn [DeepSeek.issue Js.modify].
    destruct (DeepSeek.transcribe_service env fd) as [e|st [v|e]];
      [|destruct (Http.ok st)..]; cbn [negb Js.throw Js.ret Js.await];
      do 2 eexists; split; reflexivity.
  - unfold ProcessTextRoute.action, ProcessTextRoute.attempt, Js.try_catch,
      Js.bind, DeepSeek.fetch_ok, Js.bind, Obs.service_gives.
    destruct (Http.json request) as [body|e]; cbn [Js.await Js.throw Js.ret].
    2:{ do 2 eexists. split; reflexivity. }
    rewrite get_cases. destruct (Obs.nullish body).
    { do 2 eexists. split; reflexivity. }
    cbn [DeepSeek.issue Js.modify].
    destruct (DeepSeek.process_text_service env
                (Js.jsonify (Js.VObj [("text", Js.get_opt body "text")])))
      as [e|st [v|e]];
      [|destruct (Http.ok st)..]; cbn [negb Js.throw Js.ret Js.await];
      do 2 eexists; split; reflexivity.
  - unfold ChainedTranscribeRoute.action, ChainedTranscribeRoute.attempt,
      Js.try_catch, Js.bind, request_formData, DeepSeek.fetch_ok, Js.bind,
      Obs.service_gives.
    destruct (Http.formData request) as [e|fd]; cbn [Js.throw Js.ret].
    { do 2 eexists. split; reflexivity. }
    destruct (no_audio_file (Http.FormData_get "file" fd)).
    { do 2 eexists. split; reflexivity. }
    cbn [DeepSeek.issue Js.modify].
    destruct (DeepSeek.transcribe_service env fd) as [e|st [v|e]];
      [|destruct (Http.ok st)..]; cbn [negb Js.throw Js.ret Js.await];
      try (do 2 eexists; split; reflexivity).
    rewrite get_cases. destruct (Obs.nullish v).
    { do 2 eexists. split; reflexivity. }
    match goal with
    | |- context [DeepSeek.queryDeepSeek env ?msgs ?st] =>
        destruct (queryDeepSeek_by_outcome env msgs st) as (r & s1 & -> & Hr)
    end.
    cbn [DeepSeek.together] in Hr.
    destruct (Obs.model_throws env (DeepSeek.together s) _) as [e|].
    + subst r. do 2 eexists. split; reflexivity.
    + do 2 eexists. split; reflexivity.
  - unfold TextMessageRoute.action, TextMessageRoute.attempt, Js.try_catch,
      Js.bind.
    destruct (Http.json request) as [parsed|e]; cbn [Js.await Js.ret Js.throw].
    2:{ do 2 eexists. split; reflexivity. }
    destruct (Obs.nullish parsed) eqn:Hn.
    { destruct parsed; try discriminate Hn; cbn [Js.destructure Js.throw];
        do 2 eexists; split; reflexivity. }
    assert (Hd : forall st : DeepSeek.Server,
               Js.destructure parsed "message" st
               = Js.Done (Js.get_opt parsed "message") st).
    { intro st. destruct parsed; try discriminate Hn; reflexivity. }
    rewrite Hd.
    destruct (Js.truthy (Js.get_opt parsed "message")); cbn [negb].
    2:{ do 2 eexists. split; reflexivity. }
    match goal with
    | |- context [DeepSeek.queryDeepSeek env ?msgs ?st] =>
        destruct (queryDeepSeek_by_outcome env msgs st) as (r & s1 & -> & Hr)
    end.
    destruct (Obs.model_throws env (DeepSeek.together s) _) as [e|].
    + subst r. do 2 eexists. split; reflexivity.
    + destruct Hr as (ok & ->). do 2 eexists. split; reflexivity.
Qed.

(** The transcription relay answers 500 with its fixed string when the
    service cannot be reached or refuses. *)
Lemma transcribe_route_upstream_failure
    (env : DeepSeek.Env) (request : Http.Request) (fd : Http.FormData)
    (s : DeepSeek.Server) :
  Http.formData request = inr fd ->
  no_audio_file (Http.FormData_get "file" fd) = false ->
  (exists e, DeepSeek.transcribe_service env fd = Http.NetworkError e) \/
  (exists st js, DeepSeek.transcribe_service env fd = Http.HttpResponse st js /\
                 Http.ok st = false) ->
  TranscribeRoute.action env request s
  = Js.Done {| Http.status := 500;
               Http.body := Http.obj_error "Failed to transcribe audio" |}
      {| DeepSeek.together := DeepSeek.together s;
         DeepSeek.calls := (DeepSeek.calls s ++ [DeepSeek.TranscribeCall fd])%list |}.
Proof.
  intros Hfd Hfile Hup.
  unfold TranscribeRoute.action, TranscribeRoute.attempt, Js.try_catch,
    Js.bind, request_formData, DeepSeek.fetch_ok, Js.bind.
  rewrite Hfd. cbn [Js.ret]. rewrite Hfile.
  destruct Hup as [(e & ->)|(st & js & -> & Hok)];
    cbn [DeepSeek.issue Js.modify]; [reflexivity|].
  rewrite Hok. reflexivity.
Qed.

(** The text-message relay hands the message of a failed model call to the
    client. *)
Lemma textmessage_route_upstream_failure
    (env : DeepSeek.Env) (request : Http.Request)
    (fields : list (string * Js.value)) (name msg : string)
    (s : DeepSeek.Server) :
  Http.json request = Js.Resolved (Js.VObj fields) ->
  Js.truthy (Js.lookup "message" fields) = true ->
  DeepSeek.new_Together env = None ->
  (forall l, DeepSeek.completions_create env l
             = Js.Rejected (Js.ErrorObject name msg)) ->
  exists s',
    TextMessageRoute.action env request s
    = Js.Done {| Http.status := 500; Http.body := Http.obj_error msg |} s'.
Proof.
  intros Hjs Hm Hnew Hc.
  unfold TextMessageRoute.action, TextMessageRoute.attempt, Js.try_catch,
    Js.bind, DeepSeek.queryDeepSeek, DeepSeek.request_completion,
    Js.try_catch, Js.bind, DeepSeek.getTogetherClient.
  rewrite Hjs. cbn [Js.await Js.ret Js.destructure Js.get]. rewrite Hm.
  cbn [negb]. rewrite Hnew, Hc.
  destruct (DeepSeek.together s); eexists; reflexivity.
Qed.

(** *** The end of a recording session *)

(** C9 as stated fails: after a recording was started, received a chunk and
    was stopped, the tracks are stopped but the chunk is still in the
    buffer. *)
Lemma stop_keeps_the_chunks :
  let browser := Obs.steady 1700000000000 "k3j9x2m1q" in
  exists w,
    (Chained.startRecording browser (Component.Captures [true]) ;;;
     Component.ondataavailable Obs.chunk ;;;
     Chained.stopRecording) Component.initial = Js.Done tt w /\
    Component.isRecording w = false /\
    Component.mediaRecorderRef w
      = Some {| Component.state := Component.inactive;
                Component.tracks := [false] |} /\
    Component.chunksRef w = [Obs.chunk] /\
    ~ Obs.destroyed w.
Proof.
  cbv zeta. eexists. split; [reflexivity|].
  split; [reflexivity|]. split; [reflexivity|]. split; [reflexivity|].
  intros [H _]. discriminate H.
Qed.

Lemma released_all_stopped (l : list bool) :
  Forall (fun live => live = false) (map (fun _ : bool => false) l).
Proof. induction l; simpl; constructor; auto. Qed.

(** C9, as the code has it.  Stopping an active recording stops the
    recorder, resets [isRecording] and stops every track of the stream; it
    leaves the chunk buffer as it is, for the stop callback to build the
    upload from, and that callback does not clear it either.  The buffer is
    emptied when the next recording starts, whatever the hooks hold then.
    When [getUserMedia] rejects, in whatever state the hooks are (no session
    exists yet, or an earlier one has left its recorder and its chunks
    behind), one assistant error turn is appended and recorder, buffer and
    [isRecording] stay as they were. *)
Theorem recording_session_end
    (browser : Component.Browser) (w : Component.World) :
  (forall r,
     Component.mediaRecorderRef w = Some r ->
     Component.state r = Component.recording ->
     Component.isRecording w = true ->
     exists w' r',
       Chained.stopRecording w = Js.Done tt w' /\
       Component.isRecording w' = false /\
       Component.mediaRecorderRef w' = Some r' /\
       Component.state r' = Component.inactive /\
       Obs.released r' /\
       Component.chunksRef w' = Component.chunksRef w /\
       Component.messages w' = Component.messages w /\
       exists w'',
         Chained.onstop w' = Js.Done tt w'' /\
         Component.chunksRef w'' = Component.chunksRef w /\
         Component.requests w''
         = (Component.requests w
              ++ [Component.SubmitTranscribe "/api/transcribe"
                    [("file",
                      Http.FFile (Component.new_Blob (Component.chunksRef w)
                                    "audio/webm") "audio.webm")]])%list) /\
  (forall stream, exists w',
     Chained.startRecording browser (Component.Captures stream) w
       = Js.Done tt w' /\
     Component.chunksRef w' = [] /\
     Component.isRecording w' = true /\
     Component.mediaRecorderRef w'
       = Some {| Component.state := Component.recording;
                 Component.tracks := stream |}) /\
  (forall e, exists w' m,
     Chained.startRecording browser (Component.GetUserMediaRejects e) w
       = Js.Done tt w' /\
     Obs.grew_by w w' [m] /\
     Obs.is_turn Component.assistant
       (Js.VStr "Error accessing microphone. Please check your permissions.")
       None m /\
     Component.mediaRecorderRef w' = Component.mediaRecorderRef w /\
     Component.chunksRef w' = Component.chunksRef w /\
     Component.isRecording w' = Component.isRecording w).
Proof.
  split; [|split].
  - intros r Href Hstate Hrec.
    unfold Chained.stopRecording, Component.stopRecording, Js.bind, Js.gets.
    rewrite Href, Hrec.
    unfold Component.MediaRecorder_stop. rewrite Hstate.
    cbn [Js.modify Component.stop_tracks].
    do 2 eexists. split; [reflexivity|].
    split; [reflexivity|]. split; [reflexivity|]. split; [reflexivity|].
    split; [apply released_all_stopped|].
    split; [reflexivity|]. split; [reflexivity|].
    cbv [Chained.onstop Component.onstop Js.bind Js.gets Js.modify
         Component.transcribeFetcher_submit Component.send].
    eexists. split; [reflexivity|]. split; reflexivity.
  - intro stream.
    cbv [Chained.startRecording Component.startRecording Js.try_catch Js.bind
         Js.modify Js.ret Component.getUserMedia Component.new_MediaRecorder
         Component.MediaRecorder_start].
    eexists. split; [reflexivity|]. repeat split.
  - intro e.
    unfold Chained.startRecording, Component.startRecording, Js.try_catch,
      Js.bind. cbn [Component.getUserMedia Js.throw].
    unfold Chained.addMessage. rewrite addMessage_stamped_spec.
    do 2 eexists. split; [reflexivity|]. split; [reflexivity|].
    repeat split.
Qed.

(** One session from its start to the start of the next, and a start that
    fails before any session exists. *)
Lemma recording_session_end_witness :
  let browser := Obs.steady 1700000000000 "k3j9x2m1q" in
  let w := Component.with_chunksRef (fun _ => [Obs.chunk])
             (Component.with_isRecording true
                (Component.with_mediaRecorderRef
                   (Some {| Component.state := Component.recording;
                            Component.tracks := [true] |})
                   Component.initial)) in
  (exists w' r' w'' w''',
     Chained.stopRecording w = Js.Done tt w' /\
     Component.mediaRecorderRef w' = Some r' /\
     Obs.released r' /\
     Component.chunksRef w' = [Obs.chunk] /\
     Chained.onstop w' = Js.Done tt w'' /\
     Component.chunksRef w'' = [Obs.chunk] /\
     Chained.startRecording browser (Component.Captures [true]) w''
       = Js.Done tt w''' /\
     Component.chunksRef w''' = []) /\
  (exists w' m,
     Chained.startRecording browser
       (Component.GetUserMediaRejects
          (Js.ErrorObject "NotAllowedError" "Permission denied"))
       Component.initial = Js.Done tt w' /\
     Component.messages w' = [m] /\
     Component.mediaRecorderRef w' = None /\
     Component.chunksRef w' = [] /\
     Component.isRecording w' = false).
Proof.
  cbv zeta. split.
  - destruct (proj1 (recording_session_end
                       (Obs.steady 1700000000000 "k3j9x2m1q")
                       (Component.with_chunksRef (fun _ => [Obs.chunk])
                          (Component.with_isRecording true
                             (Component.with_mediaRecorderRef
                                (Some {| Component.state := Component.recording;
                                         Component.tracks := [true] |})
                                Component.initial))))
                {| Component.state := Component.recording;
                   Component.tracks := [true] |}
                eq_refl eq_refl eq_refl)
      as (w' & r' & E & _ & R & _ & L & C & _ & w'' & E2 & C2 & _).
    destruct (proj1 (proj2 (recording_session_end
                              (Obs.steady 1700000000000 "k3j9x2m1q") w''))
                [true])
      as (w''' & E3 & C3 & _).
    exists w', r', w'', w'''. repeat split; assumption.
  - destruct (proj2 (proj2 (recording_session_end
                              (Obs.steady 1700000000000 "k3j9x2m1q")
                              Component.initial))
                (Js.ErrorObject "NotAllowedError" "Permission denied"))
      as (w' & m & E & G & _ & R & C & I).
    exists w', m. repeat split; assumption.
Defined.

(* ===================================================================== *)
(** ** Further properties of the service and of the routes *)
(* ===================================================================== *)

(** X1.  One call of [queryDeepSeek] sends exactly one completion request,
    carrying the messages it was given, and leaves the client created; the
    only exception is a client that cannot be constructed, and then nothing
    is sent.  It never sends a second request. *)
Theorem queryDeepSeek_sends_one_request
    (env : DeepSeek.Env) (messages : list DeepSeek.DeepSeekMessage)
    (s : DeepSeek.Server) :
  exists r s',
    DeepSeek.queryDeepSeek env messages s = Js.Done r s' /\
    if DeepSeek.together s
    then DeepSeek.together s' = true /\
         DeepSeek.calls s'
           = (DeepSeek.calls s ++ [DeepSeek.CompletionCall messages])%list
    else match DeepSeek.new_Together env with
         | None =>
             DeepSeek.together s' = true /\
             DeepSeek.calls s'
               = (DeepSeek.calls s ++ [DeepSeek.CompletionCall messages])%list
         | Some e =>
             s' = s /\
             r = inr {| DeepSeek.error := Js.message_or "Unknown error occurred" e;
                        DeepSeek.code := Some 500%Z |}
         end.
Proof.
  unfold DeepSeek.queryDeepSeek, DeepSeek.request_completion, Js.try_catch,
    Js.bind, DeepSeek.getTogetherClient.
  destruct (DeepSeek.together s) eqn:Hc;
    [|destruct (DeepSeek.new_Together env) as [e|] eqn:Hn].
  3:{ cbn [DeepSeek.issue Js.modify].
      destruct (DeepSeek.completions_create env messages) as [response|e];
        cbn [Js.await Js.ret Js.throw].
      - match goal with
        | |- context [DeepSeek.first_choice_message response ?st] =>
            destruct (first_choice_message_store response st) as [[m ->]|[e ->]]
        end; do 2 eexists; (split; [reflexivity|]); split; reflexivity.
      - do 2 eexists. split; [reflexivity|]. split; reflexivity. }
  2:{ do 2 eexists. split; [reflexivity|]. split; reflexivity. }
  cbn [DeepSeek.issue Js.modify].
  destruct (DeepSeek.completions_create env messages) as [response|e];
    cbn [Js.await Js.ret Js.throw].
  - match goal with
    | |- context [DeepSeek.first_choice_message response ?st] =>
        destruct (first_choice_message_store response st) as [[m ->]|[e ->]]
    end; do 2 eexists; (split; [reflexivity|]); split; cbn; congruence.
  - do 2 eexists. split; [reflexivity|]. split; cbn; congruence.
Qed.

Lemma delta_content_indexable (chunk : Js.value) (s : DeepSeek.Server) :
  Stream.indexable chunk = true ->
  Stream.delta_content chunk s = Js.Done (Stream.content_of chunk) s.
Proof.
  unfold Stream.indexable, Stream.delta_content, Stream.content_of, Js.bind.
  destruct chunk as [| | | | |fs|]; try discriminate; cbn [Js.get Js.get_opt Js.ret].
  all: try (intros _; reflexivity).
  destruct (Js.lookup "choices" fs) as [| | | |[|c str]| |[|x l]];
    try discriminate; intros _; reflexivity.
Qed.

Lemma for_await_indexable
    (chunks : list Js.value) (broken : option Js.exn) (s : DeepSeek.Server) :
  forallb Stream.indexable chunks = true ->
  Stream.for_await chunks broken s
  = {| Stream.yielded := filter Js.truthy (map Stream.content_of chunks);
       Stream.finished := match broken with
                          | Some e => Js.Thrown e s
                          | None => Js.Done tt s
                          end |}.
Proof.
  induction chunks as [|chunk rest IH]; intro H; [reflexivity|].
  cbn [forallb] in H. apply andb_true_iff in H as [Hc Hrest].
  cbn [Stream.for_await map filter].
  rewrite (delta_content_indexable chunk s Hc), (IH Hrest).
  destruct (Js.truthy (Stream.content_of chunk)); reflexivity.
Qed.

(** X2.  When the client is available and every delivered chunk has
    [choices] that can be indexed, [streamDeepSeek] yields exactly the
    non-empty [delta.content] of the chunks, in their order, skipping the
    chunks without content; it ends when the stream ends, and when the
    stream breaks it throws an [Error] with the message of what broke it,
    after the increments delivered before. *)
Theorem streamDeepSeek_yields_the_contents
    (env : DeepSeek.Env)
    (create : list DeepSeek.DeepSeekMessage -> Js.exn + Stream.Streamed)
    (messages : list DeepSeek.DeepSeekMessage) (s : DeepSeek.Server)
    (response : Stream.Streamed) :
  DeepSeek.together s = true ->
  create messages = inr response ->
  forallb Stream.indexable (Stream.delivered response) = true ->
  let s' := {| DeepSeek.together := true;
               DeepSeek.calls :=
                 (DeepSeek.calls s ++ [DeepSeek.CompletionCall messages])%list |} in
  Stream.streamDeepSeek env create messages s
  = {| Stream.yielded :=
         filter Js.truthy (map Stream.content_of (Stream.delivered response));
       Stream.finished :=
         match Stream.broken response with
         | Some e =>
             Js.Thrown (Js.ErrorObject "Error"
                          (Js.message_or "Unknown error occurred" e)) s'
         | None => Js.Done tt s'
         end |}.
Proof.
  intros Hc Hcreate Hwf. cbv zeta.
  unfold Stream.streamDeepSeek, Stream.attempt, Js.bind,
    DeepSeek.getTogetherClient.
  rewrite Hc. cbn [DeepSeek.issue Js.modify]. rewrite Hcreate, Hc.
  rewrite (for_await_indexable _ _ _ Hwf). cbn [Stream.yielded Stream.finished].
  destruct (Stream.broken response); reflexivity.
Qed.

Lemma streamDeepSeek_yields_the_contents_witness :
  Stream.yielded
    (Stream.streamDeepSeek
       (Obs.upstream Obs.unused Obs.unused (Js.Resolved Js.VNull))
       (fun _ => inr {| Stream.delivered :=
                          [StreamObs.chunk_with "Hel"; StreamObs.chunk_with "";
                           StreamObs.chunk_with "lo"; StreamObs.closing_chunk];
                        Stream.broken := None |})
       []
       {| DeepSeek.together := true; DeepSeek.calls := [] |})
  = [Js.VStr "Hel"; Js.VStr "lo"].
Proof.
  rewrite (streamDeepSeek_yields_the_contents
             (Obs.upstream Obs.unused Obs.unused (Js.Resolved Js.VNull))
             (fun _ => inr {| Stream.delivered :=
                                [StreamObs.chunk_with "Hel"; StreamObs.chunk_with "";
                                 StreamObs.chunk_with "lo"; StreamObs.closing_chunk];
                              Stream.broken := None |})
             [] {| DeepSeek.together := true; DeepSeek.calls := [] |}
             _ eq_refl eq_refl eq_refl).
  reflexivity.
Defined.

Lemma for_await_yields_truthy
    (chunks : list Js.value) (broken : option Js.exn) (s : DeepSeek.Server) :
  Forall (fun v => Js.truthy v = true)
    (Stream.yielded (Stream.for_await chunks broken s)).
Proof.
  revert s. induction chunks as [|chunk rest IH]; intro s; cbn [Stream.for_await].
  - constructor.
  - destruct (Stream.delta_content chunk s) as [c s'|e s']; [|constructor].
    destruct (Js.truthy c) eqn:Hc; cbn [Stream.yielded]; [|apply IH].
    constructor; [exact Hc|apply IH].
Qed.

(** X3.  Whatever the client, the stream and its chunks do, every increment
    [streamDeepSeek] yields is non-empty, and if it throws, what it throws is
    an [Error] made from the message of the original failure: a value that
    is not an [Error] never leaves it. *)
Theorem streamDeepSeek_yields_nonempty_throws_errors
    (env : DeepSeek.Env)
    (create : list DeepSeek.DeepSeekMessage -> Js.exn + Stream.Streamed)
    (messages : list DeepSeek.DeepSeekMessage) (s : DeepSeek.Server) :
  let g := Stream.streamDeepSeek env create messages s in
  Forall (fun v => Js.truthy v = true) (Stream.yielded g) /\
  match Stream.finished g with
  | Js.Done _ _ => True
  | Js.Thrown e s' =>
      exists original,
        Stream.finished (Stream.attempt env create messages s)
          = Js.Thrown original s' /\
        e = Js.ErrorObject "Error"
              (Js.message_or "Unknown error occurred" original)
  end.
Proof.
  cbv zeta. unfold Stream.streamDeepSeek. cbn [Stream.yielded Stream.finished].
  split.
  - unfold Stream.attempt.
    destruct ((DeepSeek.getTogetherClient env ;;;
               DeepSeek.issue (DeepSeek.CompletionCall messages)) s)
      as [u s'|e s']; [|constructor].
    destruct (create messages) as [e|response]; [constructor|].
    apply for_await_yields_truthy.
  - destruct (Stream.finished (Stream.attempt env create messages s))
      as [u s'|e s']; [exact I|].
    exists e. split; reflexivity.
Qed.

(** The test of the [file] field refuses everything but a file. *)
Lemma no_audio_file_iff (entry : option Http.FormEntry) :
  no_audio_file entry
  = match entry with
    | Some (Http.FFile _ _) => false
    | _ => true
    end.
Proof.
  destruct entry as [[str|b f]|]; unfold no_audio_file;
    [destruct (str =? EmptyString)|..]; reflexivity.
Qed.

(** X4.  Both transcription relays answer 400 exactly when the form parses
    and its first [file] entry is absent or is not a file (a string field
    named [file] is refused); they then answer
    [{ error: No audio file provided }] and call nothing upstream. *)
Theorem transcription_relays_400_iff_no_file
    (env : DeepSeek.Env) (request : Http.Request) (s : DeepSeek.Server) :
  let no_file :=
    match Http.formData request with
    | inr fd => match Http.FormData_get "file" fd with
                | Some (Http.FFile _ _) => false
                | _ => true
                end
    | inl _ => false
    end in
  let refusal :=
    {| Http.status := 400;
       Http.body := Http.obj_error "No audio file provided" |} in
  (exists resp s',
     TranscribeRoute.action env request s = Js.Done resp s' /\
     (Http.status resp = 400%Z <-> no_file = true) /\
     if no_file then resp = refusal /\ s' = s else True) /\
  (exists resp s',
     ChainedTranscribeRoute.action env request s = Js.Done resp s' /\
     (Http.status resp = 400%Z <-> no_file = true) /\
     if no_file then resp = refusal /\ s' = s else True).
Proof.
  cbv zeta. split.
  - assert (Hst : Obs.returns
                    (fun r => Http.status r = 200%Z) 
                    (fun st =>
                       match Http.formData request with
                       | inr fd =>
                           (js <- DeepSeek.fetch_ok "HTTP error! status: "
                                    (DeepSeek.TranscribeCall fd)
                                    (DeepSeek.transcribe_service env fd) ;;
                            transcription <- Js.await js ;;
                            Http.Response_json transcription 200) st
                       | inl e => Js.Thrown e st
                       end)).
    { intros st a st' E. destruct (Http.formData request); [discriminate|].
      revert st a st' E.
      change (Obs.returns (fun r => Http.status r = 200%Z)
                (js <- DeepSeek.fetch_ok "HTTP error! status: "
                         (DeepSeek.TranscribeCall f)
                         (DeepSeek.transcribe_service env f) ;;
                 transcription <- Js.await js ;;
                 Http.Response_json transcription 200)).
      repeat returns_step. reflexivity. }
    unfold TranscribeRoute.action, TranscribeRoute.attempt, Js.try_catch,
      Js.bind at 1, request_formData.
    destruct (Http.formData request) as [e|fd] eqn:Hfd; cbn [Js.throw Js.ret].
    + rewrite Response_json_500. do 2 eexists. split; [reflexivity|].
      split; [|exact I]. cbn. split; discriminate.
    + rewrite no_audio_file_iff.
      destruct (Http.FormData_get "file" fd) as [[str|b f]|] eqn:Hget.
      * do 2 eexists. split; [reflexivity|]. repeat split.
      * match goal with
        | |- context [match ?c s with _ => _ end] =>
            destruct (c s) as [a s1|e s1] eqn:E
        end.
        -- pose proof (Hst s a s1 E) as H200.
           do 2 eexists. split; [reflexivity|]. split; [|exact I].
           rewrite H200. split; discriminate.
        -- rewrite Response_json_500. do 2 eexists. split; [reflexivity|].
           split; [|exact I]. cbn. split; discriminate.
      * do 2 eexists. split; [reflexivity|]. repeat split.
  - assert (Hst : forall fd, Obs.returns
                    (fun r => Http.status r = 200%Z)
                    (js <- DeepSeek.fetch_ok "Transcription error: "
                             (DeepSeek.TranscribeCall fd)
                             (DeepSeek.transcribe_service env fd) ;;
                     transcriptionData <- Js.await js ;;
                     text <- Js.get transcriptionData "text" ;;
                     deepseekResponse <-
                       DeepSeek.queryDeepSeek env
                         [ {| DeepSeek.role := DeepSeek.role_user;
                              DeepSeek.content := text |} ] ;;
                     Http.Response_json
                       (Js.VObj [("transcription", transcriptionData);
                                 ("response", DeepSeek.to_value deepseekResponse)])
                       200)).
    { intro fd. repeat returns_step. reflexivity. }
    unfold ChainedTranscribeRoute.action, ChainedTranscribeRoute.attempt,
      Js.try_catch, Js.bind at 1, request_formData.
    destruct (Http.formData request) as [e|fd] eqn:Hfd; cbn [Js.throw Js.ret].
    + rewrite Response_json_500. do 2 eexists. split; [reflexivity|].
      split; [|exact I]. cbn. split; discriminate.
    + rewrite no_audio_file_iff.
      destruct (Http.FormData_get "file" fd) as [[str|b f]|] eqn:Hget.
      * do 2 eexists. split; [reflexivity|]. repeat split.
      * match goal with
        | |- context [match ?c s with _ => _ end] =>
            destruct (c s) as [a s1|e s1] eqn:E
        end.
        -- pose proof (Hst fd s a s1 E) as H200.
           do 2 eexists. split; [reflexivity|]. split; [|exact I].
           rewrite H200. split; discriminate.
        -- rewrite Response_json_500. do 2 eexists. split; [reflexivity|].
           split; [|exact I]. cbn. split; discriminate.
      * do 2 eexists. split; [reflexivity|]. repeat split.
Qed.

(** X5.  The plain transcription relay (app/routes/transcribe.ts): it
    forwards the form it received, unchanged, in at most one upstream call,
    and never touches the model client.  A form that cannot be parsed or has
    no file costs no upstream call; an answer of the service with a 2xx
    status and a JSON body is relayed with status 200; every other outcome is
    the fixed 500 answer. *)
Theorem transcribe_route_relays_the_service
    (env : DeepSeek.Env) (request : Http.Request) (s : DeepSeek.Server) :
  let failed :=
    {| Http.status := 500;
       Http.body := Http.obj_error "Failed to transcribe audio" |} in
  exists resp s',
    TranscribeRoute.action env request s = Js.Done resp s' /\
    DeepSeek.together s' = DeepSeek.together s /\
    match Http.formData request with
    | inl _ => s' = s /\ resp = failed
    | inr fd =>
        match Http.FormData_get "file" fd with
        | Some (Http.FFile _ _) =>
            DeepSeek.calls s'
              = (DeepSeek.calls s ++ [DeepSeek.TranscribeCall fd])%list /\
            match DeepSeek.transcribe_service env fd with
            | Http.HttpResponse st (Js.Resolved v) =>
                if Http.ok st
                then resp = {| Http.status := 200; Http.body := Js.jsonify v |}
                else resp = failed
            | _ => resp = failed
            end
        | _ => s' = s /\ Http.status resp = 400%Z
        end
    end.
Proof.
  cbv zeta.
  unfold TranscribeRoute.action, TranscribeRoute.attempt, Js.try_catch,
    Js.bind, request_formData, DeepSeek.fetch_ok, Js.bind.
  destruct (Http.formData request) as [e|fd]; cbn [Js.throw Js.ret].
  { do 2 eexists. repeat split; reflexivity. }
  rewrite no_audio_file_iff.
  destruct (Http.FormData_get "file" fd) as [[str|b f]|].
  1,3: do 2 eexists; repeat split; reflexivity.
  cbn [DeepSeek.issue Js.modify].
  destruct (DeepSeek.transcribe_service env fd) as [e|st [v|e]];
    cbn [Js.throw].
  - do 2 eexists. repeat split; reflexivity.
  - destruct (Http.ok st); cbn [negb Js.throw Js.ret Js.await];
      do 2 eexists; repeat split; reflexivity.
  - destruct (Http.ok st); cbn [negb Js.throw Js.ret Js.await];
      do 2 eexists; repeat split; reflexivity.
Qed.

(** How [queryDeepSeek] leaves the server and what its error value looks
    like. *)
Lemma queryDeepSeek_result
    (env : DeepSeek.Env) (messages : list DeepSeek.DeepSeekMessage)
    (s : DeepSeek.Server) :
  exists r s',
    DeepSeek.queryDeepSeek env messages s = Js.Done r s' /\
    (DeepSeek.calls s' = DeepSeek.calls s \/
     DeepSeek.calls s'
       = (DeepSeek.calls s ++ [DeepSeek.CompletionCall messages])%list) /\
    match r with
    | inl ok => DeepSeek.done ok = true /\ DeepSeek.totalDuration ok = None
    | inr err => DeepSeek.code err = Some 500%Z
    end.
Proof.
  unfold DeepSeek.queryDeepSeek, DeepSeek.request_completion, Js.try_catch,
    Js.bind, DeepSeek.getTogetherClient.
  destruct (DeepSeek.together s);
    [|destruct (DeepSeek.new_Together env) as [e|]].
  2:{ do 2 eexists. split; [reflexivity|]. split; [now left|reflexivity]. }
  all: cbn [DeepSeek.issue Js.modify];
    destruct (DeepSeek.completions_create env messages) as [response|e];
    cbn [Js.await Js.ret Js.throw];
    [ match goal with
      | |- context [DeepSeek.first_choice_message response ?st] =>
          destruct (first_choice_message_store response st) as [[m ->]|[e ->]]
      end | ];
    do 2 eexists; (split; [reflexivity|]);
    (split; [now right|]); try split; reflexivity.
Qed.

(** X6.  The chained transcription relay answers 200 even when the model
    call fails: the failure travels inside the payload, as the error value
    of [queryDeepSeek] under [response], next to the transcription. *)
Theorem chained_route_answers_200_when_the_model_fails
    (env : DeepSeek.Env) (request : Http.Request) (fd : Http.FormData)
    (b : Http.Blob) (f : string) (st : Z) (v : Js.value)
    (e : Js.exn) (s s1 : DeepSeek.Server) :
  Http.formData request = inr fd ->
  Http.FormData_get "file" fd = Some (Http.FFile b f) ->
  DeepSeek.transcribe_service env fd = Http.HttpResponse st (Js.Resolved v) ->
  Http.ok st = true ->
  Obs.nullish v = false ->
  DeepSeek.request_completion env
    [ {| DeepSeek.role := DeepSeek.role_user;
         DeepSeek.content := Js.get_opt v "text" |} ]
    {| DeepSeek.together := DeepSeek.together s;
       DeepSeek.calls := (DeepSeek.calls s ++ [DeepSeek.TranscribeCall fd])%list |}
  = Js.Thrown e s1 ->
  ChainedTranscribeRoute.action env request s
  = Js.Done
      {| Http.status := 200;
         Http.body :=
           Js.jsonify
             (Js.VObj
                [("transcription", v);
                 ("response",
                  Js.VObj [("error",
                            Js.VStr (Js.message_or "Unknown error occurred" e));
                           ("code", Js.VNum 500)])]) |}
      s1.
Proof.
  intros Hfd Hfile Hsvc Hok Hv Hq.
  unfold ChainedTranscribeRoute.action, ChainedTranscribeRoute.attempt,
    Js.try_catch, Js.bind, request_formData, DeepSeek.fetch_ok, Js.bind.
  rewrite Hfd. cbn [Js.ret]. rewrite no_audio_file_iff, Hfile, Hsvc.
  cbn [DeepSeek.issue Js.modify]. rewrite Hok. cbn [negb Js.ret Js.await].
  rewrite (get_not_nullish v "text" _ Hv).
  unfold DeepSeek.queryDeepSeek, Js.try_catch, Js.bind. rewrite Hq.
  reflexivity.
Qed.

Lemma chained_route_answers_200_when_the_model_fails_witness :
  let env := Obs.upstream (Obs.answers 200 Obs.hello_transcribed) Obs.unused
               (Js.Rejected (Js.ErrorObject "Error" "429 Too Many Requests")) in
  exists s1,
    ChainedTranscribeRoute.action env Obs.audio_request Obs.fresh
    = Js.Done
        {| Http.status := 200;
           Http.body :=
             Js.VObj
               [("transcription", Obs.hello_transcribed);
                ("response",
                 Js.VObj [("error", Js.VStr "429 Too Many Requests");
                          ("code", Js.VNum 500)])] |}
        s1.
Proof.
  cbv zeta. eexists.
  exact (chained_route_answers_200_when_the_model_fails
           (Obs.upstream (Obs.answers 200 Obs.hello_transcribed) Obs.unused
              (Js.Rejected (Js.ErrorObject "Error" "429 Too Many Requests")))
           Obs.audio_request Obs.recording_form _ _ 200 Obs.hello_transcribed
           (Js.ErrorObject "Error" "429 Too Many Requests") Obs.fresh _
           eq_refl eq_refl eq_refl eq_refl eq_refl eq_refl).
Defined.

(** X7.  The chained transcription relay calls upstream in one order only:
    nothing, or the transcription service with the form it received, or
    that and then the model with one [user] message.  Once the model has been
    asked the answer is 200; an answer of 400 or 500 means the model was
    never asked, and a refused request (400) costs no call at all. *)
Theorem chained_route_calls_in_order
    (env : DeepSeek.Env) (request : Http.Request) (s : DeepSeek.Server) :
  exists resp s' made,
    ChainedTranscribeRoute.action env request s = Js.Done resp s' /\
    DeepSeek.calls s' = (DeepSeek.calls s ++ made)%list /\
    match made with
    | [] => Http.status resp = 400%Z \/ Http.status resp = 500%Z
    | [DeepSeek.TranscribeCall fd] =>
        Http.formData request = inr fd /\
        (Http.status resp = 500%Z \/ Http.status resp = 200%Z)
    | [DeepSeek.TranscribeCall fd; DeepSeek.CompletionCall messages] =>
        Http.formData request = inr fd /\
        Http.status resp = 200%Z /\
        exists text,
          messages = [ {| DeepSeek.role := DeepSeek.role_user;
                          DeepSeek.content := text |} ]
    | _ => False
    end.
Proof.
  unfold ChainedTranscribeRoute.action, ChainedTranscribeRoute.attempt,
    Js.try_catch, Js.bind at 1 2, request_formData.
  destruct (Http.formData request) as [e|fd] eqn:Hfd; cbn [Js.throw Js.ret].
  { exists {| Http.status := 500;
              Http.body := Http.obj_error "Failed to process request" |}, s, [].
    rewrite app_nil_r. repeat split. now right. }
  rewrite no_audio_file_iff.
  destruct (Http.FormData_get "file" fd) as [[str|b f]|].
  1,3: eexists _, s, []; rewrite app_nil_r;
       (split; [reflexivity|]); (split; [reflexivity|]); now left.
  unfold DeepSeek.fetch_ok, Js.bind. cbn [DeepSeek.issue Js.modify].
  assert (Hfail : forall s1 : DeepSeek.Server,
             DeepSeek.calls s1
               = (DeepSeek.calls s ++ [DeepSeek.TranscribeCall fd])%list ->
             exists resp s' made,
               Js.Done {| Http.status := 500;
                          Http.body := Http.obj_error "Failed to process request" |}
                 s1 = Js.Done resp s' /\
               DeepSeek.calls s' = (DeepSeek.calls s ++ made)%list /\
               match made with
               | [] => Http.status resp = 400%Z \/ Http.status resp = 500%Z
               | [DeepSeek.TranscribeCall fd0] =>
                   @inr Js.exn Http.FormData fd = inr fd0 /\
                   (Http.status resp = 500%Z \/ Http.status resp = 200%Z)
               | [DeepSeek.TranscribeCall fd0; DeepSeek.CompletionCall messages] =>
                   @inr Js.exn Http.FormData fd = inr fd0 /\
                   Http.status resp = 200%Z /\
                   exists text,
                     messages = [ {| DeepSeek.role := DeepSeek.role_user;
                                     DeepSeek.content := text |} ]
               | _ => False
               end).
  { intros s1 H1. eexists _, s1, [DeepSeek.TranscribeCall fd].
    split; [reflexivity|]. split; [exact H1|]. split; [reflexivity|now left]. }
  destruct (DeepSeek.transcribe_service env fd) as [e|st [v|e]];
    cbn [Js.throw]; try (apply Hfail; reflexivity).
  2:{ destruct (Http.ok st); cbn [negb Js.throw Js.ret Js.await];
        apply Hfail; reflexivity. }
  destruct (Http.ok st); cbn [negb Js.throw Js.ret Js.await];
    [|apply Hfail; reflexivity].
  unfold Js.bind.
  destruct (Obs.nullish v) eqn:Hv.
  { destruct v; try discriminate Hv; cbn [Js.get Js.throw];
      apply Hfail; reflexivity. }
  rewrite (get_not_nullish v "text" _ Hv).
  match goal with
  | |- context [DeepSeek.queryDeepSeek env ?ms ?s1] =>
      destruct (queryDeepSeek_result env ms s1) as (r & s2 & -> & Hcalls & _)
  end.
  cbn [DeepSeek.calls] in Hcalls.
  destruct Hcalls as [Hsame|Hmore].
  - eexists _, s2, [DeepSeek.TranscribeCall fd].
    split; [reflexivity|]. split; [exact Hsame|].
    split; [reflexivity|now right].
  - eexists _, s2, [DeepSeek.TranscribeCall fd; DeepSeek.CompletionCall _].
    split; [reflexivity|]. split.
    { rewrite Hmore, <- app_assoc. reflexivity. }
    split; [reflexivity|]. split; [reflexivity|]. eexists. reflexivity.
Qed.

(** X8.  The text-message relay, case by case.  A body that is not JSON, or
    is [null], is answered 500 without any call; a body whose [message] is
    missing or falsy is answered 400 [{ error: Message is required }] without
    any call; otherwise [queryDeepSeek] is called once with that message as
    the only [user] message, and its success value is relayed with status 200
    while its error value becomes status 500 with the [error] text. *)
Theorem textmessage_route_cases
    (env : DeepSeek.Env) (request : Http.Request) (s : DeepSeek.Server) :
  exists resp s',
    TextMessageRoute.action env request s = Js.Done resp s' /\
    match Http.json request with
    | Js.Rejected e =>
        s' = s /\
        resp = {| Http.status := 500;
                  Http.body := Http.obj_error (Js.message_or "Unknown error" e) |}
    | Js.Resolved parsed =>
        if Obs.nullish parsed then s' = s /\ Http.status resp = 500%Z
        else if Js.truthy (Js.get_opt parsed "message") then
          exists r,
            DeepSeek.queryDeepSeek env
              [ {| DeepSeek.role := DeepSeek.role_user;
                   DeepSeek.content := Js.get_opt parsed "message" |} ] s
            = Js.Done r s' /\
            match r with
            | inl ok =>
                resp = {| Http.status := 200;
                          Http.body := Js.jsonify (DeepSeek.to_value r) |}
            | inr err =>
                resp = {| Http.status := 500;
                          Http.body := Http.obj_error (DeepSeek.error err) |}
            end
        else
          s' = s /\
          resp = {| Http.status := 400;
                    Http.body := Http.obj_error "Message is required" |}
    end.
Proof.
  unfold TextMessageRoute.action, TextMessageRoute.attempt, Js.try_catch,
    Js.bind.
  destruct (Http.json request) as [parsed|e]; cbn [Js.await Js.ret Js.throw].
  2:{ do 2 eexists. repeat split; reflexivity. }
  destruct (Obs.nullish parsed) eqn:Hn.
  { destruct parsed; try discriminate Hn; cbn [Js.destructure Js.throw];
      do 2 eexists; repeat split; reflexivity. }
  assert (Hd : forall st : DeepSeek.Server,
             Js.destructure parsed "message" st
             = Js.Done (Js.get_opt parsed "message") st).
  { intro st. destruct parsed; try discriminate Hn; reflexivity. }
  rewrite Hd.
  destruct (Js.truthy (Js.get_opt parsed "message")); cbn [negb].
  2:{ do 2 eexists. repeat split; reflexivity. }
  match goal with
  | |- context [DeepSeek.queryDeepSeek env ?ms s] =>
      destruct (queryDeepSeek_result env ms s) as (r & s2 & -> & _ & Hr)
  end.
  destruct r as [ok|err].
  - do 2 eexists. split; [reflexivity|]. exists (inl ok). split; reflexivity.
  - rewrite Hr. do 2 eexists. split; [reflexivity|].
    exists (inr err). split; reflexivity.
Qed.

(** X9.  The process-text relay forwards one field only: whatever else the
    body carries, the service receives [{ text: body.text }] (and [{}] when
    there is no [text]), in exactly one call.  A body that is not JSON, or is
    [null], costs no call.  A 2xx answer with a JSON body is relayed with
    status 200, everything else is the fixed 500 answer. *)
Theorem process_text_route_forwards_text_only
    (env : DeepSeek.Env) (request : Http.Request) (s : DeepSeek.Server) :
  let failed :=
    {| Http.status := 500;
       Http.body := Http.obj_error "Failed to process text" |} in
  exists resp s',
    ProcessTextRoute.action env request s = Js.Done resp s' /\
    DeepSeek.together s' = DeepSeek.together s /\
    match Http.json request with
    | Js.Rejected _ => s' = s /\ resp = failed
    | Js.Resolved body =>
        if Obs.nullish body then s' = s /\ resp = failed
        else
          let payload := Js.jsonify (Js.VObj [("text", Js.get_opt body "text")]) in
          DeepSeek.calls s'
            = (DeepSeek.calls s ++ [DeepSeek.ProcessTextCall payload])%list /\
          match DeepSeek.process_text_service env payload with
          | Http.HttpResponse st (Js.Resolved v) =>
              if Http.ok st
              then resp = {| Http.status := 200; Http.body := Js.jsonify v |}
              else resp = failed
          | _ => resp = failed
          end
    end.
Proof.
  cbv zeta.
  unfold ProcessTextRoute.action, ProcessTextRoute.attempt, Js.try_catch,
    Js.bind, DeepSeek.fetch_ok, Js.bind.
  destruct (Http.json request) as [body|e]; cbn [Js.await Js.ret Js.throw].
  2:{ do 2 eexists. repeat split; reflexivity. }
  destruct (Obs.nullish body) eqn:Hn.
  { destruct body; try discriminate Hn; cbn [Js.get Js.throw];
      do 2 eexists; repeat split; reflexivity. }
  rewrite (get_not_nullish body "text" _ Hn).
  cbn [DeepSeek.issue Js.modify].
  destruct (DeepSeek.process_text_service env
              (Js.jsonify (Js.VObj [("text", Js.get_opt body "text")])))
    as [e|st [v|e]]; cbn [Js.throw].
  - do 2 eexists. repeat split; reflexivity.
  - destruct (Http.ok st); cbn [negb Js.throw Js.ret Js.await];
      do 2 eexists; repeat split; reflexivity.
  - destruct (Http.ok st); cbn [negb Js.throw Js.ret Js.await];
      do 2 eexists; repeat split; reflexivity.
Qed.

(* ===================================================================== *)
(** ** Further properties of the component *)
(* ===================================================================== *)

Lemma deliver_appends (chunks : list Http.Blob) (w : Component.World) :
  Scenario.deliver chunks w
  = Js.Done tt
      (Component.with_chunksRef
         (fun _ => (Component.chunksRef w ++ chunks)%list) w).
Proof.
  revert w. induction chunks as [|chunk rest IH]; intro w.
  - cbn [Scenario.deliver Js.ret]. rewrite app_nil_r. now destruct w.
  - cbn [Scenario.deliver]. unfold Js.bind, Component.ondataavailable, Js.modify.
    rewrite IH. unfold Component.with_chunksRef. cbn.
    rewrite <- app_assoc. reflexivity.
Qed.

(** X10.  From press to upload.  Pressing the voice button while nothing is
    being recorded, receiving any number of chunks, pressing again and
    letting the stop callback run sends exactly one request: a form whose
    [file] is one [audio/webm] blob holding the bytes of the chunks of this
    recording in their order of arrival, and nothing of what an earlier
    recording left in the buffer.  Afterwards recording is off, the tracks
    are stopped, the transcription fetcher is submitting, and no turn has
    been appended.  This holds for every revision that records, whatever its
    [addMessage] and its route. *)
Theorem recording_uploads_its_chunks_in_order
    (addMessage : Component.PartialMessage -> Js.M Component.World unit)
    (route : string) (stream : list bool) (chunks : list Http.Blob)
    (again : Component.Capture) (w : Component.World) :
  Component.isRecording w = false ->
  exists w',
    (Component.handleVoiceClick addMessage (Component.Captures stream) ;;;
     Scenario.deliver chunks ;;;
     Component.handleVoiceClick addMessage again ;;;
     Component.onstop route) w = Js.Done tt w' /\
    Component.requests w'
      = (Component.requests w
           ++ [Component.SubmitTranscribe route
                 [("file",
                   Http.FFile
                     {| Http.bytes := concat (map Http.bytes chunks);
                        Http.mime := "audio/webm" |}
                     "audio.webm")]])%list /\
    Component.isRecording w' = false /\
    Component.mediaRecorderRef w'
      = Some {| Component.state := Component.inactive;
                Component.tracks := map (fun _ => false) stream |} /\
    Component.fetcher_state (Component.transcribeFetcher w')
      = Component.submitting /\
    Component.messages w' = Component.messages w.
Proof.
  intro Hrec.
  unfold Js.bind at 1.
  unfold Component.handleVoiceClick at 1, Js.bind at 1, Js.gets at 1.
  rewrite Hrec.
  cbv [Component.startRecording Js.try_catch Js.bind Js.modify Js.ret
       Component.getUserMedia Component.new_MediaRecorder
       Component.MediaRecorder_start].
  cbn [Component.mediaRecorderRef Component.with_chunksRef
       Component.with_mediaRecorderRef option_map Component.tracks].
  rewrite deliver_appends.
  cbv [Component.handleVoiceClick Component.stopRecording Js.gets Js.bind
       Js.modify Js.ret Component.MediaRecorder_stop Component.stop_tracks
       Component.onstop Component.transcribeFetcher_submit Component.send
       Component.new_Blob].
  cbn.
  eexists. split; [reflexivity|]. repeat split.
Qed.

Lemma recording_uploads_its_chunks_in_order_witness :
  exists w',
    (Chained.handleVoiceClick (Obs.steady 1700000000000 "k3j9x2m1q")
       (Component.Captures [true]) ;;;
     Scenario.deliver [Obs.chunk; Obs.chunk] ;;;
     Chained.handleVoiceClick (Obs.steady 1700000000000 "k3j9x2m1q")
       (Component.Captures [true]) ;;;
     Chained.onstop)
      (Component.with_chunksRef (fun _ => [Obs.chunk]) Component.initial)
    = Js.Done tt w' /\
    Component.requests w'
      = [Component.SubmitTranscribe "/api/transcribe"
           [("file",
             Http.FFile
               {| Http.bytes := [26; 69; 223; 163; 26; 69; 223; 163]%N;
                  Http.mime := "audio/webm" |}
               "audio.webm")]].
Proof.
  destruct (recording_uploads_its_chunks_in_order
              (Chained.addMessage (Obs.steady 1700000000000 "k3j9x2m1q"))
              "/api/transcribe" [true] [Obs.chunk; Obs.chunk]
              (Component.Captures [true])
              (Component.with_chunksRef (fun _ => [Obs.chunk]) Component.initial)
              eq_refl)
    as (w' & E & R & _).
  exists w'. split; [exact E|exact R].
Defined.

(** What the effect of the chained revision does, by what the fetcher
    shows. *)
Lemma chained_effect_table
    (browser : Component.Browser) (f : Component.Fetcher)
    (w : Component.World) :
  let d := Component.data f in
  let transcription := Js.get_opt d "transcription" in
  let reply := Js.get_opt d "response" in
  let run := Chained.transcribeFetcher_becomes browser f w in
  let w0 := Component.with_transcribeFetcher f w in
  let w1 := Scenario.after_turn browser
              (Component.voice_turn (Js.get_opt transcription "text")
                 Component.user) w0 in
  if Component.busy f || negb (Js.truthy d) then run = Js.Done tt w0
  else if Obs.nullish transcription then
    run = Js.Thrown (Js.cannot_read (Js.to_string transcription) "error") w0
  else if Js.truthy (Js.get_opt transcription "error") then
    run = Js.Done tt
            (Scenario.after_turn browser
               (Component.turn
                  (Js.VStr "Sorry, there was an error processing your voice message.")
                  Component.assistant) w0)
  else if negb (Js.truthy reply) then
    run = Js.Done tt
            (Scenario.after_turn browser
               (Component.turn Scenario.no_response Component.assistant) w1)
  else if Obs.nullish (Js.get_opt reply "message") then
    run = Js.Thrown
            (Js.cannot_read (Js.to_string (Js.get_opt reply "message")) "content")
            w1
  else
    run = Js.Done tt
            (Scenario.after_turn browser
               (Component.turn
                  (Js.get_opt (Js.get_opt reply "message") "content")
                  Component.assistant) w1).
Proof.
  cbv zeta. destruct f as [st d].
  unfold Chained.transcribeFetcher_becomes, Chained.onTranscribeFetcher,
    Js.bind, Js.modify, Chained.addMessage.
  cbn [Component.transcribeFetcher Component.with_transcribeFetcher
       Component.data Component.fetcher_state Component.busy].
  destruct st; cbn [orb]; try reflexivity.
  destruct (Js.truthy d) eqn:Hd; cbn [negb]; [|reflexivity].
  pose proof (truthy_not_nullish _ Hd) as Hn.
  rewrite (get_not_nullish _ "transcription" _ Hn).
  destruct (Obs.nullish (Js.get_opt d "transcription")) eqn:Ht.
  { destruct (Js.get_opt d "transcription");
      try discriminate Ht; reflexivity. }
  rewrite (get_not_nullish _ "error" _ Ht).
  destruct (Js.truthy
              (Js.get_opt (Js.get_opt d "transcription") "error"));
    cbn [negb]; [reflexivity|].
  rewrite (get_not_nullish _ "text" _ Ht), addMessage_stamped_spec.
  rewrite (get_not_nullish _ "response" _ Hn).
  destruct (Js.truthy (Js.get_opt d "response")) eqn:Hr;
    cbn [negb]; [|reflexivity].
  rewrite (get_not_nullish _ "message" _ (truthy_not_nullish _ Hr)).
  destruct (Obs.nullish
              (Js.get_opt (Js.get_opt d "response") "message"))
    eqn:Hm.
  { destruct (Js.get_opt (Js.get_opt d "response") "message");
      try discriminate Hm; reflexivity. }
  rewrite (get_not_nullish _ "content" _ Hm). reflexivity.
Qed.

(** X11.  The effect of the chained revision on the transcription fetcher,
    case by case.  It does nothing unless the fetcher is idle with a truthy
    payload.  A payload without [transcription] makes it throw before any
    turn is appended.  A transcription with an [error] gets the one fixed
    error turn.  Otherwise the voice turn is appended first, and then: the
    fixed apology when [response] is absent; the reply when
    [response.message] is there; and when [response] is present without a
    [message] (the error value of [queryDeepSeek] is such a payload) the
    effect throws, leaving the voice turn without an answer. *)
Theorem chained_effect_cases
    (browser : Component.Browser) (f : Component.Fetcher)
    (w : Component.World) :
  let d := Component.data f in
  let transcription := Js.get_opt d "transcription" in
  let reply := Js.get_opt d "response" in
  let run := Chained.transcribeFetcher_becomes browser f w in
  let w0 := Component.with_transcribeFetcher f w in
  let w1 := Scenario.after_turn browser
              (Component.voice_turn (Js.get_opt transcription "text")
                 Component.user) w0 in
  if Component.busy f || negb (Js.truthy d) then run = Js.Done tt w0
  else if Obs.nullish transcription then
    run = Js.Thrown (Js.cannot_read (Js.to_string transcription) "error") w0
  else if Js.truthy (Js.get_opt transcription "error") then
    run = Js.Done tt
            (Scenario.after_turn browser
               (Component.turn
                  (Js.VStr "Sorry, there was an error processing your voice message.")
                  Component.assistant) w0)
  else if negb (Js.truthy reply) then
    run = Js.Done tt
            (Scenario.after_turn browser
               (Component.turn Scenario.no_response Component.assistant) w1)
  else if Obs.nullish (Js.get_opt reply "message") then
    run = Js.Thrown
            (Js.cannot_read (Js.to_string (Js.get_opt reply "message")) "content")
            w1
  else
    run = Js.Done tt
            (Scenario.after_turn browser
               (Component.turn
                  (Js.get_opt (Js.get_opt reply "message") "content")
                  Component.assistant) w1).
Proof. exact (chained_effect_table browser f w). Qed.

(** X12.  The effect of the chained revision acts once per submission:
    whatever the fetcher shows while it is submitting and loading, with the
    payload of the previous submission or with the new one, the three runs of
    the effect leave the hooks exactly as the single run on the idle fetcher
    does. *)
Theorem chained_effect_acts_once_per_submission
    (browser : Component.Browser) (previous d : Js.value)
    (w : Component.World) :
  (Chained.transcribeFetcher_becomes browser
     (Scenario.showing Component.submitting previous) ;;;
   Chained.transcribeFetcher_becomes browser
     (Scenario.showing Component.loading d) ;;;
   Chained.transcribeFetcher_becomes browser
     (Scenario.showing Component.idle d)) w
  = Chained.transcribeFetcher_becomes browser
      (Scenario.showing Component.idle d) w.
Proof.
  unfold Js.bind at 1 2.
  unfold Chained.transcribeFetcher_becomes at 1 2, Js.bind at 1 2, Js.modify.
  unfold Chained.onTranscribeFetcher at 1 2.
  cbn [Component.transcribeFetcher Component.with_transcribeFetcher
       Component.fetcher_state Scenario.showing].
  unfold Chained.transcribeFetcher_becomes, Js.bind, Js.modify.
  reflexivity.
Qed.

(** X13.  In the two-fetcher revision the test for a finished request
    guards the success branch of the two effects only.  A payload with an
    [error] gets its [Error: ...] turn on every run of the effect, whatever
    the state of the fetcher; a payload without error changes nothing but the
    fetcher while the fetcher is not idle. *)
Theorem fetchers_effects_and_the_fetcher_state
    (browser : Component.Browser) (st : Component.FetcherState)
    (d : Js.value) (w : Component.World) :
  let f := Scenario.showing st d in
  let complaint :=
    Component.turn (Js.VStr ("Error: " ++ Js.to_string (Js.get_opt d "error")))
      Component.assistant in
  if Js.truthy (Js.get_opt d "error") then
    Fetchers.transcribeFetcher_becomes browser f w
      = Js.Done tt
          (Scenario.after_turn browser complaint
             (Component.with_transcribeFetcher f w)) /\
    Fetchers.textFetcher_becomes browser f w
      = Js.Done tt
          (Scenario.after_turn browser complaint
             (Component.with_textFetcher f w))
  else
    match st with
    | Component.idle => True
    | _ =>
        Fetchers.transcribeFetcher_becomes browser f w
          = Js.Done tt (Component.with_transcribeFetcher f w) /\
        Fetchers.textFetcher_becomes browser f w
          = Js.Done tt (Component.with_textFetcher f w)
    end.
Proof.
  cbv zeta.
  unfold Fetchers.transcribeFetcher_becomes, Fetchers.textFetcher_becomes,
    Fetchers.onTranscribeFetcher, Fetchers.onTextFetcher, Fetchers.is_idle,
    Js.bind, Js.modify.
  cbn [Component.transcribeFetcher Component.with_transcribeFetcher
       Component.textFetcher Component.with_textFetcher
       Component.data Scenario.showing].
  destruct (Js.truthy (Js.get_opt d "error")) eqn:He.
  - cbn [negb]. rewrite !andb_false_r. split; reflexivity.
  - destruct st; [exact I| |]; unfold Component.busy;
      cbn [negb Component.fetcher_state]; rewrite !andb_false_r;
      split; reflexivity.
Qed.

(** What the continuation of the chained [handleTextSubmit] appends, by what
    the [fetch] settled to. *)
Lemma chained_resume_table
    (browser : Component.Browser) (r : Http.fetched) (w : Component.World) :
  let shown :=
    match r with
    | Http.NetworkError _ => Scenario.not_processed
    | Http.HttpResponse _ (Js.Rejected _) => Scenario.not_processed
    | Http.HttpResponse _ (Js.Resolved d) =>
        if Obs.nullish d then Scenario.not_processed
        else if Js.truthy (Js.get_opt d "error") then Scenario.no_response
        else if Obs.nullish (Js.get_opt d "message") then Scenario.not_processed
        else Js.get_opt (Js.get_opt d "message") "content"
    end in
  Chained.handleTextSubmit_resume browser r w
  = Js.Done tt
      (Component.with_textInput EmptyString
         (Scenario.after_turn browser
            (Component.turn shown Component.assistant)
            (Component.with_pendingFetches pred w))).
Proof.
  cbv zeta.
  unfold Chained.handleTextSubmit_resume, Js.try_catch, Js.bind, Js.modify,
    Js.await, Chained.addMessage.
  destruct r as [e|st [d|e]]; cbn [Js.throw Js.ret]; try reflexivity.
  destruct (Obs.nullish d) eqn:Hn.
  { destruct d; try discriminate Hn; reflexivity. }
  rewrite (get_not_nullish d "error" _ Hn).
  destruct (Js.truthy (Js.get_opt d "error")); cbn [negb]; [reflexivity|].
  rewrite (get_not_nullish d "message" _ Hn).
  destruct (Obs.nullish (Js.get_opt d "message")) eqn:Hm.
  { destruct (Js.get_opt d "message"); try discriminate Hm; reflexivity. }
  rewrite (get_not_nullish _ "content" _ Hm). reflexivity.
Qed.

(** X14.  What the chained revision shows for a text submission, by what
    the [fetch] settled to.  The HTTP status is never looked at.  A body with
    a truthy [error] gets the apology for a missing response; a rejected
    [fetch], a body that is not JSON, a [null] body and a body without
    [message] all end in the [catch] and get the other apology; only a body
    with a [message] shows [message.content].  In every case exactly that one
    assistant turn is appended, the pending count goes down by one and the
    text field is cleared. *)
Theorem chained_reply_cases
    (browser : Component.Browser) (r : Http.fetched) (w : Component.World) :
  let shown :=
    match r with
    | Http.NetworkError _ => Scenario.not_processed
    | Http.HttpResponse _ (Js.Rejected _) => Scenario.not_processed
    | Http.HttpResponse _ (Js.Resolved d) =>
        if Obs.nullish d then Scenario.not_processed
        else if Js.truthy (Js.get_opt d "error") then Scenario.no_response
        else if Obs.nullish (Js.get_opt d "message") then Scenario.not_processed
        else Js.get_opt (Js.get_opt d "message") "content"
    end in
  Chained.handleTextSubmit_resume browser r w
  = Js.Done tt
      (Component.with_textInput EmptyString
         (Scenario.after_turn browser
            (Component.turn shown Component.assistant)
            (Component.with_pendingFetches pred w))).
Proof. exact (chained_resume_table browser r w). Qed.

(** The answers of the text-message relay have one of two shapes. *)
Lemma textmessage_route_shapes
    (env : DeepSeek.Env) (request : Http.Request) (s : DeepSeek.Server) :
  exists resp s',
    TextMessageRoute.action env request s = Js.Done resp s' /\
    ((Http.status resp = 200%Z /\
      exists m, Http.body resp
                = Js.jsonify (Js.VObj [("message", m); ("done", Js.VBool true)])) \/
     (Http.status resp <> 200%Z /\
      exists msg, Http.body resp = Http.obj_error msg)).
Proof.
  unfold TextMessageRoute.action, TextMessageRoute.attempt, Js.try_catch,
    Js.bind.
  destruct (Http.json request) as [parsed|e]; cbn [Js.await Js.ret Js.throw].
  2:{ do 2 eexists. split; [reflexivity|]. right.
      split; [discriminate|]. eexists; reflexivity. }
  destruct (Obs.nullish parsed) eqn:Hn.
  { destruct parsed; try discriminate Hn; cbn [Js.destructure Js.throw];
      do 2 eexists; (split; [reflexivity|]); right;
      (split; [discriminate|]); eexists; reflexivity. }
  assert (Hd : forall st : DeepSeek.Server,
             Js.destructure parsed "message" st
             = Js.Done (Js.get_opt parsed "message") st).
  { intro st. destruct parsed; try discriminate Hn; reflexivity. }
  rewrite Hd.
  destruct (Js.truthy (Js.get_opt parsed "message")); cbn [negb].
  2:{ do 2 eexists. split; [reflexivity|]. right.
      split; [discriminate|]. eexists; reflexivity. }
  match goal with
  | |- context [DeepSeek.queryDeepSeek env ?ms s] =>
      destruct (queryDeepSeek_result env ms s) as (r & s2 & -> & _ & Hr)
  end.
  destruct r as [[m dn td]|err].
  - cbn [DeepSeek.done DeepSeek.totalDuration] in Hr. destruct Hr as [-> ->].
    do 2 eexists. split; [reflexivity|]. left. split; [reflexivity|].
    exists m. reflexivity.
  - rewrite Hr. do 2 eexists. split; [reflexivity|]. right.
    split; [discriminate|]. eexists; reflexivity.
Qed.

(** X15.  From the text-message relay to the conversation.  Whatever the
    request and the model do, when the answer of the relay reaches the
    continuation of the chained [handleTextSubmit], exactly one assistant
    turn is appended; on an answer other than 200 it is one of the two fixed
    apologies, so the error text the relay puts in its body never appears in
    the conversation; on a 200 it is [message.content] of the body, or the
    apology when the body has no [message]. *)
Theorem chained_text_reply_end_to_end
    (env : DeepSeek.Env) (request : Http.Request) (s : DeepSeek.Server)
    (browser : Component.Browser) (w : Component.World) :
  exists resp s' shown,
    TextMessageRoute.action env request s = Js.Done resp s' /\
    Chained.handleTextSubmit_resume browser
      (Http.HttpResponse (Http.status resp) (Js.Resolved (Http.body resp))) w
    = Js.Done tt
        (Component.with_textInput EmptyString
           (Scenario.after_turn browser
              (Component.turn shown Component.assistant)
              (Component.with_pendingFetches pred w))) /\
    if (Http.status resp =? 200)%Z
    then shown = Scenario.not_processed \/
         shown = Js.get_opt (Js.get_opt (Http.body resp) "message") "content"
    else shown = Scenario.no_response \/ shown = Scenario.not_processed.
Proof.
  destruct (textmessage_route_shapes env request s)
    as (resp & s' & E & [[Hst (m & Hb)]|[Hst (msg & Hb)]]).
  - exists resp, s'. eexists. split; [exact E|].
    pose proof (chained_resume_table browser
                  (Http.HttpResponse (Http.status resp)
                     (Js.Resolved (Http.body resp))) w) as H.
    cbv zeta in H. split; [exact H|].
    rewrite Hst. cbn [Z.eqb Pos.eqb].
    rewrite Hb.
    destruct m; cbn [Js.jsonify Obs.nullish Js.get_opt Js.lookup String.eqb
                      Ascii.eqb Bool.eqb Js.truthy]; auto.
  - exists resp, s'. eexists. split; [exact E|].
    pose proof (chained_resume_table browser
                  (Http.HttpResponse (Http.status resp)
                     (Js.Resolved (Http.body resp))) w) as H.
    cbv zeta in H. split; [exact H|].
    destruct (Http.status resp =? 200)%Z eqn:Hz;
      [apply Z.eqb_eq in Hz; contradiction|].
    rewrite Hb. unfold Http.obj_error.
    cbn [Obs.nullish Js.get_opt Js.lookup String.eqb Ascii.eqb Bool.eqb].
    destruct (Js.truthy (Js.VStr msg)); auto.
Qed.

(* ===================================================================== *)
(** ** The counter revision under every sequence of events *)
(* ===================================================================== *)

From Stdlib Require DecimalNat DecimalFacts.

Lemma to_uint_not_nil (n : nat) : Nat.to_uint n <> Decimal.Nil.
Proof.
  rewrite <- (DecimalNat.Unsigned.of_to n) at 1.
  rewrite DecimalNat.Unsigned.to_of. apply DecimalFacts.unorm_nonnil.
Qed.

(** Decimal printing tells numbers apart. *)
Lemma string_of_nat_inj (a b : nat) :
  Js.string_of_nat a = Js.string_of_nat b -> a = b.
Proof.
  unfold Js.string_of_nat. intro H.
  apply DecimalNat.Unsigned.to_uint_inj.
  pose proof (NilZero.usu _ (to_uint_not_nil a)) as Ha.
  pose proof (NilZero.usu _ (to_uint_not_nil b)) as Hb.
  rewrite H in Ha. congruence.
Qed.

Lemma id_at_inj (a b : nat) :
  CounterEvents.id_at a = CounterEvents.id_at b -> a = b.
Proof.
  unfold CounterEvents.id_at. cbn [append]. intro H.
  apply string_of_nat_inj. congruence.
Qed.

Lemma grows_nothing (c : nat) (w w' : Component.World) :
  Component.messages w' = Component.messages w ->
  Component.messageCounter w' = Component.messageCounter w ->
  CounterEvents.grows c w w'.
Proof.
  intros Hm Hc. exists []. rewrite app_nil_r. cbn. repeat split; auto. lia.
Qed.

Lemma grows_one (browser : Component.Browser) (c : nat)
    (m : Component.PartialMessage) (w : Component.World) :
  exists w',
    Counter.addMessage browser c m w = Js.Done tt w' /\
    CounterEvents.grows c w w' /\
    Component.textInput w' = Component.textInput w.
Proof.
  eexists. split; [reflexivity|]. split; [|reflexivity].
  eexists [_]. split; [reflexivity|]. split; [reflexivity|].
  constructor; [reflexivity|constructor].
Qed.

Lemma grows_trans (c : nat) (w1 w2 w3 : Component.World) :
  CounterEvents.grows c w1 w2 -> CounterEvents.grows c w2 w3 ->
  CounterEvents.grows c w1 w3.
Proof.
  intros (n1 & M1 & C1 & F1) (n2 & M2 & C2 & F2).
  exists (n1 ++ n2)%list. rewrite M2, M1, C2, C1, <- app_assoc, length_app.
  repeat split; [lia|]. apply Forall_app. now split.
Qed.

(** What one event of the counter revision appends carries the id of the
    render whose closure ran, and the component survives it. *)
Lemma counter_step_grows
    (browser : Component.Browser) (e : CounterEvents.Happening)
    (h : CounterEvents.Hooks) :
  exists h',
    CounterEvents.step browser e h = Some h' /\
    CounterEvents.grows (CounterEvents.closure_of e h)
      (CounterEvents.world h) (CounterEvents.world h') /\
    (forall k, In k (CounterEvents.starting h') ->
               In k (CounterEvents.starting h)
               \/ k = Component.messageCounter (CounterEvents.world h)).
Proof.
  destruct h as [w pending].
  destruct e as [s| | |i c|chunk| |f];
    cbn [CounterEvents.step CounterEvents.closure_of CounterEvents.world
         CounterEvents.starting CounterEvents.on_world].
  - eexists. split; [reflexivity|].
    destruct (Counter.isTranscribing w); cbn; split; try (now apply grows_nothing);
      auto.
  - eexists. split; [reflexivity|]. cbn. split; [|auto].
    unfold Counter.handleTextSubmit.
    destruct (negb (Js.truthy (Js.VStr (Text.trim (Component.textInput w))))
              || Counter.isTranscribing w); [now apply grows_nothing|].
    unfold Js.bind.
    destruct (grows_one browser (Component.messageCounter w)
                (Component.turn (Js.VStr (Component.textInput w)) Component.user) w)
      as (w1 & -> & G1 & T1).
    match goal with
    | |- context [Counter.addMessage browser _ ?m w1] =>
        destruct (grows_one browser (Component.messageCounter w) m w1)
          as (w2 & -> & G2 & _)
    end.
    cbn [Js.modify Events.after].
    eapply grows_trans; [exact G1|]. eapply grows_trans; [exact G2|].
    now apply grows_nothing.
  - eexists. split; [reflexivity|].
    destruct (Counter.isTranscribing w);
      [cbn; split; [now apply grows_nothing|auto]|].
    unfold CounterEvents.handleVoiceClick.
    cbn [CounterEvents.world CounterEvents.starting CounterEvents.on_world].
    destruct (Component.isRecording w) eqn:Hrec;
      cbn [CounterEvents.world CounterEvents.starting CounterEvents.on_world].
    + split; [|auto].
      unfold Counter.stopRecording, Component.stopRecording, Js.bind, Js.gets.
      rewrite Hrec.
      destruct (Component.mediaRecorderRef w) as [r|];
        [|now apply grows_nothing].
      unfold Component.MediaRecorder_stop.
      destruct (Component.state r); now apply grows_nothing.
    + split; [now apply grows_nothing|].
      intros k Hk. apply in_app_or in Hk as [Hk|[Hk|[]]]; auto.
  - eexists. split; [reflexivity|].
    unfold CounterEvents.settle.
    cbn [CounterEvents.world CounterEvents.starting].
    destruct (nth_error pending i) as [k|] eqn:Hnth;
      cbn [CounterEvents.world CounterEvents.starting].
    2:{ split; [now apply grows_nothing|auto]. }
    rewrite (nth_error_nth _ _ _ Hnth). split.
    + unfold CounterEvents.resume, Component.startRecording, Js.try_catch,
        Js.bind.
      destruct c as [x|stream x|stream x|stream];
        cbn [Component.getUserMedia Component.new_MediaRecorder
             Component.MediaRecorder_start Js.throw Js.ret Js.modify].
      * destruct (grows_one browser k
                    (Component.turn
                       (Js.VStr "Error accessing microphone. Please check your permissions.")
                       Component.assistant) w) as (w1 & -> & G1 & _).
        exact G1.
      * destruct (grows_one browser k
                    (Component.turn
                       (Js.VStr "Error accessing microphone. Please check your permissions.")
                       Component.assistant) w) as (w1 & -> & G1 & _).
        exact G1.
      * match goal with
        | |- context [Counter.addMessage browser k ?m ?w0] =>
            destruct (grows_one browser k m w0) as (w1 & -> & G1 & _)
        end.
        eapply grows_trans; [|exact G1]. now apply grows_nothing.
      * now apply grows_nothing.
    + intros k' Hk'. left. clear Hnth. revert i Hk'.
      induction pending as [|x rest IH]; intros i Hk'; [destruct i; exact Hk'|].
      destruct i as [|i]; cbn [CounterEvents.without] in Hk'.
      * now right.
      * destruct Hk' as [->|Hk']; [now left|]. right. exact (IH i Hk').
  - eexists. split; [reflexivity|]. cbn. split; [now apply grows_nothing|auto].
  - eexists. split; [reflexivity|]. cbn. split; [now apply grows_nothing|auto].
  - unfold Counter.onTranscribeFetcher.
    cbn [Component.transcribeFetcher Component.with_transcribeFetcher
         Component.messageCounter].
    destruct (Js.truthy (Component.data f)
              && negb (Js.truthy (Js.get_opt (Component.data f) "error"))
              && negb (Component.busy f)) eqn:Hgo.
    + apply andb_true_iff in Hgo as [Hgo _].
      apply andb_true_iff in Hgo as [Hd _].
      unfold Js.bind.
      rewrite (get_not_nullish _ "text" _ (truthy_not_nullish _ Hd)).
      match goal with
      | |- context [Counter.addMessage browser ?k ?m ?w0] =>
          destruct (grows_one browser k m w0) as (w1 & -> & G1 & _)
      end.
      match goal with
      | |- context [Counter.addMessage browser ?k ?m w1] =>
          destruct (grows_one browser k m w1) as (w2 & E2 & G2 & _)
      end.
      rewrite E2. eexists. split; [reflexivity|]. cbn. split; [|auto].
      eapply grows_trans; [|eapply grows_trans; [exact G1|exact G2]].
      now apply grows_nothing.
    + destruct (Js.truthy (Js.get_opt (Component.data f) "error")).
      * match goal with
        | |- context [Counter.addMessage browser ?k ?m ?w0] =>
            destruct (grows_one browser k m w0) as (w1 & E1 & G1 & _)
        end.
        rewrite E1. eexists. split; [reflexivity|]. cbn. split; [|auto].
        eapply grows_trans; [|exact G1]. now apply grows_nothing.
      * eexists. split; [reflexivity|]. cbn.
        split; [now apply grows_nothing|auto].
Qed.

Lemma counted_grows (k : nat) (w w' : Component.World) :
  CounterEvents.counted w ->
  k <= Component.messageCounter w ->
  CounterEvents.grows k w w' ->
  CounterEvents.counted w'.
Proof.
  intros [Hc Hids] Hk (new & M & C & F). split.
  - rewrite M, C, length_app. lia.
  - rewrite M. apply Forall_app. split.
    + eapply Forall_impl; [|exact Hids]. cbn.
      intros m (j & Hj & Hlt). exists j. split; [exact Hj|lia].
    + destruct new as [|m0 rest]; [constructor|].
      eapply Forall_impl; [|exact F]. cbn.
      intros m Hm. exists k. split; [exact Hm|].
      rewrite C. cbn [length]. lia.
Qed.

(** The closure an event runs in is never one of a future render. *)
Lemma closure_of_past (e : CounterEvents.Happening) (h : CounterEvents.Hooks) :
  CounterEvents.sound h ->
  CounterEvents.closure_of e h
  <= Component.messageCounter (CounterEvents.world h).
Proof.
  intros [_ Hp]. destruct e; cbn [CounterEvents.closure_of]; try lia.
  destruct (nth_in_or_default i (CounterEvents.starting h)
              (Component.messageCounter (CounterEvents.world h))) as [Hin| ->];
    [|lia].
  rewrite Forall_forall in Hp. exact (Hp _ Hin).
Qed.

Lemma counter_step_sound
    (browser : Component.Browser) (e : CounterEvents.Happening)
    (h : CounterEvents.Hooks) :
  CounterEvents.sound h ->
  exists h',
    CounterEvents.step browser e h = Some h' /\ CounterEvents.sound h'.
Proof.
  intro Hs. pose proof (closure_of_past e h Hs) as Hk.
  destruct (counter_step_grows browser e h) as (h' & E & G & P).
  exists h'. split; [exact E|]. destruct Hs as [Hc Hp]. split.
  - exact (counted_grows _ _ _ Hc Hk G).
  - destruct G as (new & _ & C & _).
    rewrite Forall_forall in Hp. apply Forall_forall. intros k Hin.
    destruct (P k Hin) as [Hold| ->]; [specialize (Hp k Hold)|]; lia.
Qed.

Lemma counter_run_sound
    (browser : Component.Browser) (events : list CounterEvents.Happening)
    (h : CounterEvents.Hooks) :
  CounterEvents.sound h ->
  exists h',
    CounterEvents.run browser events h = Some h' /\ CounterEvents.sound h'.
Proof.
  revert h. induction events as [|e rest IH]; intros h H.
  - exists h. now split.
  - cbn [CounterEvents.run].
    destruct (counter_step_sound browser e h H) as (h1 & -> & H1).
    exact (IH h1 H1).
Qed.

Lemma counter_start_sound : CounterEvents.sound CounterEvents.start.
Proof. split; [split; [reflexivity|constructor]|constructor]. Qed.


(** X17.  In the counter revision every event leaves the turns that were
    there in place and appends its own after them, all with one id.  For
    every event but one that id differs from the id of every turn that was
    there.  The exception is the [catch] of a [startRecording] whose
    [getUserMedia] settles late: it runs in the closure of the render of the
    click, and after a click, a submission and a rejection the conversation
    holds [msg-0] three times. *)
Theorem counter_ids_repeat_only_by_a_late_catch
    (browser : Component.Browser) (events : list CounterEvents.Happening)
    (e : CounterEvents.Happening) :
  (exists h h' new,
     CounterEvents.run browser events CounterEvents.start = Some h /\
     CounterEvents.step browser e h = Some h' /\
     Component.messages (CounterEvents.world h')
       = (Component.messages (CounterEvents.world h) ++ new)%list /\
     (forall m m', In m new -> In m' new -> Component.id m = Component.id m') /\
     match e with
     | CounterEvents.MediaSettles _ _ => True
     | _ =>
         forall m m',
           In m (Component.messages (CounterEvents.world h)) -> In m' new ->
           Component.id m <> Component.id m'
     end) /\
  (forall err, exists h,
     CounterEvents.run browser
       [CounterEvents.Presses; CounterEvents.Types "hi"; CounterEvents.Submits;
        CounterEvents.MediaSettles 0 (Component.GetUserMediaRejects err)]
       CounterEvents.start = Some h /\
     map Component.id (Component.messages (CounterEvents.world h))
       = ["msg-0"; "msg-0"; "msg-0"] /\
     map Component.type (Component.messages (CounterEvents.world h))
       = [Component.user; Component.assistant; Component.assistant]).
Proof.
  split.
  - destruct (counter_run_sound browser events CounterEvents.start
                counter_start_sound) as (h & E & [[_ Hids] _]).
    destruct (counter_step_grows browser e h) as (h' & E' & (new & M & _ & F) & _).
    exists h, h', new. split; [exact E|]. split; [exact E'|].
    split; [exact M|]. rewrite Forall_forall in F, Hids. split.
    + intros m m' Hm Hm'. now rewrite (F m Hm), (F m' Hm').
    + assert (Hfresh : CounterEvents.closure_of e h
                       = Component.messageCounter (CounterEvents.world h) ->
                       forall m m',
                         In m (Component.messages (CounterEvents.world h)) ->
                         In m' new -> Component.id m <> Component.id m').
      { intros Hc m m' Hm Hm' Heq.
        destruct (Hids m Hm) as (k & Hk & Hlt).
        rewrite Hk, (F m' Hm'), Hc in Heq. apply id_at_inj in Heq. lia. }
      destruct e; try exact I; apply Hfresh; reflexivity.
  - intro err. eexists. split; [reflexivity|]. split; reflexivity.
Qed.

(* ===================================================================== *)
(** ** The chained revision under every sequence of events *)
(* ===================================================================== *)

Lemma stamp_from_app (browser : Component.Browser) (k : nat)
    (ps qs : list Component.PartialMessage) :
  ChainedEvents.stamp_from browser k (ps ++ qs)
  = (ChainedEvents.stamp_from browser k ps
       ++ ChainedEvents.stamp_from browser (k + 3 * length ps) qs)%list.
Proof.
  revert k. induction ps as [|p rest IH]; intro k; cbn [app ChainedEvents.stamp_from length].
  - now rewrite Nat.mul_0_r, Nat.add_0_r.
  - rewrite IH. do 3 f_equal. lia.
Qed.

Lemma adds_nothing (browser : Component.Browser) (w w' : Component.World) :
  Component.messages w' = Component.messages w ->
  Component.ticks w' = Component.ticks w ->
  ChainedEvents.adds browser w w'.
Proof.
  intros Hm Ht. exists []. cbn. rewrite app_nil_r. split; [exact Hm|lia].
Qed.

Lemma adds_trans (browser : Component.Browser) (w1 w2 w3 : Component.World) :
  ChainedEvents.adds browser w1 w2 -> ChainedEvents.adds browser w2 w3 ->
  ChainedEvents.adds browser w1 w3.
Proof.
  intros (n1 & M1 & T1) (n2 & M2 & T2). exists (n1 ++ n2)%list.
  rewrite M2, M1, T2, T1, <- app_assoc, stamp_from_app, length_app.
  split; [reflexivity|lia].
Qed.

Lemma adds_turn (browser : Component.Browser)
    (m : Component.PartialMessage) (w : Component.World) :
  ChainedEvents.adds browser w (Scenario.after_turn browser m w).
Proof. exists [m]. split; [reflexivity|]. cbn. lia. Qed.

(** Every event of the chained revision appends, and stamps what it
    appends with the next readings. *)
Lemma chained_step_adds
    (browser : Component.Browser) (e : Events.Event) (w : Component.World) :
  ChainedEvents.adds browser w (ChainedEvents.step browser e w).
Proof.
  destruct e as [s| |c|chunk| |r|f]; cbn [ChainedEvents.step].
  - destruct (Chained.isTranscribing w); now apply adds_nothing.
  - unfold Chained.handleTextSubmit.
    destruct (negb (Js.truthy (Js.VStr (Text.trim (Component.textInput w))))
              || Chained.isTranscribing w); [now apply adds_nothing|].
    unfold Js.bind, Chained.addMessage. rewrite addMessage_stamped_spec.
    cbn [Component.send Js.modify Js.ret Events.after].
    eapply adds_trans; [apply adds_turn|]. now apply adds_nothing.
  - unfold Chained.voiceButton.
    destruct (Chained.isTranscribing w); [now apply adds_nothing|].
    unfold Chained.handleVoiceClick, Component.handleVoiceClick, Js.bind,
      Js.gets.
    destruct (Component.isRecording w) eqn:Hrec.
    + unfold Component.stopRecording, Js.bind, Js.gets. rewrite Hrec.
      destruct (Component.mediaRecorderRef w) as [r|];
        [|now apply adds_nothing].
      unfold Component.MediaRecorder_stop.
      destruct (Component.state r); now apply adds_nothing.
    + unfold Component.startRecording, Js.try_catch, Js.bind, Chained.addMessage.
      destruct c as [x|stream x|stream x|stream];
        cbn [Component.getUserMedia Component.new_MediaRecorder
             Component.MediaRecorder_start Js.throw Js.ret Js.modify];
        rewrite ?addMessage_stamped_spec; cbn [Events.after].
      * apply adds_turn.
      * apply adds_turn.
      * eapply adds_trans; [|apply adds_turn]. now apply adds_nothing.
      * now apply adds_nothing.
  - now apply adds_nothing.
  - now apply adds_nothing.
  - pose proof (chained_resume_table browser r w) as H. cbv zeta in H.
    rewrite H. cbn [Events.after].
    eapply adds_trans; [|eapply adds_trans; [apply adds_turn|]];
      now apply adds_nothing.
  - pose proof (chained_effect_table browser f w) as H. cbv zeta in H.
    repeat match type of H with
           | if ?b then _ else _ => destruct b
           end; rewrite H; cbn [Events.after].
    + now apply adds_nothing.
    + now apply adds_nothing.
    + eapply adds_trans; [|apply adds_turn]. now apply adds_nothing.
    + eapply adds_trans; [|eapply adds_trans; [apply adds_turn|apply adds_turn]].
      now apply adds_nothing.
    + eapply adds_trans; [|apply adds_turn]. now apply adds_nothing.
    + eapply adds_trans; [|eapply adds_trans; [apply adds_turn|apply adds_turn]].
      now apply adds_nothing.
Qed.

Lemma chained_run_in_order
    (browser : Component.Browser) (events : list Events.Event)
    (w : Component.World) (ps : list Component.PartialMessage) :
  Component.messages w = ChainedEvents.stamp_from browser 0 ps ->
  Component.ticks w = 3 * length ps ->
  exists qs,
    Component.messages (ChainedEvents.run browser events w)
      = ChainedEvents.stamp_from browser 0 (ps ++ qs) /\
    Component.ticks (ChainedEvents.run browser events w)
      = 3 * length (ps ++ qs).
Proof.
  revert w ps. induction events as [|e rest IH]; intros w ps Hm Ht.
  - exists []. rewrite app_nil_r. now split.
  - cbn [ChainedEvents.run].
    destruct (chained_step_adds browser e w) as (new & M & T).
    destruct (IH (ChainedEvents.step browser e w) (ps ++ new)%list)
      as (qs & Hq & Hk).
    + rewrite M, Hm, Ht, stamp_from_app. reflexivity.
    + rewrite T, Ht, length_app. lia.
    + exists (new ++ qs)%list. rewrite app_assoc. now split.
Qed.

(** X18.  In the chained revision, after every sequence of events from the
    empty conversation, the turns are exactly what [addMessage] built, in
    order, and nothing else has read the clock or the random generator: turn
    number [i] has the id [msg-<clock 3i>-<random 3i+1>] and the timestamp of
    clock reading [3i+2], whatever its content.  Its id therefore repeats an
    earlier one only if the browser repeats both readings. *)
Theorem chained_turns_are_stamped_in_order
    (browser : Component.Browser) (events : list Events.Event) :
  let w := ChainedEvents.run browser events Component.initial in
  Component.ticks w = 3 * length (Component.messages w) /\
  forall i m,
    nth_error (Component.messages w) i = Some m ->
    Component.id m
      = "msg-" ++ Js.string_of_N (Component.Date_now browser (3 * i)) ++ "-"
          ++ Component.random_suffix browser (S (3 * i)) /\
    Component.timestamp m = Component.Date_now browser (S (S (3 * i))).
Proof.
  cbv zeta.
  destruct (chained_run_in_order browser events Component.initial []
              eq_refl eq_refl) as (qs & Hm & Ht).
  cbn [app] in Hm, Ht. rewrite Hm, Ht. clear Hm Ht.
  assert (Hlen : forall k ps,
             length (ChainedEvents.stamp_from browser k ps) = length ps).
  { intros k ps. revert k. induction ps as [|p r IH]; intro k; cbn; auto. }
  split; [now rewrite Hlen|].
  assert (Hnth : forall ps k i m,
             nth_error (ChainedEvents.stamp_from browser k ps) i = Some m ->
             exists p, m = Obs.stamped browser (k + 3 * i) p).
  { induction ps as [|p r IH]; intros k i m H.
    - destruct i; discriminate H.
    - destruct i as [|i]; cbn in H.
      + inversion H. exists p. now rewrite Nat.mul_0_r, Nat.add_0_r.
      + destruct (IH _ _ _ H) as (q & ->). exists q. f_equal. lia. }
  intros i m H. destruct (Hnth _ _ _ _ H) as (p & ->).
  cbn [Nat.add]. split; reflexivity.
Qed.


(* ===================================================================== *)
(** ** The simulated revision under every sequence of events *)
(* ===================================================================== *)

Lemma turns_of_app (t : Component.MessageType) (l : list Component.Message)
    (m : Component.Message) :
  Simulated.turns_of t (l ++ [m])
  = Simulated.turns_of t l + Simulated.turns_of t [m].
Proof.
  unfold Simulated.turns_of. now rewrite filter_app, length_app.
Qed.

(** What one event does to the recorder hooks only. *)
Lemma simulated_recorder_frame
    (c : Js.M Component.World unit) (h : Simulated.Hooks) :
  (forall w, Component.messages (Events.after (c w)) = Component.messages w /\
             Component.requests (Events.after (c w)) = Component.requests w /\
             Component.pendingFetches (Events.after (c w))
               = Component.pendingFetches w /\
             Component.transcribeFetcher (Events.after (c w))
               = Component.transcribeFetcher w /\
             Component.textFetcher (Events.after (c w))
               = Component.textFetcher w) ->
  let h' := Events.after (Simulated.lift c h) in
  Component.messages (Simulated.world h') = Component.messages (Simulated.world h) /\
  Component.requests (Simulated.world h') = Component.requests (Simulated.world h) /\
  Component.pendingFetches (Simulated.world h')
    = Component.pendingFetches (Simulated.world h) /\
  Component.transcribeFetcher (Simulated.world h')
    = Component.transcribeFetcher (Simulated.world h) /\
  Component.textFetcher (Simulated.world h')
    = Component.textFetcher (Simulated.world h) /\
  Simulated.isProcessing h' = Simulated.isProcessing h /\
  Simulated.timers h' = Simulated.timers h.
Proof.
  intro H. cbv zeta. unfold Simulated.lift.
  specialize (H (Simulated.world h)).
  destruct (c (Simulated.world h)) as [a w'|e w']; cbn in *; intuition.
Qed.

Lemma recorder_handlers_frame (c : Component.Capture) (chunk : Http.Blob) :
  let framed (k : Js.M Component.World unit) :=
    forall w, Component.messages (Events.after (k w)) = Component.messages w /\
              Component.requests (Events.after (k w)) = Component.requests w /\
              Component.pendingFetches (Events.after (k w))
                = Component.pendingFetches w /\
              Component.transcribeFetcher (Events.after (k w))
                = Component.transcribeFetcher w /\
              Component.textFetcher (Events.after (k w))
                = Component.textFetcher w in
  framed (Component.startRecording (fun _ => Js.ret tt) c) /\
  framed Component.stopRecording /\
  framed (Component.ondataavailable chunk).
Proof.
  cbv zeta. repeat split.
  all: try (unfold Component.startRecording, Js.try_catch, Js.bind;
            destruct c; reflexivity).
  all: try (unfold Component.stopRecording, Js.bind, Js.gets;
            destruct (Component.mediaRecorderRef w) as [r|]; [|reflexivity];
            destruct (Component.isRecording w); [|reflexivity];
            unfold Component.MediaRecorder_stop;
            destruct (Component.state r); reflexivity).
Qed.

(** What one event of the simulated revision does to the three things the
    two invariants speak of. *)
Lemma simulated_step_keeps
    (browser : Component.Browser) (e : Simulated.Happening)
    (h : Simulated.Hooks) :
  Simulated.quiet h -> Simulated.balanced h ->
  Simulated.quiet (Simulated.step browser e h) /\
  Simulated.balanced (Simulated.step browser e h).
Proof.
  intros (Q1 & Q2 & Q3 & Q4) (B1 & B2 & B3).
  destruct (recorder_handlers_frame
              match e with Simulated.Presses c => c
                         | _ => Component.Captures [] end
              match e with Simulated.Delivers chunk => chunk
                         | _ => Obs.chunk end)
    as (Fstart & Fstop & Fdata).
  destruct e as [s| |c|chunk| |]; cbn [Simulated.step].
  - unfold Simulated.quiet, Simulated.balanced. cbn. intuition.
  - unfold Simulated.handleTextSubmit.
    destruct (negb (Js.truthy (Js.VStr
                (Text.trim (Component.textInput (Simulated.world h)))))
              || Simulated.isProcessing h);
      [unfold Simulated.quiet, Simulated.balanced; intuition|].
    unfold Simulated.quiet, Simulated.balanced.
    cbn -[Simulated.turns_of].
    rewrite !turns_of_app, length_app. cbn.
    repeat split; try assumption; try lia.
    intros _ H. apply app_eq_nil in H as [_ H]. discriminate H.
  - unfold Simulated.handleVoiceClick.
    destruct (Component.isRecording (Simulated.world h)).
    + destruct (simulated_recorder_frame Component.stopRecording h Fstop)
        as (M & R & P & T & X & I & Tm).
      unfold Simulated.stopRecording, Simulated.quiet, Simulated.balanced.
      rewrite M, R, P, T, X, I, Tm. intuition.
    + destruct (simulated_recorder_frame
                  (Component.startRecording (fun _ => Js.ret tt) c) h Fstart)
        as (M & R & P & T & X & I & Tm).
      unfold Simulated.startRecording, Simulated.quiet, Simulated.balanced.
      rewrite M, R, P, T, X, I, Tm. intuition.
  - destruct (simulated_recorder_frame (Component.ondataavailable chunk) h Fdata)
      as (M & R & P & T & X & I & Tm).
    unfold Simulated.quiet, Simulated.balanced.
    rewrite M, R, P, T, X, I, Tm. intuition.
  - unfold Simulated.quiet, Simulated.balanced.
    cbn -[Simulated.turns_of].
    rewrite !turns_of_app, length_app. cbn.
    repeat split; try assumption; try lia.
    intros _ H. apply app_eq_nil in H as [_ H]. discriminate H.
  - clear Fstart Fstop Fdata. unfold Simulated.timerFires.
    destruct (Simulated.timers h) as [|t rest] eqn:Ht.
    + cbn. unfold Simulated.quiet, Simulated.balanced. cbn. rewrite Ht.
      cbn. repeat split; assumption.
    + destruct t as [txt|]; unfold Simulated.quiet, Simulated.balanced;
        cbn -[Simulated.turns_of];
        rewrite !turns_of_app; cbn; cbn in B1;
        repeat split; try assumption; try lia; discriminate.
Qed.

Lemma simulated_run_keeps
    (browser : Component.Browser) (events : list Simulated.Happening)
    (h : Simulated.Hooks) :
  Simulated.quiet h -> Simulated.balanced h ->
  Simulated.quiet (Simulated.run browser events h) /\
  Simulated.balanced (Simulated.run browser events h).
Proof.
  revert h. induction events as [|e rest IH]; intros h Q B; [now split|].
  cbn [Simulated.run].
  destruct (simulated_step_keeps browser e h Q B) as [Q' B'].
  now apply IH.
Qed.

Lemma simulated_start_keeps :
  Simulated.quiet Simulated.start /\ Simulated.balanced Simulated.start.
Proof.
  split; [repeat split|]. split; [reflexivity|]. split; [reflexivity|].
  discriminate.
Qed.

(** X20.  The simulated revision talks to nobody: after every sequence of
    typing, submitting, pressing, recording and timers from the start,
    nothing has been sent, no fetch is pending and both fetchers are as they
    were at the start.  A recording, whatever it holds, never leaves the
    browser. *)
Theorem simulated_sends_nothing
    (browser : Component.Browser) (events : list Simulated.Happening) :
  let h := Simulated.run browser events Simulated.start in
  Component.requests (Simulated.world h) = [] /\
  Component.pendingFetches (Simulated.world h) = 0 /\
  Component.transcribeFetcher (Simulated.world h)
    = Component.transcribeFetcher Component.initial /\
  Component.textFetcher (Simulated.world h)
    = Component.textFetcher Component.initial.
Proof.
  destruct simulated_start_keeps as [Q B].
  exact (proj1 (simulated_run_keeps browser events Simulated.start Q B)).
Qed.

(** X21.  In the simulated revision every user turn gets exactly one reply:
    after every sequence of events from the start, the user turns are as many
    as the assistant turns in the conversation plus the replies still waiting
    on a timer; there is no turn of type [ai]; and whenever [isProcessing] is
    shown, a reply is waiting. *)
Theorem simulated_every_turn_is_answered_once
    (browser : Component.Browser) (events : list Simulated.Happening) :
  let h := Simulated.run browser events Simulated.start in
  Simulated.turns_of Component.user (Component.messages (Simulated.world h))
    = Simulated.turns_of Component.assistant
        (Component.messages (Simulated.world h))
      + length (Simulated.timers h) /\
  Simulated.turns_of Component.ai (Component.messages (Simulated.world h)) = 0 /\
  (Simulated.isProcessing h = true -> Simulated.timers h <> []).
Proof.
  destruct simulated_start_keeps as [Q B].
  exact (proj2 (simulated_run_keeps browser events Simulated.start Q B)).
Qed.

Lemma simulated_submit_while_processing
    (browser : Component.Browser) (h : Simulated.Hooks) :
  Simulated.isProcessing h = true ->
  Simulated.step browser Simulated.Submits h = h.
Proof.
  intro H. cbn [Simulated.step]. unfold Simulated.handleTextSubmit.
  now rewrite H, orb_true_r.
Qed.

(** X22.  The canned reply of the simulated revision quotes the text as it
    was when the form was submitted.  Whatever is typed between the
    submission and the timer, the conversation grows by the user turn with
    the submitted text and the reply quoting that same text; the timer then
    clears the field, wiping what was typed in between, and a second
    submission before the timer changes nothing. *)
Theorem simulated_reply_quotes_the_submitted_text
    (browser : Component.Browser) (later : string) (h : Simulated.Hooks) :
  let txt := Component.textInput (Simulated.world h) in
  Text.blank txt = false ->
  Simulated.isProcessing h = false ->
  Simulated.timers h = [] ->
  let h1 := Simulated.step browser Simulated.Submits h in
  let h2 := Simulated.run browser
              [Simulated.Submits; Simulated.Types later; Simulated.Submits;
               Simulated.TimerFires] h in
  Simulated.step browser Simulated.Submits h1 = h1 /\
  exists m1 m2,
    Component.messages (Simulated.world h2)
      = (Component.messages (Simulated.world h) ++ [m1; m2])%list /\
    Obs.is_turn Component.user (Js.VStr txt) None m1 /\
    Obs.is_turn Component.assistant (Simulated.received txt) None m2 /\
    Component.textInput (Simulated.world h2) = EmptyString /\
    Simulated.isProcessing h2 = false /\
    Simulated.timers h2 = [].
Proof.
  cbv zeta. intros Hb Hp Ht.
  cbn [Simulated.run].
  set (h1 := Simulated.step browser Simulated.Submits h).
  assert (E1 : h1 = Events.after
            ((m <- Simulated.lift
                     (Simulated.newMessage browser 0
                        (Js.VStr (Component.textInput (Simulated.world h)))
                        Component.user None) ;;
              Simulated.lift (Component.appendMessage m) ;;;
              Simulated.setIsProcessing true ;;;
              Simulated.setTimeout
                (Simulated.TextReply
                   (Component.textInput (Simulated.world h)))) h)).
  { subst h1. cbn [Simulated.step]. unfold Simulated.handleTextSubmit.
    now rewrite truthy_trim, Hb, Hp. }
  assert (P1 : Simulated.isProcessing h1 = true) by (now rewrite E1).
  split; [now apply simulated_submit_while_processing|].
  set (h2 := Simulated.step browser (Simulated.Types later) h1).
  assert (P2 : Simulated.isProcessing h2 = true) by exact P1.
  rewrite (simulated_submit_while_processing browser h2 P2).
  subst h2. rewrite E1. cbn. rewrite Ht. cbn.
  do 2 eexists. split; [rewrite <- app_assoc; reflexivity|].
  repeat split.
Qed.

Lemma simulated_reply_quotes_the_submitted_text_witness :
  let browser := Obs.steady 1700000000000 "k3j9x2m1q" in
  let h := Events.after
             (Simulated.lift (Js.modify (Component.with_textInput "hello"))
                Simulated.start) in
  let h2 := Simulated.run browser
              [Simulated.Submits; Simulated.Types "never mind";
               Simulated.Submits; Simulated.TimerFires] h in
  map Component.content (Component.messages (Simulated.world h2))
    = [Js.VStr "hello"; Simulated.received "hello"] /\
  Component.textInput (Simulated.world h2) = EmptyString.
Proof.
  cbv zeta.
  destruct (simulated_reply_quotes_the_submitted_text
              (Obs.steady 1700000000000 "k3j9x2m1q") "never mind"
              (Events.after
                 (Simulated.lift (Js.modify (Component.with_textInput "hello"))
                    Simulated.start))
              eq_refl eq_refl eq_refl)
    as (_ & m1 & m2 & M & (_ & C1 & _) & (_ & C2 & _) & T & _).
  split; [|exact T].
  rewrite M. cbn. rewrite C1, C2. reflexivity.
Defined.

(* ===================================================================== *)
(** ** The counter revision with two fetchers *)
(* ===================================================================== *)

Lemma counter_fetchers_grows_one (browser : Component.Browser) (c : nat)
    (m : Component.PartialMessage) (w : Component.World) :
  exists w',
    CounterFetchers.addMessage browser c m w = Js.Done tt w' /\
    Component.messages w'
      = (Component.messages w
           ++ [Component.fullMessage (CounterEvents.id_at c)
                 (Component.Date_now browser (Component.ticks w)) m])%list /\
    Component.messageCounter w' = Component.messageCounter w + 1.
Proof. eexists. repeat split. Qed.

Lemma counter_fetchers_ai_turns (browser : Component.Browser) (c : nat)
    (d : Js.value) (w : Component.World) :
  Js.truthy d = true ->
  exists new w',
    CounterFetchers.showAiResponse browser c d w = Js.Done tt w' /\
    Component.messages w' = (Component.messages w ++ new)%list /\
    length new = CounterFetchers.ai_turns d /\
    Forall (fun m => Component.id m = CounterEvents.id_at c) new /\
    Component.messageCounter w'
      = Component.messageCounter w + CounterFetchers.ai_turns d.
Proof.
  intro Hd. unfold CounterFetchers.showAiResponse, CounterFetchers.ai_turns.
  unfold Js.bind at 1.
  rewrite (get_not_nullish d "ai_response" w (truthy_not_nullish d Hd)).
  destruct (Js.truthy (Js.get_opt (Js.get_opt d "ai_response") "response"))
    eqn:Hr.
  - assert (Hn : Obs.nullish (Js.get_opt d "ai_response") = false).
    { destruct (Js.get_opt d "ai_response"); try reflexivity;
        discriminate Hr. }
    unfold Js.bind. rewrite (get_not_nullish _ "response" w Hn).
    destruct (counter_fetchers_grows_one browser c
                (Component.turn
                   (Js.get_opt (Js.get_opt d "ai_response") "response")
                   Component.ai) w) as (w' & E & M & C).
    exists [Component.fullMessage (CounterEvents.id_at c)
              (Component.Date_now browser (Component.ticks w))
              (Component.turn
                 (Js.get_opt (Js.get_opt d "ai_response") "response")
                 Component.ai)], w'.
    repeat split; try assumption. constructor; [reflexivity|constructor].
  - destruct (Js.truthy (Js.get_opt (Js.get_opt d "ai_response") "error"))
      eqn:He.
    + assert (Hn : Obs.nullish (Js.get_opt d "ai_response") = false).
      { destruct (Js.get_opt d "ai_response"); try reflexivity;
          discriminate He. }
      unfold Js.bind. rewrite (get_not_nullish _ "error" w Hn).
      match goal with
      | |- context [CounterFetchers.addMessage browser c ?m w] =>
          destruct (counter_fetchers_grows_one browser c m w)
            as (w' & E & M & C);
          exists [Component.fullMessage (CounterEvents.id_at c)
                    (Component.Date_now browser (Component.ticks w)) m], w'
      end.
      repeat split; try assumption. constructor; [reflexivity|constructor].
    + exists [], w. rewrite app_nil_r. repeat split; [constructor|lia].
Qed.

(** X23.  In the counter revision with two fetchers, every turn that one run
    of the transcription effect appends carries the same identifier, the one
    of the counter of the render the effect ran in.  A settled transcription
    without error appends two turns, and a third when its [ai_response] has a
    truthy [response] or [error]; a payload with a truthy [error] appends
    one; anything else none.  The effect never throws, and the counter moves
    by the number of turns appended. *)
Theorem counter_fetchers_turns_share_an_id
    (browser : Component.Browser) (w : Component.World) :
  let d := Component.data (Component.transcribeFetcher w) in
  let n := if CounterFetchers.succeeded (Component.transcribeFetcher w)
           then 2 + CounterFetchers.ai_turns d
           else if Js.truthy (Js.get_opt d "error") then 1 else 0 in
  exists new w',
    CounterFetchers.onTranscribeFetcher browser w = Js.Done tt w' /\
    Component.messages w' = (Component.messages w ++ new)%list /\
    length new = n /\
    Forall (fun m => Component.id m
                     = CounterEvents.id_at (Component.messageCounter w)) new /\
    Component.messageCounter w' = Component.messageCounter w + n.
Proof.
  cbv zeta.
  unfold CounterFetchers.onTranscribeFetcher, CounterFetchers.succeeded.
  destruct (Js.truthy (Component.data (Component.transcribeFetcher w))) eqn:Hd.
  2: { cbn [andb].
       destruct (Js.truthy
                   (Js.get_opt (Component.data (Component.transcribeFetcher w))
                      "error")) eqn:He.
       - match goal with
         | |- context [CounterFetchers.addMessage browser ?c ?m w] =>
             destruct (counter_fetchers_grows_one browser c m w)
               as (w' & E & M & C);
             exists [Component.fullMessage (CounterEvents.id_at c)
                       (Component.Date_now browser (Component.ticks w)) m], w'
         end.
         repeat split; try assumption. constructor; [reflexivity|constructor].
       - exists [], w. rewrite app_nil_r. repeat split; [constructor|lia]. }
  destruct (Js.truthy
              (Js.get_opt (Component.data (Component.transcribeFetcher w))
                 "error")) eqn:He; cbn [andb negb].
  - match goal with
    | |- context [CounterFetchers.addMessage browser ?c ?m w] =>
        destruct (counter_fetchers_grows_one browser c m w)
          as (w' & E & M & C);
        exists [Component.fullMessage (CounterEvents.id_at c)
                  (Component.Date_now browser (Component.ticks w)) m], w'
    end.
    repeat split; try assumption. constructor; [reflexivity|constructor].
  - destruct (Component.busy (Component.transcribeFetcher w)); cbn [negb].
    { exists [], w. rewrite app_nil_r. repeat split; [constructor|lia]. }
    pose proof (truthy_not_nullish _ Hd) as Hn.
    unfold Js.bind at 1. rewrite (get_not_nullish _ "text" w Hn).
    unfold Js.bind at 1.
    match goal with
    | |- context [CounterFetchers.addMessage browser ?c ?m w] =>
        destruct (counter_fetchers_grows_one browser c m w)
          as (w1 & -> & M1 & C1)
    end.
    unfold Js.bind at 1. rewrite (get_not_nullish _ "language" w1 Hn).
    unfold Js.bind at 1.
    match goal with
    | |- context [CounterFetchers.addMessage browser ?c ?m w1] =>
        destruct (counter_fetchers_grows_one browser c m w1)
          as (w2 & -> & M2 & C2)
    end.
    destruct (counter_fetchers_ai_turns browser (Component.messageCounter w)
                (Component.data (Component.transcribeFetcher w)) w2 Hd)
      as (new & w3 & -> & M3 & L3 & F3 & C3).
    eexists (_ :: _ :: new), w3.
    split; [reflexivity|].
    split; [rewrite M3, M2, M1, <- !app_assoc; reflexivity|].
    split; [cbn [length]; now rewrite L3|].
    split; [repeat (constructor; [reflexivity|]); exact F3|].
    rewrite C3, C2, C1. lia.
Qed.
